(** * PluginsService: a shallow embedding of the NativeScript CLI plugin service

    The development follows [PluginsService] (install / remove orchestration,
    the package.json dependency mutator, the per-platform version check and
    the hash-gated native prepare step).

    Conventions of the embedding.
    - A JavaScript object used as a dictionary is a finite map of its own
      properties ([gmap string _]); an absent key reads as [undefined], which
      is [None].
    - Truthiness tests of the source are kept: a string is truthy iff it is
      not empty, an object is always truthy, [undefined] is falsy.
    - An [async] method is a computation in the monad [M]: it threads the
      world (file system and the chronological list of calls made on the
      collaborators) and may throw.  A thrown exception keeps the effects
      performed before it.
    - Injected services ([$fs] apart, which is a concrete map from paths to
      file contents) are fields of the record [Injector]. *)

From Stdlib Require Import String Ascii List Bool Arith Lia.
From Stdlib Require QArith Qround.
From stdpp Require Import base option gmap strings list fin_maps pretty.
Import ListNotations.
Open Scope string_scope.

(** ** Results and the service monad *)

Inductive Exn : Type :=
| FailError (message : string)          (* raised by [$errors.fail] *)
| TypeError (message : string)          (* property access on undefined / null *)
| JsonReadError (filename : string)     (* [$fs.readJson] could not produce the document *)
| ExternalError (message : string).     (* thrown by a collaborator *)

Inductive Res (A : Type) : Type :=
| Ok (a : A)
| Throw (e : Exn).
Arguments Ok {A} a.
Arguments Throw {A} e.

(** ** Data model *)

Abbreviation IStringDictionary := (gmap string string).

(** The [nativescript] section of a package.json. *)
Record NativescriptData : Type := {
  platforms : option IStringDictionary;
  variables : option IStringDictionary
}.

Record PackageJson : Type := {
  pj_name : string;
  pj_version : string;
  dependencies : option IStringDictionary;
  devDependencies : option IStringDictionary;
  nativescript : option NativescriptData
}.

Record IPluginData : Type := {
  name : string;
  version : string;
  fullPath : string;
  isPlugin : bool;
  pluginPlatformsFolderPath : string -> string;
  platformsDataService : option IStringDictionary;
  pluginVariables : option IStringDictionary
}.

Record IProjectData : Type := {
  projectDir : string;
  platformsDir : string
}.

Record INodeModuleData : Type := {
  nm_name : string;
  nm_version : string;
  nm_fullPath : string;
  nm_isPlugin : bool;
  moduleInfo : option NativescriptData
}.

(** The loosely typed argument of [convertToPluginData]: the fields it reads. *)
Record CacheData : Type := {
  cd_name : string;
  cd_version : string;
  cd_directory : option string;
  cd_nativescript : option NativescriptData;
  cd_moduleInfo : option NativescriptData
}.

Record INodePackageManagerInstallOptions : Type := {
  disableNpmInstall : bool;
  frameworkPath : option string;
  ignoreScripts : bool;
  path : option string;
  save : bool
}.

Record IOptions : Type := {
  opt_disableNpmInstall : bool;
  opt_frameworkPath : option string;
  opt_ignoreScripts : bool;
  opt_path : option string;
  force : bool
}.

Record INpmInstallResultInfo : Type := {
  res_name : string;
  res_version : string
}.

Record FrameworkData : Type := {
  fw_version : string
}.

(** ** The file system

    A path holds a directory, a JSON document of one of the two shapes the
    service reads and writes, or bytes that are not a JSON document. *)

Inductive FileData : Type :=
| Directory
| PackageJsonFile (content : PackageJson)
| PluginsBuildDataFile (content : gmap string IStringDictionary)
| UnparsableFile (text : string).

Abbreviation FileSystem := (gmap string FileData).

(** Calls made on the collaborators, in the order they are made. *)
Inductive Event : Type :=
| NpmInstall (packageName pathToSave : string) (config : INodePackageManagerInstallOptions)
| NpmUninstall (packageName : string) (configSave : bool) (pathArg : string)
| PreparePluginNativeCode (platform pluginName : string)
| RemovePluginNativeCode (platform pluginName : string)
| WriteJson (filename : string) (data : FileData)
| ShellRm (target : string)
| LogInfo (message : string)
| LogWarn (message : string)
| LogTrace (forced : bool) (notInstalled : list string).

Record World : Type := {
  fs : FileSystem;
  trace : list Event
}.

Definition M (A : Type) : Type := World -> Res A * World.

Definition ret {A} (a : A) : M A := fun w => (Ok a, w).

Definition bind {A B} (m : M A) (k : A -> M B) : M B :=
  fun w => match m w with
           | (Ok a, w') => k a w'
           | (Throw e, w') => (Throw e, w')
           end.

Definition throw {A} (e : Exn) : M A := fun w => (Throw e, w).

Declare Scope service_scope.
Delimit Scope service_scope with service.
Notation "'let*' x ':=' c1 'in' c2" := (bind c1 (fun x => c2))
  (at level 10, x name, c1 at level 100, c2 at level 200) : service_scope.
Open Scope service_scope.

(** Record a call on a collaborator. *)
Definition emit (ev : Event) : M unit :=
  fun w => (Ok tt, {| fs := fs w; trace := trace w ++ [ev] |}).

(** Read-only access to the file system. *)
Definition readFs {A} (f : FileSystem -> A) : M A :=
  fun w => (Ok (f (fs w)), w).

Definition liftRes {A} (f : FileSystem -> Res A) : M A :=
  fun w => (f (fs w), w).

(** A collaborator that may change the file system and may throw; the call is
    recorded before it runs. *)
Definition call {A} (ev : Event) (f : FileSystem -> Res A * FileSystem) : M A :=
  fun w => let '(r, fs') := f (fs w) in
           (r, {| fs := fs'; trace := trace w ++ [ev] |}).

(** ** [$fs]

    Modelled from the spec: the file-system service is not part of the
    service under study.  The manifest and the native-build ledger are
    structured documents; [readJson] is read through the type the caller
    gives its result (a package.json or the plugins build data) and fails
    with a read error when the file is missing or holds anything else, as
    [JSON.parse] does on bytes that are not JSON.  [writeJson] replaces the
    content of the file. *)

Definition fs_exists (p : string) : M bool :=
  readFs (fun s => bool_decide (is_Some (s !! p))).

Definition readJson_package (filename : string) : M PackageJson :=
  liftRes (fun s => match s !! filename with
                    | Some (PackageJsonFile c) => Ok c
                    | _ => Throw (JsonReadError filename)
                    end).

Definition readJson_buildData (filename : string) : M (gmap string IStringDictionary) :=
  liftRes (fun s => match s !! filename with
                    | Some (PluginsBuildDataFile c) => Ok c
                    | _ => Throw (JsonReadError filename)
                    end).

Definition writeJson (filename : string) (data : FileData) : M unit :=
  fun w => (Ok tt, {| fs := <[filename := data]> (fs w);
                      trace := trace w ++ [WriteJson filename data] |}).

Definition ensureDirectoryExists (p : string) : M unit :=
  fun w => (Ok tt, {| fs := match fs w !! p with
                            | Some _ => fs w
                            | None => <[p := Directory]> (fs w)
                            end;
                      trace := trace w |}).

(** ** JavaScript helpers

    [toLowerCase] lowers the ASCII letters, which is what platform names are
    made of. *)

Definition ascii_toLowerCase (c : ascii) : ascii :=
  let n := nat_of_ascii c in
  if (65 <=? n)%nat && (n <=? 90)%nat then ascii_of_nat (n + 32) else c.

Fixpoint toLowerCase (s : string) : string :=
  match s with
  | EmptyString => EmptyString
  | String c s' => String (ascii_toLowerCase c) (toLowerCase s')
  end.

(** Truthiness of a string-valued property that may be undefined. *)
Definition truthy (v : option string) : bool :=
  match v with
  | Some s => negb (String.eqb s "")
  | None => false
  end.

(** The property names an object read from JSON inherits from
    [Object.prototype]; each of them reads as a function or an object.
    Assignment and [delete] act on the own properties of an object; the one
    name whose assignment would not define an own property, [__proto__], is
    a name the package manager does not accept. *)
Definition objectPrototypeProperties : list string :=
  ["constructor"; "hasOwnProperty"; "isPrototypeOf"; "propertyIsEnumerable";
   "toLocaleString"; "toString"; "valueOf"; "__proto__";
   "__defineGetter__"; "__defineSetter__"; "__lookupGetter__"; "__lookupSetter__"].

Definition inherited (property : string) : bool :=
  existsb (String.eqb property) objectPrototypeProperties.

(** Truthiness of [object[property]]: the own property when there is one,
    else what the prototype gives, which is truthy. *)
Definition truthyProperty (object : IStringDictionary) (property : string) : bool :=
  match object !! property with
  | Some v => truthy (Some v)
  | None => inherited property
  end.

(** What [semver.gt] throws on a value that is not a string. *)
Definition notAVersion : Exn := TypeError "Invalid Version".

(** [s.indexOf(sub) !== -1] *)
Fixpoint includes (sub s : string) : bool :=
  String.prefix sub s ||
  match s with
  | EmptyString => false
  | String _ s' => includes sub s'
  end.

(** [s.split("@")[0]] *)
Fixpoint beforeAt (s : string) : string :=
  match s with
  | EmptyString => EmptyString
  | String c s' => if Ascii.eqb c "@"%char then EmptyString else String c (beforeAt s')
  end.

Definition startsWith (s pre : string) : bool := String.prefix pre s.

(** [_.keys] of a section that may be undefined.  The keys come in the order
    of the finite map, not in the insertion order of the object; the service
    only uses them through [_.difference] and its emptiness. *)
Definition keys (o : option IStringDictionary) : list string :=
  match o with
  | Some m => (map_to_list m).*1
  | None => []
  end.

(** [_.difference] *)
Definition difference (xs ys : list string) : list string :=
  filter (fun x => x ∉ ys) xs.

(** ** Injected collaborators *)

Record IPlatformProjectService : Type := {
  svc_preparePluginNativeCode :
    IPluginData -> IProjectData -> FileSystem -> Res unit * FileSystem;
  svc_removePluginNativeCode :
    IPluginData -> IProjectData -> FileSystem -> Res unit * FileSystem
}.

Record IPlatformData : Type := {
  projectRoot : string;
  appDestinationDirectoryPath : string;
  frameworkPackageName : string;
  platformProjectService : IPlatformProjectService
}.

(** Everything the constructor receives or the module imports, [$fs] and
    [$logger] apart.  [constants], [path], [require.resolve], [shelljs] and
    [semver] are imports whose code is not part of the service. *)
Record Injector : Type := {
  (* constants *)
  PLUGINS_BUILD_DATA_FILENAME : string;
  APP_FOLDER_NAME : string;
  (* path *)
  path_join : list string -> string;
  path_resolve : string -> string;
  path_dirname : string -> string;
  path_basename : string -> string;
  (* require.resolve(request, { paths: [dir] }) *)
  require_resolve : string -> string -> FileSystem -> Res string;
  (* shelljs.rm("-rf", target) *)
  shelljs_rm : string -> FileSystem -> FileSystem;
  (* semver.gt, which throws on a string that is not a semantic version *)
  semver_gt : string -> string -> Res bool;
  (* $options *)
  options : IOptions;
  (* $mobileHelper *)
  platformNames : list string;
  (* $platformsDataService *)
  getPlatformData : string -> IProjectData -> IPlatformData;
  (* $projectDataService; [None] is an undefined value *)
  getNSValue : string -> string -> FileSystem -> option FrameworkData;
  (* $packageManager *)
  packageManager_install :
    string -> string -> INodePackageManagerInstallOptions ->
    FileSystem -> Res INpmInstallResultInfo * FileSystem;
  packageManager_uninstall :
    string -> bool -> string -> FileSystem -> Res unit * FileSystem;
  (* $filesHashService *)
  generateHashes : list string -> FileSystem -> Res IStringDictionary;
  hasChangesInShasums : IStringDictionary -> IStringDictionary -> bool;
  (* $fs directory listings *)
  readDirectory : string -> FileSystem -> list string;
  enumerateFilesInDirectorySync : string -> FileSystem -> list string
}.

(** Modelled from the spec: [$filesHashService.hasChangesInShasums] is not
    part of the service; the new digest-set "differs from the prior one in
    any added, removed, or changed file", that is, the two path-to-digest
    mappings are not the same mapping. *)
Definition FilesHashServiceSpec (inj : Injector) : Prop :=
  forall oldHashes newHashes : IStringDictionary,
    hasChangesInShasums inj oldHashes newHashes = true <-> oldHashes <> newHashes.

(** ** The service *)

Section PluginsService.

Context (inj : Injector).

Definition INSTALL_COMMAND_NAME : string := "install".
Definition UNINSTALL_COMMAND_NAME : string := "uninstall".
(** [NPM_CONFIG = { save: true }] *)
Definition NPM_CONFIG_save : bool := true.

Definition npmInstallOptions : INodePackageManagerInstallOptions :=
  {| disableNpmInstall := opt_disableNpmInstall (options inj);
     frameworkPath := opt_frameworkPath (options inj);
     ignoreScripts := opt_ignoreScripts (options inj);
     path := opt_path (options inj);
     save := NPM_CONFIG_save |}.

(** *** The native hashes of the plugins *)

Definition getPluginNativeHashes (pluginPlatformsDir : string) : M IStringDictionary :=
  let* present := fs_exists pluginPlatformsDir in
  if present then
    let* pluginNativeDataFiles :=
      readFs (enumerateFilesInDirectorySync inj pluginPlatformsDir) in
    liftRes (generateHashes inj pluginNativeDataFiles)
  else ret ∅.

Definition getAllPluginsNativeHashes (pathToPluginsBuildFile : string)
  : M (gmap string IStringDictionary) :=
  let* present := fs_exists pathToPluginsBuildFile in
  if present then readJson_buildData pathToPluginsBuildFile
  else ret ∅.

Definition setPluginNativeHashes (pathToPluginsBuildFile : string)
    (pluginData : IPluginData) (currentPluginNativeHashes : IStringDictionary)
    (allPluginsNativeHashes : gmap string IStringDictionary) : M unit :=
  let allPluginsNativeHashes :=
    <[name pluginData := currentPluginNativeHashes]> allPluginsNativeHashes in
  writeJson pathToPluginsBuildFile (PluginsBuildDataFile allPluginsNativeHashes).

(** The assignment [pluginData.pluginPlatformsFolderPath = ...] at the head of
    [preparePluginNativeCode]. *)
Definition withPlatformsFolderPath (pluginData : IPluginData) : IPluginData :=
  {| name := name pluginData;
     version := version pluginData;
     fullPath := fullPath pluginData;
     isPlugin := isPlugin pluginData;
     pluginPlatformsFolderPath := fun _platform =>
       path_join inj [fullPath pluginData; "platforms"; toLowerCase _platform];
     platformsDataService := platformsDataService pluginData;
     pluginVariables := pluginVariables pluginData |}.

Definition pathToPluginsBuildFile (platform : string) (projectData : IProjectData) : string :=
  path_join inj [projectRoot (getPlatformData inj platform projectData);
                 PLUGINS_BUILD_DATA_FILENAME inj].

(** [!oldPluginNativeHashes || hasChangesInShasums(old, current)] *)
Definition nativeCodeIsStale (oldPluginNativeHashes : option IStringDictionary)
    (currentPluginNativeHashes : IStringDictionary) : bool :=
  match oldPluginNativeHashes with
  | None => true
  | Some old => hasChangesInShasums inj old currentPluginNativeHashes
  end.

Definition preparePluginNativeCode (pluginData : IPluginData) (platform : string)
    (projectData : IProjectData) : M unit :=
  let platformData := getPlatformData inj platform projectData in
  let pluginData := withPlatformsFolderPath pluginData in
  let pluginPlatformsFolderPath := pluginPlatformsFolderPath pluginData platform in
  let* present := fs_exists pluginPlatformsFolderPath in
  if present then
    let pathToPluginsBuildFile := pathToPluginsBuildFile platform projectData in
    let* allPluginsNativeHashes := getAllPluginsNativeHashes pathToPluginsBuildFile in
    let oldPluginNativeHashes := allPluginsNativeHashes !! name pluginData in
    let* currentPluginNativeHashes := getPluginNativeHashes pluginPlatformsFolderPath in
    if nativeCodeIsStale oldPluginNativeHashes currentPluginNativeHashes then
      let* _ := call (PreparePluginNativeCode platform (name pluginData))
                     (svc_preparePluginNativeCode (platformProjectService platformData)
                                                  pluginData projectData) in
      setPluginNativeHashes pathToPluginsBuildFile pluginData
                            currentPluginNativeHashes allPluginsNativeHashes
    else ret tt
  else ret tt.

(** *** Paths *)

Definition getNodeModulesPath (projectDir : string) : string :=
  path_join inj [projectDir; "node_modules"].

Definition getPackageJsonFilePath (projectDir : string) : string :=
  path_join inj [projectDir; "package.json"].

Definition getPackageJsonFilePathForModule (moduleName projectDir : string) : M string :=
  liftRes (require_resolve inj (moduleName +:+ "/package.json") projectDir).

(** *** The package.json dependency sections *)

Inductive CollectionKey : Type := KeyDependencies | KeyDevDependencies.

Definition getCollection (k : CollectionKey) (c : PackageJson) : option IStringDictionary :=
  match k with
  | KeyDependencies => dependencies c
  | KeyDevDependencies => devDependencies c
  end.

Definition setCollection (k : CollectionKey) (v : option IStringDictionary)
    (c : PackageJson) : PackageJson :=
  match k with
  | KeyDependencies =>
      {| pj_name := pj_name c; pj_version := pj_version c;
         dependencies := v; devDependencies := devDependencies c;
         nativescript := nativescript c |}
  | KeyDevDependencies =>
      {| pj_name := pj_name c; pj_version := pj_version c;
         dependencies := dependencies c; devDependencies := v;
         nativescript := nativescript c |}
  end.

(** [content[key] && content[key][dependency]] *)
Definition declaresIn (k : CollectionKey) (dependency : string) (c : PackageJson) : bool :=
  match getCollection k c with
  | Some section => truthyProperty section dependency
  | None => false
  end.

Record RemoveDependencyResult : Type := {
  hasModifiedPackageJson : bool;
  packageJsonContent : PackageJson
}.

Definition removeDependencyFromPackageJsonContent (dependency : string)
    (content : PackageJson) : RemoveDependencyResult :=
  let modified := false in
  let '(modified, content) :=
    if declaresIn KeyDevDependencies dependency content then
      (true, setCollection KeyDevDependencies
               (delete dependency <$> devDependencies content) content)
    else (modified, content) in
  let '(modified, content) :=
    if declaresIn KeyDependencies dependency content then
      (true, setCollection KeyDependencies
               (delete dependency <$> dependencies content) content)
    else (modified, content) in
  {| hasModifiedPackageJson := modified;
     packageJsonContent := content |}.

Definition addToPackageJson (plugin version : string) (isDev : bool)
    (projectDir : string) : M unit :=
  let packageJsonPath := getPackageJsonFilePath projectDir in
  let* content := readJson_package packageJsonPath in
  let collectionKey := if isDev then KeyDevDependencies else KeyDependencies in
  let oppositeCollectionKey := if isDev then KeyDependencies else KeyDevDependencies in
  let content :=
    if declaresIn oppositeCollectionKey plugin content then
      let result := removeDependencyFromPackageJsonContent plugin content in
      packageJsonContent result
    else content in
  (* content[collectionKey] = content[collectionKey] || {} *)
  let content :=
    setCollection collectionKey
      (Some (default ∅ (getCollection collectionKey content))) content in
  (* content[collectionKey][plugin] = version *)
  let content :=
    setCollection collectionKey
      (<[plugin := version]> <$> getCollection collectionKey content) content in
  writeJson packageJsonPath (PackageJsonFile content).

Definition removeFromPackageJson (plugin projectDir : string) : M unit :=
  let packageJsonPath := getPackageJsonFilePath projectDir in
  let* content := readJson_package packageJsonPath in
  let result := removeDependencyFromPackageJsonContent plugin content in
  if hasModifiedPackageJson result then
    writeJson packageJsonPath (PackageJsonFile (packageJsonContent result))
  else ret tt.

(** *** Classification *)

Definition cacheDataOfPackageJson (c : PackageJson) : CacheData :=
  {| cd_name := pj_name c; cd_version := pj_version c; cd_directory := None;
     cd_nativescript := nativescript c; cd_moduleInfo := None |}.

Definition cacheDataOfNodeModule (d : INodeModuleData) : CacheData :=
  {| cd_name := nm_name d; cd_version := nm_version d; cd_directory := None;
     cd_nativescript := None; cd_moduleInfo := moduleInfo d |}.

Definition convertToPluginData (cacheData : CacheData) (projectDir : string)
  : M IPluginData :=
  let* fullPath :=
    if truthy (cd_directory cacheData) then ret (default "" (cd_directory cacheData))
    else let* packageJsonFile :=
           getPackageJsonFilePathForModule (cd_name cacheData) projectDir in
         ret (path_dirname inj packageJsonFile) in
  let isPlugin :=
    bool_decide (is_Some (cd_nativescript cacheData))
    || bool_decide (is_Some (cd_moduleInfo cacheData)) in
  let data :=
    match cd_nativescript cacheData with
    | Some d => Some d
    | None => cd_moduleInfo cacheData
    end in
  ret {| name := cd_name cacheData;
         version := cd_version cacheData;
         fullPath := fullPath;
         isPlugin := isPlugin;
         pluginPlatformsFolderPath := fun platform =>
           path_join inj [fullPath; "platforms"; platform];
         platformsDataService := if isPlugin then data ≫= platforms else None;
         pluginVariables := if isPlugin then data ≫= variables else None |}.

Definition getNodeModuleData (module projectDir : string) : M INodeModuleData :=
  let* present := fs_exists module in
  let* module :=
    if negb present || negb (String.eqb (path_basename inj module) "package.json")
    then getPackageJsonFilePathForModule module projectDir
    else ret module in
  let* data := readJson_package module in
  ret {| nm_name := pj_name data;
         nm_version := pj_version data;
         nm_fullPath := path_dirname inj module;
         nm_isPlugin := bool_decide (is_Some (nativescript data));
         moduleInfo := nativescript data |}.

(** *** Version compatibility *)

Definition getInstalledFrameworkVersion (platform : string)
    (projectData : IProjectData) : M string :=
  let platformData := getPlatformData inj platform projectData in
  let* frameworkData :=
    readFs (getNSValue inj (projectDir projectData) (frameworkPackageName platformData)) in
  match frameworkData with
  | Some d => ret (fw_version d)
  | None => throw (TypeError "Cannot read property 'version' of undefined")
  end.

Definition notSupportedMessage (pluginName platform : string) : string :=
  pluginName +:+ " is not supported for " +:+ platform +:+ ".".

Definition requiresVersionMessage (pluginName versionRequiredByPlugin platform
    installedFrameworkVersion : string) : string :=
  pluginName +:+ " requires at least version " +:+ versionRequiredByPlugin
  +:+ " of platform " +:+ platform +:+ ". Currently installed version is "
  +:+ installedFrameworkVersion +:+ ".".

Definition isPluginDataValidForPlatform (pluginData : IPluginData) (platform : string)
    (projectData : IProjectData) : M bool :=
  let* installedFrameworkVersion := getInstalledFrameworkVersion platform projectData in
  match platformsDataService pluginData with
  | Some pluginPlatformsData =>
      (* pluginPlatformsData[platform]: an own string, or a function or an
         object of the prototype, or undefined *)
      let versionRequiredByPlugin := pluginPlatformsData !! platform in
      if negb (truthyProperty pluginPlatformsData platform) then
        let* _ := emit (LogWarn (notSupportedMessage (name pluginData) platform)) in
        ret false
      else
        let* isGreater :=
          match versionRequiredByPlugin with
          | Some required =>
              liftRes (fun _ => semver_gt inj required installedFrameworkVersion)
          | None => throw notAVersion
          end in
        if isGreater : bool then
          let* _ := emit (LogWarn (requiresVersionMessage (name pluginData)
                                     (default "" versionRequiredByPlugin) platform
                                     installedFrameworkVersion)) in
          ret false
        else ret true
  | None => ret true
  end.

(** *** Iteration over the installed platforms *)

(** [for (const x of xs) { s = await body(x, s) }]; [s] stands for the local
    variables the loop body captures and assigns. *)
Fixpoint forOf {A S : Type} (xs : list A) (body : A -> S -> M S) (s : S) : M S :=
  match xs with
  | [] => ret s
  | x :: xs' => let* s' := body x s in forOf xs' body s'
  end.

Definition forInstalledPlatform {S : Type}
    (action : string -> string -> IPlatformData -> S -> M S)
    (projectData : IProjectData) (platform : string) (s : S) : M S :=
  let* isPlatformInstalled :=
    fs_exists (path_join inj [platformsDir projectData; toLowerCase platform]) in
  if isPlatformInstalled then
    let platformData := getPlatformData inj (toLowerCase platform) projectData in
    let pluginDestinationPath :=
      path_join inj [appDestinationDirectoryPath platformData;
                     APP_FOLDER_NAME inj; "tns_modules"] in
    action pluginDestinationPath (toLowerCase platform) platformData s
  else ret s.

Definition executeForAllInstalledPlatforms {S : Type}
    (action : string -> string -> IPlatformData -> S -> M S)
    (projectData : IProjectData) (s : S) : M S :=
  let availablePlatforms := map toLowerCase (platformNames inj) in
  forOf availablePlatforms (forInstalledPlatform action projectData) s.

(** *** Package manager commands *)

Definition parseNpmCommandResult (npmCommandResult : string) : string :=
  beforeAt npmCommandResult.

Definition executeNpmCommand (npmCommandName npmCommandArguments : string)
    (projectData : IProjectData) : M string :=
  let* _ :=
    if String.eqb npmCommandName INSTALL_COMMAND_NAME then
      let* _ := call (NpmInstall npmCommandArguments (projectDir projectData)
                                 npmInstallOptions)
                     (packageManager_install inj npmCommandArguments
                        (projectDir projectData) npmInstallOptions) in
      ret tt
    else if String.eqb npmCommandName UNINSTALL_COMMAND_NAME then
      call (NpmUninstall npmCommandArguments NPM_CONFIG_save (projectDir projectData))
           (packageManager_uninstall inj npmCommandArguments NPM_CONFIG_save
              (projectDir projectData))
    else ret tt in
  ret (parseNpmCommandResult npmCommandArguments).

Definition ensureAllDependenciesAreInstalled (projectData : IProjectData) : M unit :=
  let nodeModulesPath := getNodeModulesPath (projectDir projectData) in
  let* present := fs_exists nodeModulesPath in
  let* installedDependencies :=
    if present then readFs (readDirectory inj nodeModulesPath) else ret [] in
  let* scopedDependencies :=
    readFs (fun s =>
      flat_map (fun scopedDependencyDir =>
                  map (fun dependencyName =>
                         scopedDependencyDir +:+ "/" +:+ dependencyName)
                      (readDirectory inj
                         (path_join inj [nodeModulesPath; scopedDependencyDir]) s))
               (List.filter (fun dependencyName => startsWith dependencyName "@")
                            installedDependencies)) in
  let installedDependencies := (installedDependencies ++ scopedDependencies)%list in
  let* content := readJson_package (getPackageJsonFilePath (projectDir projectData)) in
  let allDependencies :=
    (keys (dependencies content) ++ keys (devDependencies content))%list in
  let notInstalledDependencies := difference allDependencies installedDependencies in
  if force (options inj) || negb (Nat.eqb (length notInstalledDependencies) 0) then
    let* _ := emit (LogTrace (force (options inj)) notInstalledDependencies) in
    let installOptions :=
      {| disableNpmInstall := opt_disableNpmInstall (options inj);
         frameworkPath := opt_frameworkPath (options inj);
         ignoreScripts := opt_ignoreScripts (options inj);
         path := opt_path (options inj);
         save := false |} in
    let* _ := call (NpmInstall (projectDir projectData) (projectDir projectData)
                               installOptions)
                   (packageManager_install inj (projectDir projectData)
                      (projectDir projectData) installOptions) in
    ret tt
  else ret tt.

Definition ensure (projectData : IProjectData) : M unit :=
  let* _ := ensureAllDependenciesAreInstalled projectData in
  ensureDirectoryExists (getNodeModulesPath (projectDir projectData)).

(** *** add *)

Definition notAValidPluginMessage (plugin : string) : string :=
  plugin +:+ " is not a valid NativeScript plugin. Verify that the plugin package.json file contains a nativescript key and try again.".

(** The specifier handed to the package manager: the resolved path when the
    argument names an existing [.tgz] archive. *)
Definition installSpecifier (plugin : string) (s : FileSystem) : string :=
  let possiblePackageName := path_resolve inj plugin in
  if includes ".tgz" possiblePackageName
     && bool_decide (is_Some (s !! possiblePackageName))
  then possiblePackageName else plugin.

Definition add (plugin : string) (projectData : IProjectData) : M unit :=
  let* _ := ensure projectData in
  let* plugin := readFs (installSpecifier plugin) in
  let* installed :=
    call (NpmInstall plugin (projectDir projectData) npmInstallOptions)
         (packageManager_install inj plugin (projectDir projectData)
            npmInstallOptions) in
  let name := res_name installed in
  let* pathToRealNpmPackageJson :=
    getPackageJsonFilePathForModule name (projectDir projectData) in
  let* realNpmPackageJson := readJson_package pathToRealNpmPackageJson in
  match nativescript realNpmPackageJson with
  | Some _ =>
      let* pluginData :=
        convertToPluginData (cacheDataOfPackageJson realNpmPackageJson)
                            (projectDir projectData) in
      let action (pluginDestinationPath platform : string)
                 (platformData : IPlatformData) (s : unit) : M unit :=
        let* _ := isPluginDataValidForPlatform pluginData platform projectData in
        ret s in
      let* _ := executeForAllInstalledPlatforms action projectData tt in
      emit (LogInfo ("Successfully installed plugin "
                     +:+ pj_name realNpmPackageJson +:+ "."))
  | None =>
      let* _ := call (NpmUninstall (pj_name realNpmPackageJson) true
                                   (projectDir projectData))
                     (packageManager_uninstall inj (pj_name realNpmPackageJson) true
                        (projectDir projectData)) in
      throw (FailError (notAValidPluginMessage plugin))
  end.

(** *** remove *)

Definition removePluginNativeCodeAction (pluginName : string)
    (projectData : IProjectData) (modulesDestinationPath platform : string)
    (platformData : IPlatformData) (s : unit) : M unit :=
  let* nodeModuleData := getNodeModuleData pluginName (projectDir projectData) in
  let* pluginData :=
    convertToPluginData (cacheDataOfNodeModule nodeModuleData)
                        (projectDir projectData) in
  call (RemovePluginNativeCode platform (name pluginData))
       (svc_removePluginNativeCode (platformProjectService platformData)
                                   pluginData projectData).

(** The second per-platform action of [remove]; the state is the captured
    variable [showMessage]. *)
Definition removeLeftoversAction (pluginName : string)
    (modulesDestinationPath platform : string) (platformData : IPlatformData)
    (showMessage : bool) : M bool :=
  let target := path_join inj [modulesDestinationPath; pluginName] in
  let* _ := call (ShellRm target) (fun s => (Ok tt, shelljs_rm inj target s)) in
  let* _ := emit (LogInfo ("Successfully removed plugin " +:+ pluginName
                           +:+ " for " +:+ platform +:+ ".")) in
  ret false.

Definition remove (pluginName : string) (projectData : IProjectData) : M unit :=
  let* _ := executeForAllInstalledPlatforms
              (removePluginNativeCodeAction pluginName projectData) projectData tt in
  let* _ := executeNpmCommand UNINSTALL_COMMAND_NAME pluginName projectData in
  let showMessage := true in
  let* showMessage := executeForAllInstalledPlatforms
                        (removeLeftoversAction pluginName) projectData showMessage in
  if showMessage then
    emit (LogInfo ("Successfully removed plugin " +:+ pluginName))
  else ret tt.

End PluginsService.

(** ** Observations on traces *)

(** The native-assets folder [preparePluginNativeCode] looks at. *)
Definition nativeFolder (inj : Injector) (pluginData : IPluginData)
    (platform : string) : string :=
  pluginPlatformsFolderPath (withPlatformsFolderPath inj pluginData) platform.

(** The native-integration hook of a platform. *)
Definition integrate (inj : Injector) (pluginData : IPluginData) (platform : string)
    (projectData : IProjectData) : FileSystem -> Res unit * FileSystem :=
  svc_preparePluginNativeCode
    (platformProjectService (getPlatformData inj platform projectData))
    (withPlatformsFolderPath inj pluginData) projectData.

(** The world after a run of the hook that leaves the file system [s], and
    the world after the build-data file has then been written. *)
Definition integrated (w : World) (platform pluginName : string) (s : FileSystem) : World :=
  {| fs := s; trace := trace w ++ [PreparePluginNativeCode platform pluginName] |}.

Definition recorded (w : World) (filename : string)
    (allHashes : gmap string IStringDictionary) : World :=
  {| fs := <[filename := PluginsBuildDataFile allHashes]> (fs w);
     trace := trace w ++ [WriteJson filename (PluginsBuildDataFile allHashes)] |}.


Definition isPreparePluginNativeCode (ev : Event) : bool :=
  match ev with PreparePluginNativeCode _ _ => true | _ => false end.

Definition isRemovePluginNativeCode (ev : Event) : bool :=
  match ev with RemovePluginNativeCode _ _ => true | _ => false end.

Definition isNpmUninstall (ev : Event) : bool :=
  match ev with NpmUninstall _ _ _ => true | _ => false end.

Definition isWriteJson (ev : Event) : bool :=
  match ev with WriteJson _ _ => true | _ => false end.

(** What the second per-platform pass of [remove] does: deletions and
    messages. *)
Definition isCleanup (ev : Event) : bool :=
  match ev with ShellRm _ | LogInfo _ => true | _ => false end.

(** The platform a native-code-removal call was made for. *)
Definition removedPlatform (ev : Event) : option string :=
  match ev with RemovePluginNativeCode platform _ => Some platform | _ => None end.

(** The directory a deletion was made on. *)
Definition removedTarget (ev : Event) : option string :=
  match ev with ShellRm target => Some target | _ => None end.

(** The entry of plugin [pluginName] in the build-data file at [filename]. *)
Definition storedHashes (s : FileSystem) (filename pluginName : string)
  : option IStringDictionary :=
  match s !! filename with
  | Some (PluginsBuildDataFile c) => c !! pluginName
  | _ => None
  end.

(** A computation that only reads: it hands the world back as it got it. *)
Definition readOnly {A} (m : M A) : Prop := forall w, snd (m w) = w.

(** The last message of [remove], logged when no platform was cleaned. *)
Definition removedMessage (pluginName : string) : list Event :=
  [LogInfo ("Successfully removed plugin " +:+ pluginName)].

(** The world after a warning has been logged. *)
Definition warned (w : World) (message : string) : World :=
  {| fs := fs w; trace := trace w ++ [LogWarn message] |}.

(** The leftover directory of a plugin under the module destination of a
    platform, as [remove] computes it. *)
Definition leftoverDirectory (inj : Injector) (pluginName platform : string)
    (projectData : IProjectData) : string :=
  path_join inj
    [path_join inj
       [appDestinationDirectoryPath (getPlatformData inj platform projectData);
        APP_FOLDER_NAME inj; "tns_modules"];
     pluginName].

(** What the second per-platform action of [remove] does for a platform. *)
Definition cleanupOf (inj : Injector) (pluginName : string)
    (projectData : IProjectData) (platform : string) : list Event :=
  [ShellRm (leftoverDirectory inj pluginName (toLowerCase platform) projectData);
   LogInfo ("Successfully removed plugin " +:+ pluginName +:+ " for "
            +:+ toLowerCase platform +:+ ".")].

(** The directory whose presence makes a platform an installed one, and the
    installed platforms of a file system, in the order of the platform list. *)
Definition platformDirectory (inj : Injector) (projectData : IProjectData)
    (platform : string) : string :=
  path_join inj [platformsDir projectData; toLowerCase platform].

Definition isInstalled (inj : Injector) (projectData : IProjectData)
    (s : FileSystem) (platform : string) : bool :=
  bool_decide (is_Some (s !! platformDirectory inj projectData platform)).

Definition installedPlatforms (inj : Injector) (projectData : IProjectData)
    (s : FileSystem) : list string :=
  List.filter (isInstalled inj projectData s) (map toLowerCase (platformNames inj)).



(** The document [addToPackageJson] writes when it has read [content]. *)
Definition manifestAfterAdd (plugin version : string) (isDev : bool)
    (content : PackageJson) : PackageJson :=
  let collectionKey := if isDev then KeyDevDependencies else KeyDependencies in
  let oppositeCollectionKey := if isDev then KeyDependencies else KeyDevDependencies in
  let content :=
    if declaresIn oppositeCollectionKey plugin content then
      packageJsonContent (removeDependencyFromPackageJsonContent plugin content)
    else content in
  let content :=
    setCollection collectionKey
      (Some (default ∅ (getCollection collectionKey content))) content in
  setCollection collectionKey
    (<[plugin := version]> <$> getCollection collectionKey content) content.

(** The version a package.json declares for [dependency] in a section. *)
Definition declaredVersion (k : CollectionKey) (dependency : string)
    (c : PackageJson) : option string :=
  getCollection k c ≫= (fun section => section !! dependency).

(** The project's package.json declares [dependency] in neither section. *)
Definition manifestLacks (inj : Injector) (projectDir dependency : string)
    (s : FileSystem) : Prop :=
  forall c, s !! getPackageJsonFilePath inj projectDir = Some (PackageJsonFile c) ->
    (forall deps, dependencies c = Some deps -> deps !! dependency = None) /\
    (forall deps, devDependencies c = Some deps -> deps !! dependency = None).

(** Modelled from the spec: the package manager is not part of the service;
    [uninstall(name, { save: true }, projectDir)] leaves the manifest of the
    project without an entry for [name]. *)
Definition PackageManagerSpec (inj : Injector) : Prop :=
  forall packageName projectDir s s',
    packageManager_uninstall inj packageName true projectDir s = (Ok tt, s') ->
    manifestLacks inj projectDir packageName s'.

(** ** A concrete project

    One instance of the collaborators, used to run the service on explicit
    inputs. *)

Module Demo.

Fixpoint stripPrefix (pre s : string) : option string :=
  match pre, s with
  | EmptyString, _ => Some s
  | String a pre', String b s' =>
      if Ascii.eqb a b then stripPrefix pre' s' else None
  | String _ _, EmptyString => None
  end.

Fixpoint beforeSlash (s : string) : string :=
  match s with
  | EmptyString => EmptyString
  | String c s' => if Ascii.eqb c "/"%char then EmptyString else String c (beforeSlash s')
  end.

(** Position-independent split at the last slash. *)
Fixpoint splitLast (s : string) : option (string * string) :=
  match s with
  | EmptyString => None
  | String c s' =>
      match splitLast s' with
      | Some (d, b) => Some (String c d, b)
      | None => if Ascii.eqb c "/"%char then Some (EmptyString, s') else None
      end
  end.

Definition dirname (p : string) : string :=
  match splitLast p with Some (d, _) => d | None => "." end.

Definition basename (p : string) : string :=
  match splitLast p with Some (_, b) => b | None => p end.

Definition join (segments : list string) : string :=
  String.concat "/" (List.filter (fun s => negb (String.eqb s "")) segments).

Definition resolve (p : string) : string :=
  if String.prefix "/" p then p else "/cwd/" +:+ p.

Definition under (dir : string) (s : FileSystem) : list (string * FileData) :=
  List.filter (fun kv => String.prefix (dir +:+ "/") kv.1) (map_to_list s).

Definition listDirectory (dir : string) (s : FileSystem) : list string :=
  remove_dups
    (omap (fun kv => beforeSlash <$> stripPrefix (dir +:+ "/") kv.1) (under dir s)).

Definition listFiles (dir : string) (s : FileSystem) : list string :=
  omap (fun kv => match kv.2 with Directory => None | _ => Some kv.1 end) (under dir s).

Definition rm (target : string) (s : FileSystem) : FileSystem :=
  filter (fun kv => kv.1 <> target /\ String.prefix (target +:+ "/") kv.1 = false) s.

(** The digest of the demo is the text of the file. *)
Definition digest (s : FileSystem) (file : string) : string :=
  match s !! file with
  | Some (UnparsableFile text) => text
  | _ => ""
  end.

Definition hashes (files : list string) (s : FileSystem) : Res IStringDictionary :=
  Ok (list_to_map (map (fun f => (f, digest s f)) files)).

(** Dotted numeric versions, compared component by component. *)
Fixpoint digits (s : string) (acc : nat) : list nat :=
  match s with
  | EmptyString => [acc]
  | String c s' =>
      if Ascii.eqb c "."%char then acc :: digits s' 0
      else digits s' (10 * acc + (nat_of_ascii c - 48))
  end.

Fixpoint gtList (a b : list nat) : bool :=
  match a, b with
  | x :: a', y :: b' => (y <? x)%nat || ((x =? y)%nat && gtList a' b')
  | _ :: _, [] => true
  | [], _ => false
  end.

(** Three numeric components separated by dots. *)
Fixpoint wellFormed (s : string) (dots : nat) (seenDigit : bool) : bool :=
  match s with
  | EmptyString => seenDigit && (dots =? 2)%nat
  | String c s' =>
      if Ascii.eqb c "."%char then seenDigit && wellFormed s' (S dots) false
      else (48 <=? nat_of_ascii c)%nat && (nat_of_ascii c <=? 57)%nat
           && wellFormed s' dots true
  end.

Definition invalidVersion (version : string) : Exn :=
  TypeError ("Invalid Version: " +:+ version).

Definition gt (a b : string) : Res bool :=
  if negb (wellFormed a 0 false) then Throw (invalidVersion a)
  else if negb (wellFormed b 0 false) then Throw (invalidVersion b)
  else Ok (gtList (digits a 0) (digits b 0)).

Definition modulePackageJson (projectDir request : string) : string :=
  projectDir +:+ "/node_modules/" +:+ request.

Definition requireResolve (request projectDir : string) (s : FileSystem) : Res string :=
  match s !! modulePackageJson projectDir request with
  | Some _ => Ok (modulePackageJson projectDir request)
  | None => Throw (ExternalError ("Cannot find module " +:+ request))
  end.

Definition saveDependency (dependency version : string) (c : PackageJson) : PackageJson :=
  {| pj_name := pj_name c; pj_version := pj_version c;
     dependencies := Some (<[dependency := version]> (default ∅ (dependencies c)));
     devDependencies := devDependencies c;
     nativescript := nativescript c |}.

Definition dropDependency (dependency : string) (c : PackageJson) : PackageJson :=
  {| pj_name := pj_name c; pj_version := pj_version c;
     dependencies := delete dependency <$> dependencies c;
     devDependencies := delete dependency <$> devDependencies c;
     nativescript := nativescript c |}.

Definition onManifest (f : PackageJson -> PackageJson) (projectDir : string)
    (s : FileSystem) : FileSystem :=
  match s !! join [projectDir; "package.json"] with
  | Some (PackageJsonFile c) =>
      <[join [projectDir; "package.json"] := PackageJsonFile (f c)]> s
  | _ => s
  end.

(** The registry: what a specifier installs. *)
Definition registry (specifier : string) : option PackageJson :=
  if String.eqb specifier "left-pad" then
    Some {| pj_name := "left-pad"; pj_version := "1.3.0";
            dependencies := None; devDependencies := None; nativescript := None |}
  else if String.eqb specifier "nativescript-camera" then
    Some {| pj_name := "nativescript-camera"; pj_version := "4.5.0";
            dependencies := None; devDependencies := None;
            nativescript := Some {| platforms := Some {[ "ios" := "6.0.0" ]};
                                    variables := None |} |}
  else None.

Definition install (specifier projectDir : string)
    (config : INodePackageManagerInstallOptions) (s : FileSystem)
  : Res INpmInstallResultInfo * FileSystem :=
  if String.eqb specifier projectDir then
    (Ok {| res_name := ""; res_version := "" |}, s)
  else
    match registry specifier with
    | Some pkg =>
        let s := <[modulePackageJson projectDir (pj_name pkg +:+ "/package.json")
                   := PackageJsonFile pkg]> s in
        let s := if save config
                 then onManifest (saveDependency (pj_name pkg) (pj_version pkg)) projectDir s
                 else s in
        (Ok {| res_name := pj_name pkg; res_version := pj_version pkg |}, s)
    | None => (Throw (ExternalError ("404 Not Found: " +:+ specifier)), s)
    end.

Definition uninstall (packageName : string) (configSave : bool) (projectDir : string)
    (s : FileSystem) : Res unit * FileSystem :=
  let s := rm (modulePackageJson projectDir packageName) s in
  (Ok tt, if configSave then onManifest (dropDependency packageName) projectDir s else s).

(** The native hooks of the demo leave the file system alone; the platforms
    listed in [failing] throw. *)
Definition hook (failing : list string) (platform : string) (pluginData : IPluginData)
    (projectData : IProjectData) (s : FileSystem) : Res unit * FileSystem :=
  if bool_decide (platform ∈ failing)
  then (Throw (ExternalError ("native project of " +:+ platform +:+ " is broken")), s)
  else (Ok tt, s).

Definition platformData (failing : list string) (platform : string)
    (projectData : IProjectData) : IPlatformData :=
  {| projectRoot := join [platformsDir projectData; platform];
     appDestinationDirectoryPath := join [platformsDir projectData; platform; "src"];
     frameworkPackageName := "tns-" +:+ platform;
     platformProjectService :=
       {| svc_preparePluginNativeCode := hook failing platform;
          svc_removePluginNativeCode := hook failing platform |} |}.

Definition injector (failing : list string) : Injector :=
  {| PLUGINS_BUILD_DATA_FILENAME := ".ns-plugins-build-data.json";
     APP_FOLDER_NAME := "app";
     path_join := join;
     path_resolve := resolve;
     path_dirname := dirname;
     path_basename := basename;
     require_resolve := requireResolve;
     shelljs_rm := rm;
     semver_gt := gt;
     options := {| opt_disableNpmInstall := false; opt_frameworkPath := None;
                   opt_ignoreScripts := false; opt_path := None; force := false |};
     platformNames := ["iOS"; "Android"];
     getPlatformData := platformData failing;
     getNSValue := fun _ _ _ => Some {| fw_version := "5.2.0" |};
     packageManager_install := install;
     packageManager_uninstall := uninstall;
     generateHashes := hashes;
     hasChangesInShasums := fun oldHashes newHashes =>
                              bool_decide (oldHashes <> newHashes);
     readDirectory := listDirectory;
     enumerateFilesInDirectorySync := listFiles |}.

Definition project : IProjectData :=
  {| projectDir := "/app"; platformsDir := "/app/platforms" |}.

Definition manifest : PackageJson :=
  {| pj_name := "app"; pj_version := "1.0.0";
     dependencies := None; devDependencies := None; nativescript := None |}.

Definition camera : IPluginData :=
  {| name := "nativescript-camera"; version := "4.5.0";
     fullPath := "/app/node_modules/nativescript-camera";
     isPlugin := true;
     pluginPlatformsFolderPath := fun platform =>
       join ["/app/node_modules/nativescript-camera"; "platforms"; platform];
     platformsDataService := Some {[ "ios" := "6.0.0" ]};
     pluginVariables := None |}.

Definition cameraPackageJson : PackageJson :=
  {| pj_name := "nativescript-camera"; pj_version := "4.5.0";
     dependencies := None; devDependencies := None;
     nativescript := Some {| platforms := Some {[ "ios" := "6.0.0" ]};
                             variables := None |} |}.

(** A project with both platforms installed and the camera plugin in
    node_modules, native files for android. *)
Definition files : FileSystem :=
  list_to_map
    [ ("/app", Directory);
      ("/app/package.json", PackageJsonFile manifest);
      ("/app/platforms", Directory);
      ("/app/platforms/ios", Directory);
      ("/app/platforms/android", Directory);
      ("/app/node_modules", Directory);
      ("/app/node_modules/nativescript-camera", Directory);
      ("/app/node_modules/nativescript-camera/package.json",
         PackageJsonFile cameraPackageJson);
      ("/app/node_modules/nativescript-camera/platforms", Directory);
      ("/app/node_modules/nativescript-camera/platforms/android", Directory);
      ("/app/node_modules/nativescript-camera/platforms/android/include.gradle",
         UnparsableFile "android { }") ].

Definition world (s : FileSystem) : World := {| fs := s; trace := [] |}.

Definition manifestPath : string := "/app/package.json".

(** A project that declares dependencies in both sections. *)
Definition manifestWithDependencies : PackageJson :=
  {| pj_name := "app"; pj_version := "1.0.0";
     dependencies := Some {[ "tns-core-modules" := "6.0.0" ]};
     devDependencies := Some {[ "typescript" := "3.4.5" ]};
     nativescript := None |}.

Definition filesWithDependencies : FileSystem :=
  <[manifestPath := PackageJsonFile manifestWithDependencies]> files.

(** What [getNodeModuleData] and [convertToPluginData] make of the camera
    plugin in [files]. *)
Definition cameraModule : INodeModuleData :=
  {| nm_name := "nativescript-camera"; nm_version := "4.5.0";
     nm_fullPath := "/app/node_modules/nativescript-camera";
     nm_isPlugin := true;
     moduleInfo := Some {| platforms := Some {[ "ios" := "6.0.0" ]};
                           variables := None |} |}.

Definition cameraFromModule : IPluginData :=
  {| name := "nativescript-camera"; version := "4.5.0";
     fullPath := "/app/node_modules/nativescript-camera";
     isPlugin := true;
     pluginPlatformsFolderPath := fun platform =>
       join ["/app/node_modules/nativescript-camera"; "platforms"; platform];
     platformsDataService := Some {[ "ios" := "6.0.0" ]};
     pluginVariables := None |}.

(** A plugin whose [nativescript] section declares no platforms at all. *)
Definition bare : IPluginData :=
  {| name := "nativescript-bare"; version := "1.0.0";
     fullPath := "/app/node_modules/nativescript-bare";
     isPlugin := true;
     pluginPlatformsFolderPath := fun platform =>
       join ["/app/node_modules/nativescript-bare"; "platforms"; platform];
     platformsDataService := None;
     pluginVariables := None |}.

Definition androidHashes : IStringDictionary :=
  {[ "/app/node_modules/nativescript-camera/platforms/android/include.gradle"
     := "android { }" ]}.

Definition ledgerPath : string := "/app/platforms/android/.ns-plugins-build-data.json".

(** The build-data file after an earlier integration of the camera plugin and
    of another plugin. *)
Definition ledger : gmap string IStringDictionary :=
  {[ "nativescript-camera" := androidHashes;
     "nativescript-geolocation" := {[ "/geo/platforms/android/AndroidManifest.xml" := "<manifest/>" ]} ]}.

Definition filesWithLedger : FileSystem :=
  <[ledgerPath := PluginsBuildDataFile ledger]> files.

(** The same project after one native file of the plugin has changed. *)
Definition filesWithChange : FileSystem :=
  <["/app/node_modules/nativescript-camera/platforms/android/include.gradle"
    := UnparsableFile "android { minSdkVersion 21 }"]> filesWithLedger.

Definition changedHashes : IStringDictionary :=
  {[ "/app/node_modules/nativescript-camera/platforms/android/include.gradle"
     := "android { minSdkVersion 21 }" ]}.

(** The build-data file holds bytes that are not JSON. *)
Definition filesWithCorruptLedger : FileSystem :=
  <[ledgerPath := UnparsableFile "{ nativescript-cam"]> files.

End Demo.

(** ** The queries of the service

    The remaining methods of [PluginsService].  The dependency-graph builder
    and Node's [require] are collaborators of these methods only and are
    passed to them as arguments. *)

Record IBasePluginData : Type := {
  bp_name : string;
  bp_version : string
}.

Record IPackageJsonDepedenciesResult : Type := {
  res_dependencies : list IBasePluginData;
  res_devDependencies : list IBasePluginData
}.

(** An entry of the production dependency graph: the fields the service
    reads. *)
Record IDependencyData : Type := {
  dep_name : string;
  dep_version : string;
  dep_directory : string;
  dep_nativescript : option NativescriptData
}.

Definition cacheDataOfDependency (d : IDependencyData) : CacheData :=
  {| cd_name := dep_name d; cd_version := dep_version d;
     cd_directory := Some (dep_directory d);
     cd_nativescript := dep_nativescript d; cd_moduleInfo := None |}.

(** [xs.map(f)] for an [f] that reads the world and may throw: the elements
    are converted from left to right and the first exception ends the map. *)
Fixpoint mapM {A B : Type} (f : A -> M B) (xs : list A) : M (list B) :=
  match xs with
  | [] => ret []
  | x :: xs' =>
      let* y := f x in
      let* ys := mapM f xs' in
      ret (y :: ys)
  end.

Section Queries.

Context (inj : Injector).

(** [_.map(dependencies, (version, key) => ({ name: key, version }))]; an
    undefined section maps to the empty list.  The entries come in the order
    of the finite map. *)
Definition getBasicPluginInformation (section : option IStringDictionary)
  : list IBasePluginData :=
  match section with
  | Some m => map (fun kv => {| bp_name := kv.1; bp_version := kv.2 |}) (map_to_list m)
  | None => []
  end.

Definition getDependenciesFromPackageJson (projectDir : string)
  : M IPackageJsonDepedenciesResult :=
  let* packageJson := readJson_package (getPackageJsonFilePath inj projectDir) in
  let dependencies := getBasicPluginInformation (dependencies packageJson) in
  let devDependencies := getBasicPluginInformation (devDependencies packageJson) in
  ret {| res_dependencies := dependencies; res_devDependencies := devDependencies |}.

(** [pluginPackageJsonContent && pluginPackageJsonContent.nativescript], as
    the boolean its signature announces. *)
Definition isNativeScriptPlugin (pluginPackageJsonPath : string) : M bool :=
  let* pluginPackageJsonContent := readJson_package pluginPackageJsonPath in
  ret (bool_decide (is_Some (nativescript pluginPackageJsonContent))).

(** [dependencies] is the optional second argument; an array, even an empty
    one, is truthy, so the dependency-graph builder is asked only when the
    argument is not given. *)
Definition getAllProductionPlugins
    (getProductionDependencies : string -> FileSystem -> Res (list IDependencyData))
    (projectData : IProjectData) (dependencies : option (list IDependencyData))
  : M (list IPluginData) :=
  let* dependencies :=
    match dependencies with
    | Some ds => ret ds
    | None => liftRes (getProductionDependencies (projectDir projectData))
    end in
  match dependencies with
  | [] => ret []
  | _ =>
      mapM (fun dependency =>
              convertToPluginData inj (cacheDataOfDependency dependency)
                                  (projectDir projectData))
           (List.filter (fun dependency =>
                           bool_decide (is_Some (dep_nativescript dependency)))
                        dependencies)
  end.

(** [_.keys(require(packageJsonFilePath).dependencies)] *)
Definition getDependencies (require : string -> FileSystem -> Res PackageJson)
    (projectDir : string) : M (list string) :=
  let packageJsonFilePath := getPackageJsonFilePath inj projectDir in
  let* content := liftRes (require packageJsonFilePath) in
  ret (keys (dependencies content)).

Definition getAllInstalledModules (require : string -> FileSystem -> Res PackageJson)
    (projectData : IProjectData) : M (list INodeModuleData) :=
  let* _ := ensure inj projectData in
  let* nodeModules := getDependencies require (projectDir projectData) in
  mapM (fun nodeModuleName =>
          getNodeModuleData inj nodeModuleName (projectDir projectData))
       nodeModules.

Definition getAllInstalledPlugins (require : string -> FileSystem -> Res PackageJson)
    (projectData : IProjectData) : M (list IPluginData) :=
  let* installedModules := getAllInstalledModules require projectData in
  let* nodeModules :=
    mapM (fun nodeModuleData =>
            convertToPluginData inj (cacheDataOfNodeModule nodeModuleData)
                                (projectDir projectData))
         installedModules in
  ret (List.filter isPlugin nodeModules).

End Queries.

(** The validation action of [add]. *)
Definition validateAction (inj : Injector) (pluginData : IPluginData)
    (projectData : IProjectData) (pluginDestinationPath platform : string)
    (platformData : IPlatformData) (s : unit) : M unit :=
  let* _ := isPluginDataValidForPlatform inj pluginData platform projectData in
  ret s.



(** The dependencies [ensureAllDependenciesAreInstalled] finds installed: the
    entries of node_modules and, for each entry that starts with [@], the
    entries below it prefixed with the scope. *)
Definition installedDependencies (inj : Injector) (projectDir : string)
    (s : FileSystem) : list string :=
  let nodeModulesPath := getNodeModulesPath inj projectDir in
  let top := if bool_decide (is_Some (s !! nodeModulesPath))
             then readDirectory inj nodeModulesPath s else [] in
  top ++
  flat_map (fun scopedDependencyDir =>
              map (fun dependencyName =>
                     scopedDependencyDir +:+ "/" +:+ dependencyName)
                  (readDirectory inj
                     (path_join inj [nodeModulesPath; scopedDependencyDir]) s))
           (List.filter (fun dependencyName => startsWith dependencyName "@") top).

(** The declared dependencies that are not installed. *)
Definition notInstalledDependencies (inj : Injector) (projectDir : string)
    (content : PackageJson) (s : FileSystem) : list string :=
  difference (keys (dependencies content) ++ keys (devDependencies content))%list
             (installedDependencies inj projectDir s).

(** The options of the install that [ensureAllDependenciesAreInstalled]
    runs: the options of the command line, without [save]. *)
Definition ensureInstallOptions (inj : Injector) : INodePackageManagerInstallOptions :=
  {| disableNpmInstall := opt_disableNpmInstall (options inj);
     frameworkPath := opt_frameworkPath (options inj);
     ignoreScripts := opt_ignoreScripts (options inj);
     path := opt_path (options inj);
     save := false |}.

(** The two assignments that end [addToPackageJson]:
    [content[key] = content[key] || {}; content[key][plugin] = version]. *)
Definition setDependency (k : CollectionKey) (plugin version : string)
    (content : PackageJson) : PackageJson :=
  let content :=
    setCollection k (Some (default ∅ (getCollection k content))) content in
  setCollection k (<[plugin := version]> <$> getCollection k content) content.

(** The section [addToPackageJson] writes to, and the other one. *)
Definition targetKey (isDev : bool) : CollectionKey :=
  if isDev then KeyDevDependencies else KeyDependencies.

Definition oppositeKey (isDev : bool) : CollectionKey :=
  if isDev then KeyDependencies else KeyDevDependencies.

(** ** More of the concrete project *)

Module DemoMore.

(** The collaborators of [Demo], in a project whose framework data cannot be
    read. *)
Definition injectorWithoutFramework : Injector :=
  {| PLUGINS_BUILD_DATA_FILENAME := PLUGINS_BUILD_DATA_FILENAME (Demo.injector []);
     APP_FOLDER_NAME := APP_FOLDER_NAME (Demo.injector []);
     path_join := Demo.join;
     path_resolve := Demo.resolve;
     path_dirname := Demo.dirname;
     path_basename := Demo.basename;
     require_resolve := Demo.requireResolve;
     shelljs_rm := Demo.rm;
     semver_gt := Demo.gt;
     options := options (Demo.injector []);
     platformNames := platformNames (Demo.injector []);
     getPlatformData := Demo.platformData [];
     getNSValue := fun _ _ _ => None;
     packageManager_install := Demo.install;
     packageManager_uninstall := Demo.uninstall;
     generateHashes := Demo.hashes;
     hasChangesInShasums := hasChangesInShasums (Demo.injector []);
     readDirectory := Demo.listDirectory;
     enumerateFilesInDirectorySync := Demo.listFiles |}.

(** The project declares the camera plugin, which is in node_modules. *)
Definition manifestWithCamera : PackageJson :=
  {| pj_name := "app"; pj_version := "1.0.0";
     dependencies := Some {[ "nativescript-camera" := "4.5.0" ]};
     devDependencies := None;
     nativescript := None |}.

Definition filesWithCamera : FileSystem :=
  <[Demo.manifestPath := PackageJsonFile manifestWithCamera]> Demo.files.

(** An action that records the destination it is given. *)
Definition collect (pluginDestinationPath platform : string)
    (platformData : IPlatformData) (seen : list string) : M (list string) :=
  ret (seen ++ [pluginDestinationPath])%list.

(** A production dependency graph: one plugin, one plain package. *)
Definition productionDependencies : list IDependencyData :=
  [ {| dep_name := "nativescript-camera"; dep_version := "4.5.0";
       dep_directory := "/app/node_modules/nativescript-camera";
       dep_nativescript := Some {| platforms := Some {[ "ios" := "6.0.0" ]};
                                   variables := None |} |};
    {| dep_name := "lodash"; dep_version := "4.17.21";
       dep_directory := "/app/node_modules/lodash";
       dep_nativescript := None |} ].

(** [require] of the demo reads the file as it is now. *)
Definition requireJson (filename : string) (s : FileSystem) : Res PackageJson :=
  match s !! filename with
  | Some (PackageJsonFile c) => Ok c
  | _ => Throw (ExternalError ("Cannot find module " +:+ filename))
  end.

(** The project declares a scoped package and the camera plugin; both are in
    node_modules. *)
Definition manifestWithScoped : PackageJson :=
  {| pj_name := "app"; pj_version := "1.0.0";
     dependencies := Some {[ "@nativescript/core" := "6.0.0" ]};
     devDependencies := Some {[ "nativescript-camera" := "4.5.0" ]};
     nativescript := None |}.

Definition filesWithScoped : FileSystem :=
  <[Demo.manifestPath := PackageJsonFile manifestWithScoped]>
    (<["/app/node_modules/@nativescript/core" := Directory]> Demo.files).

(** A plugin whose requirement for ios is a range, not a version. *)
Definition ranged : IPluginData :=
  {| name := "nativescript-ranged"; version := "1.0.0";
     fullPath := "/app/node_modules/nativescript-ranged";
     isPlugin := true;
     pluginPlatformsFolderPath := fun platform =>
       Demo.join ["/app/node_modules/nativescript-ranged"; "platforms"; platform];
     platformsDataService := Some {[ "ios" := "^6.0.0" ]};
     pluginVariables := None |}.

End DemoMore.

(** * The offline cache of the SDK ([cache.js])

    A module-level variable holds the store every [Cache] talks to; it starts
    as a store whose methods all throw and is replaced by [use].  Documents
    are JSON objects, finite maps from property names to JSON values; an
    absent property reads as [undefined].  [Math.random] is a sequence of
    rationals (a double scaled by the length of the alphabet, a power of two,
    is exact), read one draw at a time. *)

Module KinveyCache.

#[local] Unset Elimination Schemes.
Inductive value : Type :=
| VNull
| VBool (b : bool)
| VNum (n : Z)
| VStr (s : string)
| VArr (items : list value)
| VObj (properties : gmap string value).
#[local] Set Elimination Schemes.

Abbreviation doc := (gmap string value).

(** Truthiness of a property that may be absent. *)
Definition truthy (v : option value) : bool :=
  match v with
  | None | Some VNull => false
  | Some (VBool b) => b
  | Some (VNum n) => negb (Z.eqb n 0)
  | Some (VStr s) => negb (String.eqb s "")
  | Some (VArr _) | Some (VObj _) => true
  end.

Fixpoint characters (s : string) : list value :=
  match s with
  | EmptyString => []
  | String c s' => VStr (String c EmptyString) :: characters s'
  end.

Definition indexed (items : list value) : doc :=
  list_to_map (imap (fun i v => (pretty i, v)) items).

(** The own enumerable properties [Object.assign] copies from a source:
    [undefined], [null], booleans and numbers have none; a string has its
    characters and an array its items, under their indices. *)
Definition ownProperties (source : option value) : doc :=
  match source with
  | Some (VObj o) => o
  | Some (VArr items) => indexed items
  | Some (VStr s) => indexed (characters s)
  | _ => ∅
  end.

(** [Object.assign(target, ...sources)]: later sources win. *)
Definition assign (target : doc) (sources : list (option value)) : doc :=
  fold_left (fun t source => ownProperties source ∪ t) sources target.

Inductive error : Type := Error (message : string).

Inductive outcome (A : Type) : Type :=
| Resolved (a : A)
| Rejected (e : error).
Arguments Resolved {A} a.
Arguments Rejected {A} e.

(** What [save] accepts: a falsy value, one document, or an array of
    documents; and what it returns. *)
Inductive SaveArgument : Type :=
| Nothing
| One (d : doc)
| Many (ds : list doc).

Inductive SaveResult : Type :=
| ReturnedNull
| ReturnedUndefined
| ReturnedOne (d : doc)
| ReturnedMany (ds : list doc).

Section Cache.

(** The backing state of the stores, and the draws of [Math.random]. *)
Context {B : Type} (random : nat -> QArith_base.Q).

Record Store : Type := {
  store_find : string -> string -> value -> B -> outcome value * B;
  store_reduce : string -> string -> value -> B -> outcome value * B;
  store_count : string -> string -> value -> B -> outcome value * B;
  store_findById : string -> string -> value -> B -> outcome value * B;
  store_save : string -> string -> list doc -> B -> outcome value * B;
  store_remove : string -> string -> value -> B -> outcome value * B;
  store_removeById : string -> string -> value -> B -> outcome value * B;
  store_clear : string -> string -> value -> B -> outcome value * B;
  store_clearAll : string -> B -> outcome value * B
}.

Definition mustOverride : error :=
  Error "You must override the default cache adapter.".

(** The initial value of [store]. *)
Definition defaultStore : Store :=
  {| store_find := fun _ _ _ b => (Rejected mustOverride, b);
     store_reduce := fun _ _ _ b => (Rejected mustOverride, b);
     store_count := fun _ _ _ b => (Rejected mustOverride, b);
     store_findById := fun _ _ _ b => (Rejected mustOverride, b);
     store_save := fun _ _ _ b => (Rejected mustOverride, b);
     store_remove := fun _ _ _ b => (Rejected mustOverride, b);
     store_removeById := fun _ _ _ b => (Rejected mustOverride, b);
     store_clear := fun _ _ _ b => (Rejected mustOverride, b);
     store_clearAll := fun _ b => (Rejected mustOverride, b) |}.

(** The state of the module: the variable [store], the backing state of the
    stores and the number of draws made from [Math.random]. *)
Record State : Type := {
  store : Store;
  backing : B;
  drawn : nat
}.

Definition initial (b : B) : State :=
  {| store := defaultStore; backing := b; drawn := 0 |}.

Definition C (A : Type) : Type := State -> outcome A * State.

Definition unit_ {A} (a : A) : C A := fun st => (Resolved a, st).

Definition andThen {A A'} (m : C A) (k : A -> C A') : C A' :=
  fun st => match m st with
            | (Resolved a, st') => k a st'
            | (Rejected e, st') => (Rejected e, st')
            end.

(** A call of a method of the current store. *)
Definition onStore {A} (method : Store -> B -> outcome A * B) : C A :=
  fun st => let '(r, b) := method (store st) (backing st) in
            (r, {| store := store st; backing := b; drawn := drawn st |}).

(** [use(cacheStore)]; [None] is a falsy argument. *)
Definition use (cacheStore : option Store) : C unit :=
  fun st => match cacheStore with
            | Some s => (Resolved tt,
                         {| store := s; backing := backing st; drawn := drawn st |})
            | None => (Resolved tt, st)
            end.

Definition Math_random : C QArith_base.Q :=
  fun st => (Resolved (random (drawn st)),
             {| store := store st; backing := backing st; drawn := S (drawn st) |}).

(** Every draw of [Math.random] lies in [[0, 1)]. *)
Definition inUnitInterval : Prop :=
  forall i, QArith_base.Qle (QArith_base.inject_Z 0) (random i) /\
            QArith_base.Qlt (random i) (QArith_base.inject_Z 1).

(** [s.substring(from, to)]: both ends are clamped to the string and swapped
    when they come in the wrong order. *)
Definition substring (from to : Z) (s : string) : string :=
  let clamp x := Z.to_nat (Z.min (Z.max x 0) (Z.of_nat (String.length s))) in
  let a := Nat.min (clamp from) (clamp to) in
  let b := Nat.max (clamp from) (clamp to) in
  String.substring a (b - a) s.

Definition chars : string := "abcdef0123456789".

(** The loop of [generateId], [remaining] iterations from the end. *)
Fixpoint generateIdFrom (remaining : nat) (id : string) : C string :=
  match remaining with
  | O => unit_ id
  | S remaining' =>
      andThen Math_random (fun r =>
        let j := String.length chars in
        let pos :=
          Qround.Qfloor (QArith_base.Qmult r (QArith_base.inject_Z (Z.of_nat j))) in
        generateIdFrom remaining' (id +:+ substring pos (pos + 1) chars))
  end.

Definition generateId (length : nat) : C string := generateIdFrom length "".

Record Cache : Type := {
  appKey : string;
  collectionName : string
}.

Definition find (this : Cache) (query : value) : C value :=
  onStore (fun s => store_find s (appKey this) (collectionName this) query).

Definition reduce (this : Cache) (aggregation : value) : C value :=
  onStore (fun s => store_reduce s (appKey this) (collectionName this) aggregation).

Definition count (this : Cache) (query : value) : C value :=
  onStore (fun s => store_count s (appKey this) (collectionName this) query).

Definition findById (this : Cache) (id : value) : C value :=
  onStore (fun s => store_findById s (appKey this) (collectionName this) id).

(** The callback of [docs.map] in [save]. *)
Definition withId (d : doc) : C doc :=
  if negb (truthy (d !! "_id")) then
    andThen (generateId 24) (fun id =>
      unit_ (assign {[ "_id" := VStr id;
                       "_kmd" := VObj (assign ∅ [d !! "_kmd";
                                                 Some (VObj {[ "local" := VBool true ]})]) ]}
                    [Some (VObj d)]))
  else unit_ d.

Fixpoint mapDocs (f : doc -> C doc) (ds : list doc) : C (list doc) :=
  match ds with
  | [] => unit_ []
  | d :: ds' =>
      andThen (f d) (fun d' =>
      andThen (mapDocs f ds') (fun ds'' => unit_ (d' :: ds'')))
  end.

Definition save (this : Cache) (docsToSaveOrUpdate : SaveArgument) : C SaveResult :=
  match docsToSaveOrUpdate with
  | Nothing => unit_ ReturnedNull
  | _ =>
      let '(singular, docs) :=
        match docsToSaveOrUpdate with
        | One d => (true, [d])
        | Many ds => (false, ds)
        | Nothing => (false, [])
        end in
      andThen
        (if (0 <? length docs)%nat then
           andThen (mapDocs withId docs) (fun docs =>
           andThen (onStore (fun s =>
                               store_save s (appKey this) (collectionName this) docs))
                   (fun _ => unit_ docs))
         else unit_ docs)
        (fun docs =>
           unit_ (if singular : bool
                  then match docs with
                       | d :: _ => ReturnedOne d
                       | [] => ReturnedUndefined
                       end
                  else ReturnedMany docs))
  end.

Definition remove (this : Cache) (query : value) : C value :=
  onStore (fun s => store_remove s (appKey this) (collectionName this) query).

Definition removeById (this : Cache) (id : value) : C value :=
  onStore (fun s => store_removeById s (appKey this) (collectionName this) id).

Definition clear (this : Cache) (query : value) : C value :=
  onStore (fun s => store_clear s (appKey this) (collectionName this) query).

Definition clearAll (appKey : string) : C value :=
  onStore (fun s => store_clearAll s appKey).

(** A character of the alphabet of [generateId]. *)
Definition isHexDigit (c : ascii) : bool :=
  existsb (Ascii.eqb c) (list_ascii_of_string chars).

(** A string of [length] characters of the alphabet. *)
Definition generated (length : nat) (id : string) : Prop :=
  String.length id = length /\
  Forall (fun c => isHexDigit c = true) (list_ascii_of_string id).

(** The test [!doc._id] of [save], and how many documents pass it. *)
Definition lacksId (d : doc) : bool := negb (truthy (d !! "_id")).

Definition countLacking (docs : list doc) : nat :=
  length (List.filter lacksId docs).

(** The state after [n] more draws of [Math.random]. *)
Definition advance (n : nat) (st : State) : State :=
  {| store := store st; backing := backing st; drawn := drawn st + n |}.

(** One call of the [save] method of the current store with the batch
    [docs]; [result] is returned when the store resolves, whatever it
    resolves with, and its error when it rejects. *)
Definition stored (this : Cache) (docs : list doc) (result : SaveResult)
    (st : State) : outcome SaveResult * State :=
  let '(r, b) :=
    store_save (store st) (appKey this) (collectionName this) docs (backing st) in
  (match r with
   | Resolved _ => Resolved result
   | Rejected e => Rejected e
   end,
   {| store := store st; backing := b; drawn := drawn st |}).

(** How the document [d'] handed to the store relates to the document [d]
    given to [save]. *)
Definition saved (d d' : doc) : Prop :=
  if truthy (d !! "_id") then d' = d
  else
    (forall k v, d !! k = Some v -> d' !! k = Some v) /\
    (forall k, k <> "_id" -> k <> "_kmd" -> d' !! k = d !! k) /\
    (d !! "_id" = None ->
     exists id, generated 24 id /\ d' !! "_id" = Some (VStr id)) /\
    (d !! "_kmd" = None ->
     d' !! "_kmd" = Some (VObj {[ "local" := VBool true ]})).

End Cache.

End KinveyCache.

(** A store that keeps the batches it is given, a sequence of draws and some
    documents. *)

Module KinveyDemo.

Import KinveyCache.

Definition resolve (b : list (list doc)) : outcome value * list (list doc) :=
  (Resolved VNull, b).

Definition memory : Store :=
  {| store_find := fun _ _ _ => resolve;
     store_reduce := fun _ _ _ => resolve;
     store_count := fun _ _ _ => resolve;
     store_findById := fun _ _ _ => resolve;
     store_save := fun _ _ docs b => (Resolved VNull, b ++ [docs])%list;
     store_remove := fun _ _ _ => resolve;
     store_removeById := fun _ _ _ => resolve;
     store_clear := fun _ _ _ => resolve;
     store_clearAll := fun _ => resolve |}.

Definition random (i : nat) : QArith_base.Q :=
  QArith_base.Qmake (Z.of_nat (i mod 16)) 16.

Definition books : Cache := {| appKey := "kid_1"; collectionName := "books" |}.

Definition ready : State :=
  {| store := memory; backing := []; drawn := 0 |}.

Definition known : doc :=
  {[ "_id" := VStr "5f1c"; "title" := VStr "Dune" ]}.

Definition fresh : doc := {[ "title" := VStr "Emma" ]}.

Definition draft : doc :=
  {[ "_id" := VStr ""; "_kmd" := VObj {[ "lmt" := VStr "today" ]} ]}.

End KinveyDemo.

(** * Properties *)

Open Scope list_scope.

(** ** Stepping through the monad *)

Lemma bind_ok {A B} (m : M A) (k : A -> M B) w a w' :
  m w = (Ok a, w') -> bind m k w = k a w'.
Proof. intros H. unfold bind. rewrite H. reflexivity. Qed.

Lemma bind_throw {A B} (m : M A) (k : A -> M B) w e w' :
  m w = (Throw e, w') -> bind m k w = (Throw e, w').
Proof. intros H. unfold bind. rewrite H. reflexivity. Qed.

Lemma fs_exists_true p w : is_Some (fs w !! p) -> fs_exists p w = (Ok true, w).
Proof.
  intros H. unfold fs_exists, readFs.
  rewrite bool_decide_eq_true_2 by exact H. reflexivity.
Qed.

Lemma fs_exists_false p w : fs w !! p = None -> fs_exists p w = (Ok false, w).
Proof.
  intros H. unfold fs_exists, readFs.
  rewrite bool_decide_eq_false_2; [reflexivity|].
  rewrite H. intros [x Hx]. discriminate.
Qed.

Lemma fs_exists_unchanged p w : exists b, fs_exists p w = (Ok b, w).
Proof. eexists. reflexivity. Qed.

(** ** The native hashes *)

Section NativeHashes.

Context (inj : Injector).

Lemma getAllPluginsNativeHashes_missing filename w :
  fs w !! filename = None ->
  getAllPluginsNativeHashes filename w = (Ok ∅, w).
Proof.
  intros H. unfold getAllPluginsNativeHashes.
  rewrite (bind_ok _ _ _ _ _ (fs_exists_false _ _ H)). reflexivity.
Qed.

Lemma getAllPluginsNativeHashes_present filename w data :
  fs w !! filename = Some data ->
  getAllPluginsNativeHashes filename w =
    (match data with
     | PluginsBuildDataFile c => Ok c
     | _ => Throw (JsonReadError filename)
     end, w).
Proof.
  intros H. unfold getAllPluginsNativeHashes.
  rewrite (bind_ok _ _ w true w) by (apply fs_exists_true; rewrite H; eauto).
  unfold readJson_buildData, liftRes. rewrite H. destruct data; reflexivity.
Qed.

(** Loading never changes the world, and what it loads is what the file
    holds. *)
Lemma getAllPluginsNativeHashes_world filename w r w' :
  getAllPluginsNativeHashes filename w = (r, w') -> w' = w.
Proof.
  destruct (fs w !! filename) as [data|] eqn:E.
  - rewrite (getAllPluginsNativeHashes_present _ _ _ E). congruence.
  - rewrite (getAllPluginsNativeHashes_missing _ _ E). congruence.
Qed.

Lemma getPluginNativeHashes_present dir w :
  is_Some (fs w !! dir) ->
  getPluginNativeHashes inj dir w =
    (generateHashes inj (enumerateFilesInDirectorySync inj dir (fs w)) (fs w), w).
Proof.
  intros H. unfold getPluginNativeHashes.
  rewrite (bind_ok _ _ _ _ _ (fs_exists_true _ _ H)). reflexivity.
Qed.

(** Every run of [preparePluginNativeCode], by cases on what it finds. *)
Lemma preparePluginNativeCode_cases pluginData platform projectData w :
  preparePluginNativeCode inj pluginData platform projectData w =
    if bool_decide (is_Some (fs w !! nativeFolder inj pluginData platform)) then
      match getAllPluginsNativeHashes (pathToPluginsBuildFile inj platform projectData) w with
      | (Ok allHashes, _) =>
          match generateHashes inj
                  (enumerateFilesInDirectorySync inj
                     (nativeFolder inj pluginData platform) (fs w)) (fs w) with
          | Ok currentHashes =>
              if nativeCodeIsStale inj (allHashes !! name pluginData) currentHashes then
                match integrate inj pluginData platform projectData (fs w) with
                | (Ok _, s) =>
                    (Ok tt, recorded (integrated w platform (name pluginData) s)
                              (pathToPluginsBuildFile inj platform projectData)
                              (<[name pluginData := currentHashes]> allHashes))
                | (Throw e, s) => (Throw e, integrated w platform (name pluginData) s)
                end
              else (Ok tt, w)
          | Throw e => (Throw e, w)
          end
      | (Throw e, _) => (Throw e, w)
      end
    else (Ok tt, w).
Proof.
  unfold preparePluginNativeCode. cbv zeta.
  fold (nativeFolder inj pluginData platform).
  case_bool_decide as Hfolder.
  - rewrite (bind_ok _ _ _ _ _ (fs_exists_true _ _ Hfolder)).
    destruct (getAllPluginsNativeHashes (pathToPluginsBuildFile inj platform projectData) w)
      as [[allHashes|e] w0] eqn:Hload;
      pose proof (getAllPluginsNativeHashes_world _ _ _ _ Hload) as ->.
    + rewrite (bind_ok _ _ _ _ _ Hload).
      pose proof (getPluginNativeHashes_present _ _ Hfolder) as Hcur.
      destruct (generateHashes inj _ (fs w)) as [currentHashes|e].
      * rewrite (bind_ok _ _ _ _ _ Hcur).
        change (name (withPlatformsFolderPath inj pluginData)) with (name pluginData).
        destruct (nativeCodeIsStale inj (allHashes !! name pluginData) currentHashes);
          [|reflexivity].
        unfold bind, call, integrate.
        destruct (svc_preparePluginNativeCode _ _ _ (fs w)) as [[[]|e] s]; reflexivity.
      * rewrite (bind_throw _ _ _ _ _ Hcur). reflexivity.
    + rewrite (bind_throw _ _ _ _ _ Hload). reflexivity.
  - rewrite (bind_ok _ _ w false w); [reflexivity|].
    apply fs_exists_false. destruct (fs w !! _) eqn:E; [|reflexivity].
    exfalso. apply Hfolder. eauto.
Qed.

Lemma getAllPluginsNativeHashes_stored filename w allHashes pluginName :
  getAllPluginsNativeHashes filename w = (Ok allHashes, w) ->
  storedHashes (fs w) filename pluginName = allHashes !! pluginName.
Proof.
  unfold storedHashes. destruct (fs w !! filename) as [data|] eqn:E.
  - rewrite (getAllPluginsNativeHashes_present _ _ _ E).
    destruct data; intros H; inversion H; reflexivity.
  - rewrite (getAllPluginsNativeHashes_missing _ _ E).
    intros H; inversion H. rewrite lookup_empty. reflexivity.
Qed.

Lemma nativeCodeIsStale_spec (Hspec : FilesHashServiceSpec inj) old current :
  nativeCodeIsStale inj old current = true <-> old <> Some current.
Proof.
  unfold nativeCodeIsStale. destruct old as [o|].
  - rewrite (Hspec o current). split; intros H; congruence.
  - split; [discriminate | reflexivity].
Qed.

End NativeHashes.

Lemma Demo_filesHashService failing : FilesHashServiceSpec (Demo.injector failing).
Proof.
  intros oldHashes newHashes. simpl. apply bool_decide_eq_true.
Qed.



(** ** The hash-gated native prepare step *)

(** C1. When the native-assets folder of the plugin exists for the platform
    and the digests computed in this pass are the digest-set the build-data
    file stores for the plugin, [preparePluginNativeCode] returns normally
    and leaves the world as it found it: no call of the native-integration
    hook is made and the build-data file is not written. *)
Theorem prepare_unchanged_hashes_skips_integration
    inj pluginData platform projectData w allHashes currentHashes :
  FilesHashServiceSpec inj ->
  is_Some (fs w !! nativeFolder inj pluginData platform) ->
  fs w !! pathToPluginsBuildFile inj platform projectData
    = Some (PluginsBuildDataFile allHashes) ->
  generateHashes inj
    (enumerateFilesInDirectorySync inj (nativeFolder inj pluginData platform) (fs w))
    (fs w) = Ok currentHashes ->
  allHashes !! name pluginData = Some currentHashes ->
  preparePluginNativeCode inj pluginData platform projectData w = (Ok tt, w).
Proof.
  intros Hspec Hfolder Hfile Hcur Hsame.
  rewrite preparePluginNativeCode_cases.
  rewrite bool_decide_eq_true_2 by exact Hfolder.
  rewrite (getAllPluginsNativeHashes_present _ _ _ Hfile), Hcur.
  destruct (nativeCodeIsStale inj (allHashes !! name pluginData) currentHashes) eqn:E;
    [|reflexivity].
  apply (nativeCodeIsStale_spec inj Hspec) in E. contradiction.
Qed.

Lemma prepare_unchanged_hashes_witness :
  preparePluginNativeCode (Demo.injector []) Demo.camera "android" Demo.project
    (Demo.world Demo.filesWithLedger)
  = (Ok tt, Demo.world Demo.filesWithLedger).
Proof.
  apply (prepare_unchanged_hashes_skips_integration (Demo.injector []) Demo.camera
           "android" Demo.project (Demo.world Demo.filesWithLedger)
           Demo.ledger Demo.androidHashes).
  - apply Demo_filesHashService.
  - exists Directory. reflexivity.
  - reflexivity.
  - reflexivity.
  - reflexivity.
Defined.

(** Two passes in a row over the same native files: the first integrates and
    records the digests, the second does nothing. *)
Example prepare_twice :
  preparePluginNativeCode (Demo.injector []) Demo.camera "android" Demo.project
    (snd (preparePluginNativeCode (Demo.injector []) Demo.camera "android"
            Demo.project (Demo.world Demo.files)))
  = (Ok tt,
     snd (preparePluginNativeCode (Demo.injector []) Demo.camera "android"
            Demo.project (Demo.world Demo.files))).
Proof. reflexivity. Qed.






(** C10.  For a plugin [other] than the one being prepared: every build-data
    document written during the pass is the mapping loaded at the start of the
    pass with only the entry of the prepared plugin replaced, so it gives
    [other] the digest-set that was loaded; and, the integration hook leaving
    the build-data file alone, the entry of [other] in the file is the same
    after the pass as before it. *)
Theorem prepare_preserves_other_plugins
    inj pluginData platform projectData w other :
  other <> name pluginData ->
  (forall filename data,
      In (WriteJson filename data)
         (drop (length (trace w))
            (trace (snd (preparePluginNativeCode inj pluginData platform projectData w)))) ->
      exists allHashes currentHashes,
        getAllPluginsNativeHashes (pathToPluginsBuildFile inj platform projectData) w
          = (Ok allHashes, w)
        /\ filename = pathToPluginsBuildFile inj platform projectData
        /\ data = PluginsBuildDataFile (<[name pluginData := currentHashes]> allHashes)
        /\ (<[name pluginData := currentHashes]> allHashes) !! other = allHashes !! other)
  /\ ((forall s, snd (integrate inj pluginData platform projectData s)
                   !! pathToPluginsBuildFile inj platform projectData
                 = s !! pathToPluginsBuildFile inj platform projectData) ->
      storedHashes
        (fs (snd (preparePluginNativeCode inj pluginData platform projectData w)))
        (pathToPluginsBuildFile inj platform projectData) other
      = storedHashes (fs w) (pathToPluginsBuildFile inj platform projectData) other).
Proof.
  intros Hother.
  rewrite preparePluginNativeCode_cases.
  assert (Hnil : forall filename data,
             ~ In (WriteJson filename data) (drop (length (trace w)) (trace w))).
  { intros filename data. rewrite drop_all. intros []. }
  case_bool_decide as Hfolder; [|split; [intros ? ? H; destruct (Hnil _ _ H) | reflexivity]].
  destruct (getAllPluginsNativeHashes _ w) as [[allHashes|e] w0] eqn:Hload;
    pose proof (getAllPluginsNativeHashes_world _ _ _ _ Hload) as ->;
    [|split; [intros ? ? H; destruct (Hnil _ _ H) | reflexivity]].
  destruct (generateHashes inj _ (fs w)) as [currentHashes|e];
    [|split; [intros ? ? H; destruct (Hnil _ _ H) | reflexivity]].
  destruct (nativeCodeIsStale inj _ currentHashes);
    [|split; [intros ? ? H; destruct (Hnil _ _ H) | reflexivity]].
  destruct (integrate inj pluginData platform projectData (fs w)) as [[[]|e] s] eqn:Hhook.
  - split.
    + intros filename data. unfold recorded, integrated. simpl.
      rewrite <- app_assoc, drop_app_length. simpl.
      intros [H | [H | []]]; [discriminate|]. inversion H; subst.
      exists allHashes, currentHashes. repeat split.
      apply lookup_insert_ne. congruence.
    + intros _. unfold recorded, storedHashes at 1. simpl.
      rewrite lookup_insert_eq, lookup_insert_ne by congruence.
      symmetry. apply getAllPluginsNativeHashes_stored. exact Hload.
  - split.
    + intros filename data. unfold integrated. simpl.
      rewrite drop_app_length. simpl. intros [H | []]. discriminate.
    + intros Hframe. unfold integrated, storedHashes. simpl.
      specialize (Hframe (fs w)). rewrite Hhook in Hframe. simpl in Hframe.
      rewrite Hframe. reflexivity.
Qed.

Lemma prepare_preserves_other_plugins_witness :
  storedHashes
    (fs (snd (preparePluginNativeCode (Demo.injector []) Demo.camera "android"
                Demo.project (Demo.world Demo.filesWithChange))))
    Demo.ledgerPath "nativescript-geolocation"
  = storedHashes Demo.filesWithChange Demo.ledgerPath "nativescript-geolocation".
Proof.
  apply (prepare_preserves_other_plugins (Demo.injector []) Demo.camera "android"
           Demo.project (Demo.world Demo.filesWithChange) "nativescript-geolocation").
  - discriminate.
  - intros s. reflexivity.
Defined.

(** ** The package.json dependency sections *)

Section Manifest.

Context (inj : Injector).

Lemma readJson_package_file filename w content :
  fs w !! filename = Some (PackageJsonFile content) ->
  readJson_package filename w = (Ok content, w).
Proof. intros H. unfold readJson_package, liftRes. rewrite H. reflexivity. Qed.

(** For a name that [Object.prototype] does not have, the test of the code
    is the truthiness of the own entry. *)
Lemma declaresIn_version k dependency c :
  inherited dependency = false ->
  declaresIn k dependency c = truthy (declaredVersion k dependency c).
Proof.
  intros Hown. unfold declaresIn, declaredVersion, truthyProperty.
  destruct (getCollection k c) as [section|]; [|reflexivity]. cbn.
  destruct (section !! dependency); [reflexivity | exact Hown].
Qed.

Lemma declaresIn_absent k dependency c :
  inherited dependency = false ->
  (forall deps, getCollection k c = Some deps -> deps !! dependency = None) ->
  declaresIn k dependency c = false.
Proof.
  intros Hown H. rewrite declaresIn_version by exact Hown. unfold declaredVersion.
  destruct (getCollection k c) as [deps|]; [|reflexivity].
  cbn. rewrite (H deps eq_refl). reflexivity.
Qed.

(** An own entry with a non-empty version passes the test, whatever the name. *)
Lemma declaresIn_truthy k dependency c :
  truthy (declaredVersion k dependency c) = true ->
  declaresIn k dependency c = true.
Proof.
  unfold declaresIn, declaredVersion, truthyProperty.
  destruct (getCollection k c) as [section|]; [|discriminate]. cbn.
  destruct (section !! dependency); [trivial | discriminate].
Qed.

Lemma declaresIn_false k dependency c :
  declaresIn k dependency c = false ->
  truthy (declaredVersion k dependency c) = false.
Proof.
  intros H. destruct (truthy (declaredVersion k dependency c)) eqn:E; [|reflexivity].
  rewrite (declaresIn_truthy _ _ _ E) in H. discriminate.
Qed.

(** An own entry decides the test, whatever the name. *)
Lemma declaresIn_own k dependency c version :
  declaredVersion k dependency c = Some version ->
  declaresIn k dependency c = truthy (Some version).
Proof.
  unfold declaresIn, declaredVersion, truthyProperty.
  destruct (getCollection k c) as [section|]; [|discriminate]. cbn.
  intros ->. reflexivity.
Qed.

(** Deleting a name that a section does not hold changes nothing. *)
Lemma setCollection_delete_absent k dependency c :
  declaredVersion k dependency c = None ->
  setCollection k (delete dependency <$> getCollection k c) c = c.
Proof.
  unfold declaredVersion. destruct c as [n v deps dev ns].
  destruct k; cbn; [destruct deps as [deps|] | destruct dev as [dev|]]; cbn;
    try reflexivity; intros H; rewrite (delete_id _ _ H); reflexivity.
Qed.

Lemma addToPackageJson_run plugin version isDev projectDir w content :
  fs w !! getPackageJsonFilePath inj projectDir = Some (PackageJsonFile content) ->
  addToPackageJson inj plugin version isDev projectDir w =
    (Ok tt,
     {| fs := <[getPackageJsonFilePath inj projectDir
                := PackageJsonFile (manifestAfterAdd plugin version isDev content)]> (fs w);
        trace := trace w ++
          [WriteJson (getPackageJsonFilePath inj projectDir)
             (PackageJsonFile (manifestAfterAdd plugin version isDev content))] |}).
Proof.
  intros H. unfold addToPackageJson.
  rewrite (bind_ok _ _ _ _ _ (readJson_package_file _ _ _ H)). reflexivity.
Qed.

(** After [addToPackageJson] the target section declares the version. *)
Lemma manifestAfterAdd_target plugin version (isDev : bool) content :
  declaredVersion (if isDev then KeyDevDependencies else KeyDependencies) plugin
    (manifestAfterAdd plugin version isDev content) = Some version.
Proof.
  unfold manifestAfterAdd, declaredVersion.
  destruct isDev; simpl; apply lookup_insert_eq.
Qed.

Lemma declaredVersion_removed k plugin content :
  declaredVersion k plugin
    (packageJsonContent (removeDependencyFromPackageJsonContent plugin content))
  = if truthy (declaredVersion k plugin content) then None
    else declaredVersion k plugin content.
Proof.
  unfold removeDependencyFromPackageJsonContent, declaresIn, declaredVersion,
    truthyProperty.
  destruct content as [n v deps dev ns].
  destruct k, deps as [deps|], dev as [dev|]; simpl;
    repeat (match goal with
            | |- context [match ?m !! plugin with _ => _ end] =>
                destruct (m !! plugin) as [?|] eqn:?; simpl in *
            | |- context [if negb (String.eqb ?x "") then _ else _] =>
                destruct (String.eqb x ""); simpl in *
            | |- context [if inherited plugin then _ else _] =>
                destruct (inherited plugin); simpl in *
            end);
    rewrite ?lookup_delete_eq; try reflexivity; try congruence.
Qed.

(** The opposite section keeps the dependency only when it declared it with a
    falsy (empty) version. *)
Lemma manifestAfterAdd_opposite plugin version (isDev : bool) content :
  declaredVersion (if isDev then KeyDependencies else KeyDevDependencies) plugin
    (manifestAfterAdd plugin version isDev content)
  = if truthy (declaredVersion (if isDev then KeyDependencies else KeyDevDependencies)
                 plugin content)
    then None
    else declaredVersion (if isDev then KeyDependencies else KeyDevDependencies)
           plugin content.
Proof.
  unfold manifestAfterAdd.
  destruct isDev; simpl.
  - change (declaredVersion KeyDependencies plugin
              (if declaresIn KeyDependencies plugin content
               then packageJsonContent (removeDependencyFromPackageJsonContent plugin content)
               else content)
            = if truthy (declaredVersion KeyDependencies plugin content) then None
              else declaredVersion KeyDependencies plugin content).
    destruct (declaresIn KeyDependencies plugin content) eqn:E.
    + apply declaredVersion_removed.
    + rewrite (declaresIn_false _ _ _ E). reflexivity.
  - change (declaredVersion KeyDevDependencies plugin
              (if declaresIn KeyDevDependencies plugin content
               then packageJsonContent (removeDependencyFromPackageJsonContent plugin content)
               else content)
            = if truthy (declaredVersion KeyDevDependencies plugin content) then None
              else declaredVersion KeyDevDependencies plugin content).
    destruct (declaresIn KeyDevDependencies plugin content) eqn:E.
    + apply declaredVersion_removed.
    + rewrite (declaresIn_false _ _ _ E). reflexivity.
Qed.

(** Adding as a development dependency and then as a regular one moves the
    entry, provided the first version is not the empty string. *)
Lemma manifestAfterAdd_moves_entry plugin v v2 content :
  v <> "" ->
  declaredVersion KeyDependencies plugin
    (manifestAfterAdd plugin v2 false (manifestAfterAdd plugin v true content)) = Some v2
  /\ declaredVersion KeyDevDependencies plugin
       (manifestAfterAdd plugin v2 false (manifestAfterAdd plugin v true content)) = None.
Proof.
  intros Hv. split.
  - apply (manifestAfterAdd_target plugin v2 false).
  - rewrite (manifestAfterAdd_opposite plugin v2 false).
    rewrite (manifestAfterAdd_target plugin v true). simpl.
    destruct (String.eqb_spec v ""); [contradiction | reflexivity].
Qed.

(** With an empty first version the entry stays in both sections. *)
Lemma manifestAfterAdd_empty_version_in_both plugin v2 content :
  declaredVersion KeyDependencies plugin
    (manifestAfterAdd plugin v2 false (manifestAfterAdd plugin "" true content)) = Some v2
  /\ declaredVersion KeyDevDependencies plugin
       (manifestAfterAdd plugin v2 false (manifestAfterAdd plugin "" true content)) = Some "".
Proof.
  split.
  - apply (manifestAfterAdd_target plugin v2 false).
  - rewrite (manifestAfterAdd_opposite plugin v2 false).
    rewrite (manifestAfterAdd_target plugin "" true). reflexivity.
Qed.

End Manifest.

(** For a name that [Object.prototype] does not have: when the project's
    package.json declares it in neither section, [removeFromPackageJson]
    returns normally and leaves the world as it found it, with no
    [writeJson]. *)
Lemma removeFromPackageJson_absent_no_write inj plugin projectDir w content :
  inherited plugin = false ->
  fs w !! getPackageJsonFilePath inj projectDir = Some (PackageJsonFile content) ->
  (forall deps, dependencies content = Some deps -> deps !! plugin = None) ->
  (forall deps, devDependencies content = Some deps -> deps !! plugin = None) ->
  removeFromPackageJson inj plugin projectDir w = (Ok tt, w).
Proof.
  intros Hown Hfile Hdeps Hdev. unfold removeFromPackageJson.
  rewrite (bind_ok _ _ _ _ _ (readJson_package_file _ _ _ Hfile)).
  unfold removeDependencyFromPackageJsonContent.
  rewrite (declaresIn_absent KeyDevDependencies plugin content Hown Hdev).
  rewrite (declaresIn_absent KeyDependencies plugin content Hown Hdeps).
  reflexivity.
Qed.

Lemma removeFromPackageJson_absent_witness :
  removeFromPackageJson (Demo.injector []) "nativescript-camera" "/app"
    (Demo.world Demo.filesWithDependencies)
  = (Ok tt, Demo.world Demo.filesWithDependencies).
Proof.
  apply (removeFromPackageJson_absent_no_write (Demo.injector [])
           "nativescript-camera" "/app" (Demo.world Demo.filesWithDependencies)
           Demo.manifestWithDependencies).
  - reflexivity.
  - reflexivity.
  - intros deps H. injection H as <-. reflexivity.
  - intros deps H. injection H as <-. reflexivity.
Defined.

(** C9, at its failing input.  [removeDependencyFromPackageJsonContent] tests
    the presence of the name with [content.dependencies[dependency]], a read
    that goes through the prototype of the section.  For the name
    ["constructor"], which the manifest declares in neither section, the read
    gives a function: the test passes, [hasModifiedPackageJson] is set
    although nothing was deleted, and [removeFromPackageJson] writes the
    file, with the document it has just read. *)
Theorem removeFromPackageJson_writes_for_constructor :
  declaredVersion KeyDependencies "constructor" Demo.manifestWithDependencies = None
  /\ declaredVersion KeyDevDependencies "constructor" Demo.manifestWithDependencies = None
  /\ removeFromPackageJson (Demo.injector []) "constructor" "/app"
       (Demo.world Demo.filesWithDependencies)
     = (Ok tt,
        {| fs := <[Demo.manifestPath := PackageJsonFile Demo.manifestWithDependencies]>
                   Demo.filesWithDependencies;
           trace := [WriteJson Demo.manifestPath
                       (PackageJsonFile Demo.manifestWithDependencies)] |}).
Proof. repeat split; reflexivity. Qed.

(** C7, at its failing input.  [addToPackageJson] tests the opposite section
    with [content[key][plugin]], which is falsy for an entry whose version is
    the empty string: adding the camera plugin with version [""] as a
    development dependency and then with version ["4.5.0"] as a regular one
    leaves it declared in both sections. *)
Theorem addToPackageJson_empty_version_in_both_sections :
  exists content,
    fs (snd (addToPackageJson (Demo.injector []) "nativescript-camera" "4.5.0" false "/app"
          (snd (addToPackageJson (Demo.injector []) "nativescript-camera" "" true "/app"
                  (Demo.world Demo.filesWithDependencies)))))
      !! Demo.manifestPath = Some (PackageJsonFile content)
    /\ declaredVersion KeyDependencies "nativescript-camera" content = Some "4.5.0"
    /\ declaredVersion KeyDevDependencies "nativescript-camera" content = Some "".
Proof.
  exists (manifestAfterAdd "nativescript-camera" "4.5.0" false
            (manifestAfterAdd "nativescript-camera" "" true Demo.manifestWithDependencies)).
  split; [reflexivity|].
  apply manifestAfterAdd_empty_version_in_both.
Qed.

(** ** Version compatibility *)

(** C6, as stated, fails: a plugin whose metadata declares no platforms
    mapping declares no requirement for ios, yet the check returns true and
    warns nothing. *)
Lemma isPluginDataValidForPlatform_without_platforms :
  platformsDataService Demo.bare = None
  /\ isPluginDataValidForPlatform (Demo.injector []) Demo.bare "ios" Demo.project
       (Demo.world Demo.files)
     = (Ok true, Demo.world Demo.files).
Proof. split; reflexivity. Qed.

(** C6, amended.  With the installed framework version read, the check
    - returns true and warns nothing when the plugin declares no platforms
      mapping at all;
    - returns false with the "is not supported for" warning when the mapping
      has no entry, or an empty one, for the platform, unless the platform
      bears a name of [Object.prototype]: the read then finds a function,
      and the comparison throws;
    - throws what [semver.gt] throws, and warns nothing, when the comparison
      of the declared minimum with the installed version throws, as it does
      on a string that is not a semantic version;
    - returns false with the warning that carries both version strings when
      the declared minimum is [semver.gt] the installed version;
    - returns true and warns nothing otherwise. *)
Theorem isPluginDataValidForPlatform_outcomes
    inj pluginData platform projectData w installedFrameworkVersion :
  getInstalledFrameworkVersion inj platform projectData w
    = (Ok installedFrameworkVersion, w) ->
  isPluginDataValidForPlatform inj pluginData platform projectData w =
    match platformsDataService pluginData with
    | None => (Ok true, w)
    | Some requirements =>
        match requirements !! platform with
        | None =>
            if inherited platform then (Throw notAVersion, w)
            else (Ok false, warned w (notSupportedMessage (name pluginData) platform))
        | Some required =>
            if String.eqb required "" then
              (Ok false, warned w (notSupportedMessage (name pluginData) platform))
            else
              match semver_gt inj required installedFrameworkVersion with
              | Throw e => (Throw e, w)
              | Ok true =>
                  (Ok false,
                   warned w (requiresVersionMessage (name pluginData) required platform
                               installedFrameworkVersion))
              | Ok false => (Ok true, w)
              end
        end
    end.
Proof.
  intros Hinstalled. unfold isPluginDataValidForPlatform.
  rewrite (bind_ok _ _ _ _ _ Hinstalled).
  destruct (platformsDataService pluginData) as [requirements|]; [|reflexivity].
  unfold truthyProperty.
  destruct (requirements !! platform) as [required|]; simpl.
  - destruct (String.eqb required ""); simpl; [reflexivity|].
    unfold bind, liftRes.
    destruct (semver_gt inj required installedFrameworkVersion) as [[|]|e]; reflexivity.
  - destruct (inherited platform); reflexivity.
Qed.

Lemma isPluginDataValidForPlatform_witness :
  isPluginDataValidForPlatform (Demo.injector []) Demo.camera "ios" Demo.project
    (Demo.world Demo.files)
  = (Ok false,
     warned (Demo.world Demo.files)
       "nativescript-camera requires at least version 6.0.0 of platform ios. Currently installed version is 5.2.0.").
Proof.
  rewrite (isPluginDataValidForPlatform_outcomes (Demo.injector []) Demo.camera "ios"
             Demo.project (Demo.world Demo.files) "5.2.0").
  - reflexivity.
  - reflexivity.
Defined.

(** A requirement that is not a semantic version makes the comparison, and
    with it the check, throw. *)
Example isPluginDataValidForPlatform_throws_on_a_range :
  isPluginDataValidForPlatform (Demo.injector []) DemoMore.ranged "ios" Demo.project
    (Demo.world Demo.files)
  = (Throw (TypeError "Invalid Version: ^6.0.0"), Demo.world Demo.files).
Proof. reflexivity. Qed.

(** The check is advisory: installing the camera plugin, which asks for ios
    6.0.0 where 5.2.0 is installed and declares nothing for android, warns
    for both platforms and succeeds. *)
Example add_warns_and_succeeds :
  fst (add (Demo.injector []) "nativescript-camera" Demo.project
         (Demo.world Demo.files)) = Ok tt
  /\ trace (snd (add (Demo.injector []) "nativescript-camera" Demo.project
                   (Demo.world Demo.files)))
     = [NpmInstall "nativescript-camera" "/app" (npmInstallOptions (Demo.injector []));
        LogWarn "nativescript-camera requires at least version 6.0.0 of platform ios. Currently installed version is 5.2.0.";
        LogWarn "nativescript-camera is not supported for android.";
        LogInfo "Successfully installed plugin nativescript-camera."].
Proof. split; reflexivity. Qed.

(** ** add *)

Lemma call_run {A} ev (f : FileSystem -> Res A * FileSystem) w r s :
  f (fs w) = (r, s) ->
  call ev f w = (r, {| fs := s; trace := trace w ++ [ev] |}).
Proof. intros H. unfold call. rewrite H. reflexivity. Qed.

Lemma Demo_packageManager failing : PackageManagerSpec (Demo.injector failing).
Proof.
  intros packageName dir s s' H c Hc. simpl in H. unfold Demo.uninstall in H.
  injection H as <-. revert Hc.
  change (getPackageJsonFilePath (Demo.injector failing) dir)
    with (Demo.join [dir; "package.json"]).
  unfold Demo.onManifest.
  destruct (Demo.rm _ s !! Demo.join [dir; "package.json"]) as [[| c0 | |]|] eqn:E;
    try (rewrite E; discriminate).
  rewrite lookup_insert_eq. intros Hc. injection Hc as <-. simpl.
  split; intros deps Hdeps.
  - destruct (dependencies c0); simpl in Hdeps; [|discriminate].
    injection Hdeps as <-. apply lookup_delete_eq.
  - destruct (devDependencies c0); simpl in Hdeps; [|discriminate].
    injection Hdeps as <-. apply lookup_delete_eq.
Qed.

(** C5.  When the preliminary [ensure] step has run, the package manager has
    installed the specifier, and the package.json of the installed package has
    no [nativescript] section, [add] calls the package manager's uninstall
    with the name read from that package.json and with [save], and then fails
    with the validation error that names the specifier handed to the package
    manager.  Nothing else is called after the install, the file system is the
    one the uninstall left, and so (the package manager removing the saved
    entry on uninstall) the manifest has no entry for the package. *)
Theorem add_rejects_package_without_nativescript_key
    inj plugin projectData w w1 installed s2 pathToRealNpmPackageJson
    realNpmPackageJson s3 :
  PackageManagerSpec inj ->
  ensure inj projectData w = (Ok tt, w1) ->
  packageManager_install inj (installSpecifier inj plugin (fs w1))
    (projectDir projectData) (npmInstallOptions inj) (fs w1) = (Ok installed, s2) ->
  require_resolve inj (res_name installed +:+ "/package.json")
    (projectDir projectData) s2 = Ok pathToRealNpmPackageJson ->
  s2 !! pathToRealNpmPackageJson = Some (PackageJsonFile realNpmPackageJson) ->
  nativescript realNpmPackageJson = None ->
  packageManager_uninstall inj (pj_name realNpmPackageJson) true
    (projectDir projectData) s2 = (Ok tt, s3) ->
  add inj plugin projectData w =
    (Throw (FailError (notAValidPluginMessage (installSpecifier inj plugin (fs w1)))),
     {| fs := s3;
        trace := trace w1 ++
          [NpmInstall (installSpecifier inj plugin (fs w1)) (projectDir projectData)
             (npmInstallOptions inj);
           NpmUninstall (pj_name realNpmPackageJson) true (projectDir projectData)] |})
  /\ manifestLacks inj (projectDir projectData) (pj_name realNpmPackageJson) s3.
Proof.
  intros Hpm Hensure Hinstall Hresolve Hread Hkey Huninstall.
  split; [|exact (Hpm _ _ _ _ Huninstall)].
  unfold add.
  rewrite (bind_ok _ _ _ _ _ Hensure).
  rewrite (bind_ok _ _ w1 (installSpecifier inj plugin (fs w1)) w1) by reflexivity.
  rewrite (bind_ok _ _ _ _ _ (call_run _ _ _ _ _ Hinstall)).
  erewrite bind_ok; cycle 1.
  { unfold getPackageJsonFilePathForModule, liftRes. simpl. rewrite Hresolve.
    reflexivity. }
  erewrite bind_ok; cycle 1.
  { apply readJson_package_file. simpl. exact Hread. }
  rewrite Hkey.
  erewrite bind_ok; cycle 1.
  { apply call_run. simpl. exact Huninstall. }
  unfold throw. simpl. rewrite <- app_assoc. reflexivity.
Qed.

Lemma add_rejects_left_pad_witness :
  add (Demo.injector []) "left-pad" Demo.project (Demo.world Demo.files)
  = (Throw (FailError "left-pad is not a valid NativeScript plugin. Verify that the plugin package.json file contains a nativescript key and try again."),
     {| fs := snd (Demo.uninstall "left-pad" true "/app"
                     (snd (Demo.install "left-pad" "/app"
                             (npmInstallOptions (Demo.injector [])) Demo.files)));
        trace := [NpmInstall "left-pad" "/app" (npmInstallOptions (Demo.injector []));
                  NpmUninstall "left-pad" true "/app"] |})
  /\ manifestLacks (Demo.injector []) "/app" "left-pad"
       (snd (Demo.uninstall "left-pad" true "/app"
               (snd (Demo.install "left-pad" "/app"
                       (npmInstallOptions (Demo.injector [])) Demo.files)))).
Proof.
  apply (add_rejects_package_without_nativescript_key (Demo.injector []) "left-pad"
           Demo.project (Demo.world Demo.files) (Demo.world Demo.files)
           {| res_name := "left-pad"; res_version := "1.3.0" |}
           (snd (Demo.install "left-pad" "/app"
                   (npmInstallOptions (Demo.injector [])) Demo.files))
           "/app/node_modules/left-pad/package.json"
           {| pj_name := "left-pad"; pj_version := "1.3.0";
              dependencies := None; devDependencies := None; nativescript := None |}).
  - apply Demo_packageManager.
  - reflexivity.
  - reflexivity.
  - reflexivity.
  - reflexivity.
  - reflexivity.
  - reflexivity.
Defined.

(** ** remove *)

Section Remove.

Context (inj : Injector).

Lemma readOnly_ret {A} (a : A) : readOnly (ret a).
Proof. intros w. reflexivity. Qed.

Lemma readOnly_throw {A} e : readOnly (@throw A e).
Proof. intros w. reflexivity. Qed.

Lemma readOnly_readFs {A} (f : FileSystem -> A) : readOnly (readFs f).
Proof. intros w. reflexivity. Qed.

Lemma readOnly_liftRes {A} (f : FileSystem -> Res A) : readOnly (liftRes f).
Proof. intros w. reflexivity. Qed.

Lemma readOnly_bind {A B} (m : M A) (k : A -> M B) :
  readOnly m -> (forall a, readOnly (k a)) -> readOnly (bind m k).
Proof.
  intros Hm Hk w. unfold bind. specialize (Hm w).
  destruct (m w) as [[a|e] w0]; simpl in Hm; subst w0.
  - apply Hk.
  - reflexivity.
Qed.

Lemma readOnly_run {A} (m : M A) w r w' : readOnly m -> m w = (r, w') -> w' = w.
Proof. intros Hm H. specialize (Hm w). rewrite H in Hm. exact Hm. Qed.

Lemma readOnly_getPackageJsonFilePathForModule moduleName projectDir :
  readOnly (getPackageJsonFilePathForModule inj moduleName projectDir).
Proof. apply readOnly_liftRes. Qed.

Lemma readOnly_getNodeModuleData module projectDir :
  readOnly (getNodeModuleData inj module projectDir).
Proof.
  unfold getNodeModuleData.
  apply readOnly_bind; [apply readOnly_readFs|]. intros present.
  apply readOnly_bind.
  { destruct (_ || _); [apply readOnly_getPackageJsonFilePathForModule | apply readOnly_ret]. }
  intros module'. apply readOnly_bind; [apply readOnly_liftRes|].
  intros data. apply readOnly_ret.
Qed.

Lemma readOnly_convertToPluginData cacheData projectDir :
  readOnly (convertToPluginData inj cacheData projectDir).
Proof.
  unfold convertToPluginData. apply readOnly_bind.
  - destruct (truthy _); [apply readOnly_ret|].
    apply readOnly_bind; [apply readOnly_getPackageJsonFilePathForModule|].
    intros f. apply readOnly_ret.
  - intros p. apply readOnly_ret.
Qed.

Lemma forOf_app {A S} (xs ys : list A) (body : A -> S -> M S) s w :
  forOf (xs ++ ys) body s w =
    match forOf xs body s w with
    | (Ok s', w') => forOf ys body s' w'
    | (Throw e, w') => (Throw e, w')
    end.
Proof.
  revert s w. induction xs as [|x xs IH]; intros s w; simpl.
  - reflexivity.
  - unfold bind. destruct (body x s w) as [[s'|e] w']; [apply IH | reflexivity].
Qed.

(** One step of the first pass: either nothing is called, or the removal hook
    of the platform is called once.  The step returns normally only with the
    world the hook left. *)
Lemma removeStep_trace pluginName projectData platform w :
  trace (snd (forInstalledPlatform inj
                (removePluginNativeCodeAction inj pluginName projectData)
                projectData platform tt w)) = trace w
  \/ exists pluginName',
       trace (snd (forInstalledPlatform inj
                     (removePluginNativeCodeAction inj pluginName projectData)
                     projectData platform tt w))
       = trace w ++ [RemovePluginNativeCode (toLowerCase platform) pluginName'].
Proof.
  destruct (forInstalledPlatform inj _ projectData platform tt w) as [r w'] eqn:Hrun.
  simpl. unfold forInstalledPlatform in Hrun.
  destruct (fs_exists_unchanged
              (path_join inj [platformsDir projectData; toLowerCase platform]) w)
    as [installed Hinstalled].
  rewrite (bind_ok _ _ _ _ _ Hinstalled) in Hrun.
  destruct installed; [|injection Hrun as <- <-; left; reflexivity].
  unfold removePluginNativeCodeAction in Hrun.
  destruct (getNodeModuleData inj pluginName (projectDir projectData) w)
    as [[d|e] w0] eqn:Hd;
    pose proof (readOnly_run _ _ _ _ (readOnly_getNodeModuleData _ _) Hd) as ->;
    [rewrite (bind_ok _ _ _ _ _ Hd) in Hrun
    |rewrite (bind_throw _ _ _ _ _ Hd) in Hrun; injection Hrun as <- <-; left; reflexivity].
  destruct (convertToPluginData inj (cacheDataOfNodeModule d) (projectDir projectData) w)
    as [[pd|e] w0] eqn:Hpd;
    pose proof (readOnly_run _ _ _ _ (readOnly_convertToPluginData _ _) Hpd) as ->;
    [rewrite (bind_ok _ _ _ _ _ Hpd) in Hrun
    |rewrite (bind_throw _ _ _ _ _ Hpd) in Hrun; injection Hrun as <- <-; left; reflexivity].
  right. exists (name pd). unfold call in Hrun.
  destruct (svc_removePluginNativeCode _ pd projectData (fs w)) as [r0 s0].
  injection Hrun as <- <-. reflexivity.
Qed.

(** The first pass: the removal hooks of some of the platforms, in the order
    of the platform list, and nothing else. *)
Lemma removePass_trace pluginName projectData platforms w :
  exists visited hooks,
    sublist visited platforms
    /\ Forall2 (fun ev platform =>
                  exists pluginName',
                    ev = RemovePluginNativeCode (toLowerCase platform) pluginName')
               hooks visited
    /\ trace (snd (forOf platforms
                     (forInstalledPlatform inj
                        (removePluginNativeCodeAction inj pluginName projectData)
                        projectData) tt w))
       = trace w ++ hooks.
Proof.
  revert w. induction platforms as [|platform platforms IH]; intros w.
  - exists [], []. repeat split; [constructor | constructor | simpl; rewrite app_nil_r; reflexivity].
  - simpl. unfold bind.
    pose proof (removeStep_trace pluginName projectData platform w) as Hstep.
    destruct (forInstalledPlatform inj _ projectData platform tt w) as [[[]|e] w'];
      simpl in Hstep.
    + destruct (IH w') as (visited & hooks & Hsub & Hall & Htrace).
      destruct Hstep as [Hsame | [n Hone]].
      * exists visited, hooks. repeat split; [by apply sublist_cons | exact Hall |].
        rewrite Htrace, Hsame. reflexivity.
      * exists (platform :: visited), (RemovePluginNativeCode (toLowerCase platform) n :: hooks).
        repeat split; [by apply sublist_skip | constructor; eauto |].
        rewrite Htrace, Hone, <- app_assoc. reflexivity.
    + destruct Hstep as [Hsame | [n Hone]].
      * exists [], []. repeat split; [apply sublist_nil_l | constructor |].
        simpl. rewrite Hsame, app_nil_r. reflexivity.
      * exists [platform], [RemovePluginNativeCode (toLowerCase platform) n].
        repeat split; [apply sublist_skip, sublist_nil_l | repeat constructor; eauto |].
        simpl. exact Hone.
Qed.

(** One step of the second pass. *)
Lemma cleanupStep_run pluginName projectData platform showMessage w :
  forInstalledPlatform inj (removeLeftoversAction inj pluginName) projectData
    platform showMessage w
  = if bool_decide (is_Some (fs w !! path_join inj [platformsDir projectData;
                                                    toLowerCase platform]))
    then (Ok false,
          {| fs := shelljs_rm inj
                     (leftoverDirectory inj pluginName (toLowerCase platform) projectData)
                     (fs w);
             trace := trace w ++ cleanupOf inj pluginName projectData platform |})
    else (Ok showMessage, w).
Proof.
  unfold forInstalledPlatform, bind at 1, fs_exists, readFs.
  destruct (bool_decide _); [|reflexivity].
  unfold removeLeftoversAction, bind, call, emit, ret, cleanupOf, leftoverDirectory.
  simpl. rewrite <- app_assoc. reflexivity.
Qed.

(** The second pass never throws: for some of the platforms, in the order of
    the platform list, it deletes the leftover directory and logs. *)
Lemma cleanupPass_run pluginName projectData platforms showMessage w :
  exists cleaned s,
    sublist cleaned platforms
    /\ forOf platforms
         (forInstalledPlatform inj (removeLeftoversAction inj pluginName) projectData)
         showMessage w
       = (Ok (match cleaned with [] => showMessage | _ => false end),
          {| fs := s;
             trace := trace w ++ flat_map (cleanupOf inj pluginName projectData) cleaned |}).
Proof.
  revert showMessage w. induction platforms as [|platform platforms IH]; intros showMessage w.
  - exists [], (fs w). split; [constructor|]. simpl. unfold ret.
    rewrite app_nil_r. destruct w; reflexivity.
  - cbn [forOf].
    pose proof (cleanupStep_run pluginName projectData platform showMessage w) as Hstep.
    destruct (bool_decide _).
    + rewrite (bind_ok _ _ _ _ _ Hstep).
      match type of Hstep with
      | _ = (_, ?w1) => destruct (IH false w1) as (cleaned & s & Hsub & Hrun)
      end.
      exists (platform :: cleaned), s. split; [by apply sublist_skip|].
      rewrite Hrun. cbn [trace flat_map]. rewrite <- app_assoc.
      destruct cleaned; reflexivity.
    + rewrite (bind_ok _ _ _ _ _ Hstep).
      destruct (IH showMessage w) as (cleaned & s & Hsub & Hrun).
      exists cleaned, s. split; [by apply sublist_cons|]. exact Hrun.
Qed.

End Remove.

Lemma executeNpmCommand_uninstall inj pluginName projectData w :
  executeNpmCommand inj UNINSTALL_COMMAND_NAME pluginName projectData w =
    match packageManager_uninstall inj pluginName true (projectDir projectData) (fs w) with
    | (Ok _, s) =>
        (Ok (parseNpmCommandResult pluginName),
         {| fs := s;
            trace := trace w ++ [NpmUninstall pluginName true (projectDir projectData)] |})
    | (Throw e, s) =>
        (Throw e,
         {| fs := s;
            trace := trace w ++ [NpmUninstall pluginName true (projectDir projectData)] |})
    end.
Proof.
  unfold executeNpmCommand, bind, call. simpl.
  change NPM_CONFIG_save with true.
  destruct (packageManager_uninstall inj pluginName true (projectDir projectData) (fs w))
    as [[[]|e] s]; reflexivity.
Qed.


(** Every run of [remove], whatever the collaborators do to the file system,
    makes its calls in three phases: first the native-code-removal hooks, one
    for each platform it visits, in the order of the platform list; then, if
    that pass returned, the package manager's uninstall, once; then, if the
    uninstall returned, for each platform it then finds installed, the
    deletion of the plugin's leftover directory followed by a message, and a
    last message when no platform was cleaned. *)
Lemma remove_three_phases inj pluginName projectData w :
  exists visited hooks rest,
    sublist visited (map toLowerCase (platformNames inj))
    /\ Forall2 (fun ev platform =>
                  exists pluginName',
                    ev = RemovePluginNativeCode (toLowerCase platform) pluginName')
               hooks visited
    /\ trace (snd (remove inj pluginName projectData w)) = trace w ++ hooks ++ rest
    /\ match fst (remove inj pluginName projectData w) with
       | Ok _ =>
           exists cleaned,
             sublist cleaned (map toLowerCase (platformNames inj))
             /\ rest = NpmUninstall pluginName true (projectDir projectData)
                       :: flat_map (cleanupOf inj pluginName projectData) cleaned
                       ++ match cleaned with
                          | [] => removedMessage pluginName
                          | _ => []
                          end
       | Throw _ =>
           rest = [] \/ rest = [NpmUninstall pluginName true (projectDir projectData)]
       end.
Proof.
  unfold remove, executeForAllInstalledPlatforms.
  destruct (removePass_trace inj pluginName projectData
              (map toLowerCase (platformNames inj)) w)
    as (visited & hooks & Hsub & Hall & Htrace).
  exists visited, hooks.
  destruct (forOf (map toLowerCase (platformNames inj))
              (forInstalledPlatform inj
                 (removePluginNativeCodeAction inj pluginName projectData) projectData)
              tt w) as [[[]|e] w1] eqn:Hpass; simpl in Htrace.
  - rewrite (bind_ok _ _ _ _ _ Hpass).
    pose proof (executeNpmCommand_uninstall inj pluginName projectData w1) as Hnpm.
    destruct (packageManager_uninstall inj pluginName true (projectDir projectData) (fs w1))
      as [[[]|e] s].
    + rewrite (bind_ok _ _ _ _ _ Hnpm).
      match type of Hnpm with
      | _ = (_, ?w2) =>
          destruct (cleanupPass_run inj pluginName projectData
                      (map toLowerCase (platformNames inj)) true w2)
            as (cleaned & s' & Hsub' & Hclean)
      end.
      rewrite (bind_ok _ _ _ _ _ Hclean).
      exists (NpmUninstall pluginName true (projectDir projectData)
              :: flat_map (cleanupOf inj pluginName projectData) cleaned
              ++ match cleaned with [] => removedMessage pluginName | _ => [] end).
      split; [exact Hsub|]. split; [exact Hall|].
      destruct cleaned as [|platform cleaned].
      * split.
        -- cbn. rewrite Htrace, <- !app_assoc. reflexivity.
        -- exists []. split; [exact Hsub' | reflexivity].
      * split.
        -- cbn [emit ret snd trace]. rewrite Htrace, app_nil_r, <- !app_assoc.
           reflexivity.
        -- exists (platform :: cleaned). split; [exact Hsub' | reflexivity].
    + rewrite (bind_throw _ _ _ _ _ Hnpm).
      exists [NpmUninstall pluginName true (projectDir projectData)].
      repeat split; try assumption.
      * cbn. rewrite Htrace, <- app_assoc. reflexivity.
      * right. reflexivity.
  - rewrite (bind_throw _ _ _ _ _ Hpass).
    exists []. repeat split; try assumption.
    + cbn. rewrite Htrace, app_nil_r. reflexivity.
    + left. reflexivity.
Qed.

(** C4, as stated, fails: with ios and android both installed and the removal
    hook of ios throwing, [remove] throws that exception; android is not
    visited, no message is logged and the package manager's uninstall is not
    called. *)
Lemma remove_hook_failure_is_not_caught :
  is_Some (Demo.files !! "/app/platforms/android")
  /\ fst (remove (Demo.injector ["ios"]) "nativescript-camera" Demo.project
            (Demo.world Demo.files))
     = Throw (ExternalError "native project of ios is broken")
  /\ trace (snd (remove (Demo.injector ["ios"]) "nativescript-camera" Demo.project
                   (Demo.world Demo.files)))
     = [RemovePluginNativeCode "ios" "nativescript-camera"].
Proof. repeat split; try reflexivity. exists Directory. reflexivity. Qed.

(** C4, amended.  [remove] has no handler around the per-platform pass.  When
    the platforms before [platform] in the platform list have been processed
    and the native-code-removal hook of [platform], an installed platform,
    throws, that exception is the result of [remove]: the call of the failing
    hook is the last call made, so the platforms after it are not visited,
    nothing is logged and the package manager's uninstall is not called; the
    calls made before it are removal hooks only. *)
Theorem remove_hook_failure_propagates
    inj pluginName projectData w before platform after w1 nodeModuleData pluginData e s2 :
  map toLowerCase (platformNames inj) = before ++ platform :: after ->
  forOf before
    (forInstalledPlatform inj (removePluginNativeCodeAction inj pluginName projectData)
       projectData) tt w = (Ok tt, w1) ->
  is_Some (fs w1 !! path_join inj [platformsDir projectData; toLowerCase platform]) ->
  getNodeModuleData inj pluginName (projectDir projectData) w1 = (Ok nodeModuleData, w1) ->
  convertToPluginData inj (cacheDataOfNodeModule nodeModuleData)
    (projectDir projectData) w1 = (Ok pluginData, w1) ->
  svc_removePluginNativeCode
    (platformProjectService (getPlatformData inj (toLowerCase platform) projectData))
    pluginData projectData (fs w1) = (Throw e, s2) ->
  remove inj pluginName projectData w =
    (Throw e,
     {| fs := s2;
        trace := trace w1 ++
          [RemovePluginNativeCode (toLowerCase platform) (name pluginData)] |})
  /\ exists hooks,
       trace w1 = trace w ++ hooks
       /\ Forall (fun ev => isRemovePluginNativeCode ev = true) hooks.
Proof.
  intros Hplatforms Hbefore Hinstalled Hmodule Hplugin Hhook. split.
  - unfold remove, executeForAllInstalledPlatforms.
    rewrite Hplatforms.
    apply bind_throw. rewrite forOf_app, Hbefore. cbn [forOf].
    apply bind_throw. unfold forInstalledPlatform.
    rewrite (bind_ok _ _ _ _ _ (fs_exists_true _ _ Hinstalled)).
    unfold removePluginNativeCodeAction.
    rewrite (bind_ok _ _ _ _ _ Hmodule), (bind_ok _ _ _ _ _ Hplugin).
    apply call_run. exact Hhook.
  - destruct (removePass_trace inj pluginName projectData before w)
      as (visited & hooks & _ & Hall & Htrace).
    rewrite Hbefore in Htrace. exists hooks. split; [exact Htrace|].
    clear -Hall. induction Hall as [|ev p hooks visited [n ->] _ IH]; constructor.
    + reflexivity.
    + exact IH.
Qed.

Lemma remove_hook_failure_witness :
  remove (Demo.injector ["ios"]) "nativescript-camera" Demo.project
    (Demo.world Demo.files)
  = (Throw (ExternalError "native project of ios is broken"),
     {| fs := Demo.files;
        trace := [RemovePluginNativeCode "ios" "nativescript-camera"] |})
  /\ exists hooks,
       trace (Demo.world Demo.files) = trace (Demo.world Demo.files) ++ hooks
       /\ Forall (fun ev => isRemovePluginNativeCode ev = true) hooks.
Proof.
  apply (remove_hook_failure_propagates (Demo.injector ["ios"]) "nativescript-camera"
           Demo.project (Demo.world Demo.files) [] "ios" ["android"]
           (Demo.world Demo.files) Demo.cameraModule Demo.cameraFromModule
           (ExternalError "native project of ios is broken") Demo.files).
  - reflexivity.
  - reflexivity.
  - exists Directory. reflexivity.
  - reflexivity.
  - reflexivity.
  - reflexivity.
Defined.

(** ** remove, when the collaborators keep the platform directories *)

Section RemoveStable.

Context (inj : Injector) (pluginName : string) (projectData : IProjectData).







End RemoveStable.






(** * Further properties of the service *)

(** ** The native prepare step *)

(** X1.  Without a native-assets folder for the platform the pass is a
    no-op: nothing is read from the build-data file (a corrupt one does not
    matter), nothing is called and nothing is written. *)
Theorem preparePluginNativeCode_without_native_folder
    inj pluginData platform projectData w :
  fs w !! nativeFolder inj pluginData platform = None ->
  preparePluginNativeCode inj pluginData platform projectData w = (Ok tt, w).
Proof.
  intros Hnone. rewrite preparePluginNativeCode_cases.
  rewrite bool_decide_eq_false_2; [reflexivity|].
  rewrite Hnone. intros [x Hx]. discriminate.
Qed.

Lemma preparePluginNativeCode_without_native_folder_witness :
  preparePluginNativeCode (Demo.injector []) Demo.camera "ios" Demo.project
    (Demo.world Demo.filesWithCorruptLedger)
  = (Ok tt, Demo.world Demo.filesWithCorruptLedger).
Proof.
  apply (preparePluginNativeCode_without_native_folder (Demo.injector []) Demo.camera
           "ios" Demo.project (Demo.world Demo.filesWithCorruptLedger)).
  reflexivity.
Defined.

(** X2.  Two passes in a row: when a pass has returned normally and the
    native folder is still there with the same digests, the next pass does
    nothing, whether the first one integrated or skipped. *)
Theorem preparePluginNativeCode_second_pass_skips
    inj pluginData platform projectData w currentHashes :
  FilesHashServiceSpec inj ->
  fst (preparePluginNativeCode inj pluginData platform projectData w) = Ok tt ->
  is_Some (fs w !! nativeFolder inj pluginData platform) ->
  generateHashes inj
    (enumerateFilesInDirectorySync inj (nativeFolder inj pluginData platform) (fs w))
    (fs w) = Ok currentHashes ->
  is_Some (fs (snd (preparePluginNativeCode inj pluginData platform projectData w))
             !! nativeFolder inj pluginData platform) ->
  generateHashes inj
    (enumerateFilesInDirectorySync inj (nativeFolder inj pluginData platform)
       (fs (snd (preparePluginNativeCode inj pluginData platform projectData w))))
    (fs (snd (preparePluginNativeCode inj pluginData platform projectData w)))
    = Ok currentHashes ->
  preparePluginNativeCode inj pluginData platform projectData
    (snd (preparePluginNativeCode inj pluginData platform projectData w))
  = (Ok tt, snd (preparePluginNativeCode inj pluginData platform projectData w)).
Proof.
  intros Hspec Hok Hfolder Hcur Hfolder' Hcur'.
  pose proof (preparePluginNativeCode_cases inj pluginData platform projectData w) as Hrun.
  rewrite bool_decide_eq_true_2 in Hrun by exact Hfolder.
  destruct (getAllPluginsNativeHashes _ w) as [[allHashes|e] w0] eqn:Hload;
    [|rewrite Hrun in Hok; discriminate].
  rewrite Hcur in Hrun.
  destruct (nativeCodeIsStale inj (allHashes !! name pluginData) currentHashes) eqn:Hstale.
  - destruct (integrate inj pluginData platform projectData (fs w)) as [[[]|e] s];
      [|rewrite Hrun in Hok; discriminate].
    rewrite Hrun in Hfolder', Hcur' |- *. cbn [snd] in Hfolder', Hcur' |- *.
    rewrite preparePluginNativeCode_cases.
    rewrite bool_decide_eq_true_2 by exact Hfolder'.
    rewrite (getAllPluginsNativeHashes_present _ _
               (PluginsBuildDataFile (<[name pluginData := currentHashes]> allHashes)))
      by (unfold recorded; cbn [fs]; apply lookup_insert_eq).
    rewrite Hcur', lookup_insert_eq.
    destruct (nativeCodeIsStale inj (Some currentHashes) currentHashes) eqn:Hstale';
      [|reflexivity].
    apply (nativeCodeIsStale_spec inj Hspec) in Hstale'. contradiction.
  - rewrite Hrun. cbn [snd]. exact Hrun.
Qed.

Lemma preparePluginNativeCode_second_pass_witness :
  preparePluginNativeCode (Demo.injector []) Demo.camera "android" Demo.project
    (snd (preparePluginNativeCode (Demo.injector []) Demo.camera "android"
            Demo.project (Demo.world Demo.filesWithChange)))
  = (Ok tt,
     snd (preparePluginNativeCode (Demo.injector []) Demo.camera "android"
            Demo.project (Demo.world Demo.filesWithChange))).
Proof.
  apply (preparePluginNativeCode_second_pass_skips (Demo.injector []) Demo.camera
           "android" Demo.project (Demo.world Demo.filesWithChange) Demo.changedHashes).
  - apply Demo_filesHashService.
  - reflexivity.
  - exists Directory. reflexivity.
  - reflexivity.
  - exists Directory. reflexivity.
  - reflexivity.
Defined.

(** X3.  Whatever the pass finds, one of three things happens.  It makes no
    call at all.  Or it calls the integration hook once, the hook throws, and
    the pass throws that very exception, with the file system as the hook
    left it and nothing written.  Or it calls the hook once, the hook
    returns, and the pass then writes the build-data file once, onto the file
    system the hook left, and returns.  So the hook is never called twice,
    and the file is never written before or without the hook, nor after a
    hook that threw. *)
Theorem preparePluginNativeCode_calls inj pluginData platform projectData w :
  exists events,
    trace (snd (preparePluginNativeCode inj pluginData platform projectData w))
      = trace w ++ events
    /\ (events = []
        \/ (exists e s,
              integrate inj pluginData platform projectData (fs w) = (Throw e, s)
              /\ events = [PreparePluginNativeCode platform (name pluginData)]
              /\ preparePluginNativeCode inj pluginData platform projectData w
                 = (Throw e, integrated w platform (name pluginData) s))
        \/ (exists allHashes s,
              integrate inj pluginData platform projectData (fs w) = (Ok tt, s)
              /\ events = [PreparePluginNativeCode platform (name pluginData);
                           WriteJson (pathToPluginsBuildFile inj platform projectData)
                             (PluginsBuildDataFile allHashes)]
              /\ preparePluginNativeCode inj pluginData platform projectData w
                 = (Ok tt,
                    recorded (integrated w platform (name pluginData) s)
                      (pathToPluginsBuildFile inj platform projectData) allHashes))).
Proof.
  rewrite preparePluginNativeCode_cases.
  assert (Hnone : forall r : Res unit,
             exists events,
               trace (snd (r, w)) = trace w ++ events
               /\ (events = []
                   \/ (exists e s,
                         integrate inj pluginData platform projectData (fs w)
                           = (Throw e, s)
                         /\ events = [PreparePluginNativeCode platform (name pluginData)]
                         /\ (r, w) = (Throw e, integrated w platform (name pluginData) s))
                   \/ (exists allHashes s,
                         integrate inj pluginData platform projectData (fs w)
                           = (Ok tt, s)
                         /\ events = [PreparePluginNativeCode platform (name pluginData);
                                      WriteJson
                                        (pathToPluginsBuildFile inj platform projectData)
                                        (PluginsBuildDataFile allHashes)]
                         /\ (r, w)
                            = (Ok tt,
                               recorded (integrated w platform (name pluginData) s)
                                 (pathToPluginsBuildFile inj platform projectData)
                                 allHashes)))).
  { intros r. exists []. split; [cbn; rewrite app_nil_r; reflexivity | left; reflexivity]. }
  case_bool_decide; [|apply Hnone].
  destruct (getAllPluginsNativeHashes _ w) as [[allHashes|e] w0]; [|apply Hnone].
  destruct (generateHashes inj _ (fs w)) as [currentHashes|e]; [|apply Hnone].
  destruct (nativeCodeIsStale inj _ currentHashes); [|apply Hnone].
  destruct (integrate inj pluginData platform projectData (fs w)) as [[[]|e] s].
  - eexists. split; [cbn; rewrite <- app_assoc; reflexivity|].
    right. right. exists (<[name pluginData := currentHashes]> allHashes), s.
    repeat split; reflexivity.
  - eexists. split; [reflexivity|]. right. left. exists e, s.
    repeat split; reflexivity.
Qed.

(** ** The package.json dependency sections, continued *)

Lemma removeDependency_other dependency other k content :
  other <> dependency ->
  declaredVersion k other
    (packageJsonContent (removeDependencyFromPackageJsonContent dependency content))
  = declaredVersion k other content.
Proof.
  intros Hne.
  unfold removeDependencyFromPackageJsonContent, declaresIn, declaredVersion.
  destruct content as [n v deps dev ns].
  destruct k, deps as [deps|], dev as [dev|]; simpl;
    repeat (match goal with
            | |- context [truthyProperty ?m dependency] =>
                destruct (truthyProperty m dependency) eqn:?; simpl in *
            end);
    rewrite ?lookup_delete_ne by congruence; reflexivity.
Qed.

Lemma removeDependency_metadata dependency content :
  pj_name (packageJsonContent (removeDependencyFromPackageJsonContent dependency content))
    = pj_name content
  /\ pj_version (packageJsonContent
                   (removeDependencyFromPackageJsonContent dependency content))
     = pj_version content
  /\ nativescript (packageJsonContent
                     (removeDependencyFromPackageJsonContent dependency content))
     = nativescript content.
Proof.
  unfold removeDependencyFromPackageJsonContent.
  destruct (declaresIn KeyDevDependencies dependency content); simpl;
    match goal with
    | |- context [declaresIn KeyDependencies dependency ?c] =>
        destruct (declaresIn KeyDependencies dependency c)
    end; simpl; repeat split; reflexivity.
Qed.

Lemma removeDependency_modified dependency content :
  hasModifiedPackageJson (removeDependencyFromPackageJsonContent dependency content)
  = declaresIn KeyDependencies dependency content
    || declaresIn KeyDevDependencies dependency content.
Proof.
  unfold removeDependencyFromPackageJsonContent.
  destruct (declaresIn KeyDevDependencies dependency content) eqn:Hdev; simpl.
  - match goal with
    | |- context [declaresIn KeyDependencies dependency ?c] =>
        change (declaresIn KeyDependencies dependency c)
          with (declaresIn KeyDependencies dependency content)
    end.
    destruct (declaresIn KeyDependencies dependency content); reflexivity.
  - destruct (declaresIn KeyDependencies dependency content); reflexivity.
Qed.

Lemma truthy_removed (v : option string) :
  truthy (if truthy v then None else v) = false.
Proof. destruct (truthy v) eqn:E; [reflexivity | exact E]. Qed.

Lemma removeFromPackageJson_run inj plugin projectDir w content :
  fs w !! getPackageJsonFilePath inj projectDir = Some (PackageJsonFile content) ->
  removeFromPackageJson inj plugin projectDir w =
    if declaresIn KeyDependencies plugin content
       || declaresIn KeyDevDependencies plugin content
    then (Ok tt,
          {| fs := <[getPackageJsonFilePath inj projectDir
                     := PackageJsonFile
                          (packageJsonContent
                             (removeDependencyFromPackageJsonContent plugin content))]>
                     (fs w);
             trace := trace w ++
               [WriteJson (getPackageJsonFilePath inj projectDir)
                  (PackageJsonFile
                     (packageJsonContent
                        (removeDependencyFromPackageJsonContent plugin content)))] |})
    else (Ok tt, w).
Proof.
  intros Hfile. unfold removeFromPackageJson.
  rewrite (bind_ok _ _ _ _ _ (readJson_package_file _ _ _ Hfile)).
  rewrite removeDependency_modified.
  destruct (_ || _); reflexivity.
Qed.

(** X4.  When the presence test of the code passes for the name in at least
    one section, as it does when the section declares the name with a
    non-empty version, [removeFromPackageJson] writes the file exactly once;
    in the document written the name is gone from every section that declared
    it with a non-empty version, every other dependency keeps its version in
    both sections, and the name, version and [nativescript] section of the
    package are as they were. *)
Theorem removeFromPackageJson_removes inj plugin projectDir w content :
  fs w !! getPackageJsonFilePath inj projectDir = Some (PackageJsonFile content) ->
  declaresIn KeyDependencies plugin content
    || declaresIn KeyDevDependencies plugin content = true ->
  exists content',
    removeFromPackageJson inj plugin projectDir w =
      (Ok tt,
       {| fs := <[getPackageJsonFilePath inj projectDir := PackageJsonFile content']> (fs w);
          trace := trace w ++
            [WriteJson (getPackageJsonFilePath inj projectDir)
               (PackageJsonFile content')] |})
    /\ (forall k,
          declaredVersion k plugin content'
          = if truthy (declaredVersion k plugin content) then None
            else declaredVersion k plugin content)
    /\ (forall k other,
          other <> plugin ->
          declaredVersion k other content' = declaredVersion k other content)
    /\ pj_name content' = pj_name content
    /\ pj_version content' = pj_version content
    /\ nativescript content' = nativescript content.
Proof.
  intros Hfile Hdeclared.
  exists (packageJsonContent (removeDependencyFromPackageJsonContent plugin content)).
  split; [rewrite (removeFromPackageJson_run _ _ _ _ _ Hfile), Hdeclared; reflexivity|].
  split; [intros k; apply declaredVersion_removed|].
  split; [intros k other Hne; apply removeDependency_other; exact Hne|].
  apply removeDependency_metadata.
Qed.

Lemma removeFromPackageJson_removes_witness :
  exists content',
    removeFromPackageJson (Demo.injector []) "typescript" "/app"
      (Demo.world Demo.filesWithDependencies) =
      (Ok tt,
       {| fs := <[getPackageJsonFilePath (Demo.injector []) "/app"
                  := PackageJsonFile content']>
                  (fs (Demo.world Demo.filesWithDependencies));
          trace := trace (Demo.world Demo.filesWithDependencies) ++
            [WriteJson (getPackageJsonFilePath (Demo.injector []) "/app")
               (PackageJsonFile content')] |})
    /\ (forall k,
          declaredVersion k "typescript" content'
          = if truthy (declaredVersion k "typescript" Demo.manifestWithDependencies)
            then None
            else declaredVersion k "typescript" Demo.manifestWithDependencies)
    /\ (forall k other,
          other <> "typescript" ->
          declaredVersion k other content'
          = declaredVersion k other Demo.manifestWithDependencies)
    /\ pj_name content' = pj_name Demo.manifestWithDependencies
    /\ pj_version content' = pj_version Demo.manifestWithDependencies
    /\ nativescript content' = nativescript Demo.manifestWithDependencies.
Proof.
  apply (removeFromPackageJson_removes (Demo.injector []) "typescript" "/app"
           (Demo.world Demo.filesWithDependencies) Demo.manifestWithDependencies).
  - reflexivity.
  - reflexivity.
Defined.

(** A test that passes where the own entry is not truthy has read the
    prototype: the section has no entry of that name. *)
Lemma declaresIn_inherited k dependency c :
  declaresIn k dependency c = true ->
  truthy (declaredVersion k dependency c) = false ->
  declaredVersion k dependency c = None.
Proof.
  intros Htest Hfalsy.
  destruct (declaredVersion k dependency c) as [version|] eqn:Hown; [|reflexivity].
  rewrite (declaresIn_own _ _ _ _ Hown), Hfalsy in Htest. discriminate.
Qed.

(** When neither section holds the name with a non-empty version,
    [removeDependencyFromPackageJsonContent] returns the document as it is,
    whatever its tests find. *)
Lemma removeDependency_nothing dependency content :
  (forall k, truthy (declaredVersion k dependency content) = false) ->
  packageJsonContent (removeDependencyFromPackageJsonContent dependency content)
  = content.
Proof.
  intros Hfalsy. unfold removeDependencyFromPackageJsonContent.
  assert (Hdeps : declaresIn KeyDependencies dependency content = true ->
                  setCollection KeyDependencies
                    (delete dependency <$> dependencies content) content = content).
  { intros Htest.
    apply (setCollection_delete_absent KeyDependencies dependency content
             (declaresIn_inherited _ _ _ Htest (Hfalsy KeyDependencies))). }
  destruct (declaresIn KeyDevDependencies dependency content) eqn:Hdev.
  - pose proof (setCollection_delete_absent KeyDevDependencies dependency content
                  (declaresIn_inherited _ _ _ Hdev (Hfalsy KeyDevDependencies)))
      as Hsame.
    cbn [getCollection] in Hsame. rewrite Hsame.
    destruct (declaresIn KeyDependencies dependency content); [|reflexivity].
    cbn [packageJsonContent]. apply Hdeps. reflexivity.
  - destruct (declaresIn KeyDependencies dependency content); [|reflexivity].
    cbn [packageJsonContent]. apply Hdeps. reflexivity.
Qed.

(** X5.  [removeFromPackageJson] is idempotent on the file: called again
    right after a first call it deletes nothing, and the file system stays as
    the first call left it.  For a name that [Object.prototype] does not have,
    the second call finds nothing to remove and leaves the world as it is,
    without a second write. *)
Theorem removeFromPackageJson_twice inj plugin projectDir w content :
  fs w !! getPackageJsonFilePath inj projectDir = Some (PackageJsonFile content) ->
  fs (snd (removeFromPackageJson inj plugin projectDir
             (snd (removeFromPackageJson inj plugin projectDir w))))
  = fs (snd (removeFromPackageJson inj plugin projectDir w))
  /\ (inherited plugin = false ->
      removeFromPackageJson inj plugin projectDir
        (snd (removeFromPackageJson inj plugin projectDir w))
      = (Ok tt, snd (removeFromPackageJson inj plugin projectDir w))).
Proof.
  intros Hfile. rewrite (removeFromPackageJson_run _ _ _ _ _ Hfile).
  destruct (declaresIn KeyDependencies plugin content
            || declaresIn KeyDevDependencies plugin content) eqn:Hdeclared.
  - cbn [snd].
    erewrite removeFromPackageJson_run by (cbn [fs]; apply lookup_insert_eq).
    split.
    + rewrite (removeDependency_nothing plugin
                 (packageJsonContent
                    (removeDependencyFromPackageJsonContent plugin content)))
        by (intros k; rewrite declaredVersion_removed; apply truthy_removed).
      match goal with
      | |- context [if ?test then _ else _] => destruct test
      end; cbn [snd fs]; [apply insert_insert_eq | reflexivity].
    + intros Hown.
      rewrite !declaresIn_version by exact Hown.
      rewrite !declaredVersion_removed, !truthy_removed.
      reflexivity.
  - cbn [snd]. rewrite (removeFromPackageJson_run _ _ _ _ _ Hfile), Hdeclared.
    split; reflexivity.
Qed.

Lemma removeFromPackageJson_twice_witness :
  fs (snd (removeFromPackageJson (Demo.injector []) "typescript" "/app"
             (snd (removeFromPackageJson (Demo.injector []) "typescript" "/app"
                     (Demo.world Demo.filesWithDependencies)))))
  = fs (snd (removeFromPackageJson (Demo.injector []) "typescript" "/app"
               (Demo.world Demo.filesWithDependencies)))
  /\ (inherited "typescript" = false ->
      removeFromPackageJson (Demo.injector []) "typescript" "/app"
        (snd (removeFromPackageJson (Demo.injector []) "typescript" "/app"
                (Demo.world Demo.filesWithDependencies)))
      = (Ok tt,
         snd (removeFromPackageJson (Demo.injector []) "typescript" "/app"
                (Demo.world Demo.filesWithDependencies)))).
Proof.
  apply (removeFromPackageJson_twice (Demo.injector []) "typescript" "/app"
           (Demo.world Demo.filesWithDependencies) Demo.manifestWithDependencies).
  reflexivity.
Defined.

Lemma manifestAfterAdd_eq plugin version isDev content :
  manifestAfterAdd plugin version isDev content
  = setDependency (targetKey isDev) plugin version
      (if declaresIn (oppositeKey isDev) plugin content
       then packageJsonContent (removeDependencyFromPackageJsonContent plugin content)
       else content).
Proof. reflexivity. Qed.

Lemma setDependency_other k target plugin version other content :
  other <> plugin ->
  declaredVersion k other (setDependency target plugin version content)
  = declaredVersion k other content.
Proof.
  intros Hne. unfold setDependency, declaredVersion.
  destruct content as [n v deps dev ns].
  destruct k, target, deps as [deps|], dev as [dev|]; simpl;
    rewrite ?lookup_insert_ne by congruence; rewrite ?lookup_empty; reflexivity.
Qed.


Lemma setDependency_twice target plugin version content :
  setDependency target plugin version (setDependency target plugin version content)
  = setDependency target plugin version content.
Proof.
  unfold setDependency. destruct content as [n v deps dev ns].
  destruct target; simpl; rewrite insert_insert_eq; reflexivity.
Qed.

Lemma manifestAfterAdd_other plugin version isDev other k content :
  other <> plugin ->
  declaredVersion k other (manifestAfterAdd plugin version isDev content)
  = declaredVersion k other content.
Proof.
  intros Hne. rewrite manifestAfterAdd_eq, setDependency_other by exact Hne.
  destruct (declaresIn _ plugin content); [|reflexivity].
  apply removeDependency_other. exact Hne.
Qed.




(** What [removeDependencyFromPackageJsonContent] deletes from the target
    section is set again; from an opposite section without a non-empty
    version of the name it deletes nothing. *)
Lemma setDependency_removed plugin version (isDev : bool) content :
  truthy (declaredVersion (oppositeKey isDev) plugin content) = false ->
  setDependency (targetKey isDev) plugin version
    (packageJsonContent (removeDependencyFromPackageJsonContent plugin content))
  = setDependency (targetKey isDev) plugin version content.
Proof.
  unfold removeDependencyFromPackageJsonContent, declaresIn, truthyProperty,
    setDependency, declaredVersion.
  generalize (inherited plugin). intros fromPrototype.
  destruct content as [n v deps dev ns].
  destruct isDev, deps as [deps|], dev as [dev|]; cbn; intros Hopposite;
    repeat (match goal with
            | |- context [match ?m !! plugin with _ => _ end] =>
                destruct (m !! plugin) as [?|] eqn:?; cbn in *
            | |- context [if negb (String.eqb ?x "") then _ else _] =>
                destruct (String.eqb x ""); cbn in *
            | |- context [if fromPrototype then _ else _] =>
                destruct fromPrototype; cbn in *
            end);
    try discriminate;
    rewrite ?insert_delete_eq;
    repeat (match goal with
            | H : ?m !! plugin = None |- context [delete plugin ?m] =>
                rewrite (delete_id m plugin H)
            end);
    reflexivity.
Qed.

Lemma manifestAfterAdd_twice plugin version (isDev : bool) content :
  manifestAfterAdd plugin version isDev (manifestAfterAdd plugin version isDev content)
  = manifestAfterAdd plugin version isDev content.
Proof.
  rewrite (manifestAfterAdd_eq plugin version isDev (manifestAfterAdd _ _ _ _)).
  assert (Hopp : truthy (declaredVersion (oppositeKey isDev) plugin
                           (manifestAfterAdd plugin version isDev content)) = false).
  { assert (H : declaredVersion (oppositeKey isDev) plugin
                  (manifestAfterAdd plugin version isDev content)
                = if truthy (declaredVersion (oppositeKey isDev) plugin content)
                  then None
                  else declaredVersion (oppositeKey isDev) plugin content)
      by apply manifestAfterAdd_opposite.
    rewrite H. apply truthy_removed. }
  destruct (declaresIn (oppositeKey isDev) plugin
              (manifestAfterAdd plugin version isDev content)).
  - rewrite (setDependency_removed _ _ _ _ Hopp).
    rewrite manifestAfterAdd_eq. apply setDependency_twice.
  - rewrite manifestAfterAdd_eq. apply setDependency_twice.
Qed.

(** X7.  [addToPackageJson] is idempotent on the file: a second call with the
    same arguments writes again, but the same document, so the file system
    after two calls is the file system after one. *)
Theorem addToPackageJson_twice inj plugin version (isDev : bool) projectDir w content :
  fs w !! getPackageJsonFilePath inj projectDir = Some (PackageJsonFile content) ->
  fs (snd (addToPackageJson inj plugin version isDev projectDir
             (snd (addToPackageJson inj plugin version isDev projectDir w))))
  = fs (snd (addToPackageJson inj plugin version isDev projectDir w)).
Proof.
  intros Hfile. rewrite (addToPackageJson_run _ _ _ _ _ _ _ Hfile). cbn [snd].
  erewrite addToPackageJson_run by (cbn [fs]; apply lookup_insert_eq).
  cbn [snd fs]. rewrite manifestAfterAdd_twice. apply insert_insert_eq.
Qed.

Lemma addToPackageJson_twice_witness :
  fs (snd (addToPackageJson (Demo.injector []) "typescript" "3.5.1" false "/app"
             (snd (addToPackageJson (Demo.injector []) "typescript" "3.5.1" false "/app"
                     (Demo.world Demo.filesWithDependencies)))))
  = fs (snd (addToPackageJson (Demo.injector []) "typescript" "3.5.1" false "/app"
               (Demo.world Demo.filesWithDependencies))).
Proof.
  apply (addToPackageJson_twice (Demo.injector []) "typescript" "3.5.1" false "/app"
           (Demo.world Demo.filesWithDependencies) Demo.manifestWithDependencies).
  reflexivity.
Defined.

(** X8.  Adding a dependency with a non-empty version and removing it again:
    both calls write the file once.  Afterwards the target section has no
    entry for the name; the opposite section has none either, except that an
    entry with the empty version, which neither call deletes, is still there;
    and every other dependency has, in both sections, the version it had
    before the two calls. *)
Theorem addToPackageJson_then_removeFromPackageJson
    inj plugin version (isDev : bool) projectDir w content :
  fs w !! getPackageJsonFilePath inj projectDir = Some (PackageJsonFile content) ->
  version <> "" ->
  exists content' content'',
    snd (removeFromPackageJson inj plugin projectDir
           (snd (addToPackageJson inj plugin version isDev projectDir w)))
    = {| fs := <[getPackageJsonFilePath inj projectDir := PackageJsonFile content'']>
                 (fs w);
         trace := trace w ++
           [WriteJson (getPackageJsonFilePath inj projectDir) (PackageJsonFile content');
            WriteJson (getPackageJsonFilePath inj projectDir) (PackageJsonFile content'')] |}
    /\ declaredVersion (targetKey isDev) plugin content'' = None
    /\ declaredVersion (oppositeKey isDev) plugin content''
       = (if truthy (declaredVersion (oppositeKey isDev) plugin content) then None
          else declaredVersion (oppositeKey isDev) plugin content)
    /\ (forall k other,
          other <> plugin ->
          declaredVersion k other content'' = declaredVersion k other content).
Proof.
  intros Hfile Hversion.
  exists (manifestAfterAdd plugin version isDev content),
         (packageJsonContent
            (removeDependencyFromPackageJsonContent plugin
               (manifestAfterAdd plugin version isDev content))).
  assert (Htarget : truthy (declaredVersion (targetKey isDev) plugin
                              (manifestAfterAdd plugin version isDev content)) = true).
  { assert (H : declaredVersion (targetKey isDev) plugin
                  (manifestAfterAdd plugin version isDev content) = Some version)
      by apply manifestAfterAdd_target.
    rewrite H. simpl. destruct (String.eqb_spec version ""); [contradiction | reflexivity]. }
  split.
  - rewrite (addToPackageJson_run _ _ _ _ _ _ _ Hfile). cbn [snd].
    erewrite removeFromPackageJson_run by (cbn [fs]; apply lookup_insert_eq).
    pose proof (declaresIn_truthy _ _ _ Htarget) as Htest.
    destruct isDev; cbn [targetKey] in Htest; rewrite Htest, ?orb_true_r;
      cbn [orb snd fs trace]; rewrite insert_insert_eq, <- app_assoc; reflexivity.
  - split; [|split].
    + rewrite declaredVersion_removed, Htarget. reflexivity.
    + assert (Hopp : declaredVersion (oppositeKey isDev) plugin
                       (manifestAfterAdd plugin version isDev content)
                     = if truthy (declaredVersion (oppositeKey isDev) plugin content)
                       then None
                       else declaredVersion (oppositeKey isDev) plugin content)
        by apply manifestAfterAdd_opposite.
      rewrite declaredVersion_removed, Hopp, truthy_removed. reflexivity.
    + intros k other Hne.
      rewrite removeDependency_other, manifestAfterAdd_other by exact Hne. reflexivity.
Qed.

Lemma addToPackageJson_then_removeFromPackageJson_witness :
  exists content' content'',
    snd (removeFromPackageJson (Demo.injector []) "nativescript-camera" "/app"
           (snd (addToPackageJson (Demo.injector []) "nativescript-camera" "4.5.0"
                   true "/app" (Demo.world Demo.filesWithDependencies))))
    = {| fs := <[getPackageJsonFilePath (Demo.injector []) "/app"
                 := PackageJsonFile content'']>
                 (fs (Demo.world Demo.filesWithDependencies));
         trace := trace (Demo.world Demo.filesWithDependencies) ++
           [WriteJson (getPackageJsonFilePath (Demo.injector []) "/app")
              (PackageJsonFile content');
            WriteJson (getPackageJsonFilePath (Demo.injector []) "/app")
              (PackageJsonFile content'')] |}
    /\ declaredVersion (targetKey true) "nativescript-camera" content'' = None
    /\ declaredVersion (oppositeKey true) "nativescript-camera" content''
       = (if truthy (declaredVersion (oppositeKey true) "nativescript-camera"
                       Demo.manifestWithDependencies)
          then None
          else declaredVersion (oppositeKey true) "nativescript-camera"
                 Demo.manifestWithDependencies)
    /\ (forall k other,
          other <> "nativescript-camera" ->
          declaredVersion k other content''
          = declaredVersion k other Demo.manifestWithDependencies).
Proof.
  apply (addToPackageJson_then_removeFromPackageJson (Demo.injector [])
           "nativescript-camera" "4.5.0" true "/app"
           (Demo.world Demo.filesWithDependencies) Demo.manifestWithDependencies).
  - reflexivity.
  - discriminate.
Defined.

(** ** Reading the dependency sections *)

Lemma getBasicPluginInformation_elem section n v :
  {| bp_name := n; bp_version := v |} ∈ getBasicPluginInformation section
  <-> section ≫= (fun m => m !! n) = Some v.
Proof.
  unfold getBasicPluginInformation. destruct section as [m|]; simpl.
  - rewrite list_elem_of_fmap. split.
    + intros [[k x] [Heq Hin]]. simpl in Heq. injection Heq as -> ->.
      apply elem_of_map_to_list. exact Hin.
    + intros H. exists (n, v). split; [reflexivity|].
      apply elem_of_map_to_list. exact H.
  - split; [intros H; inversion H | discriminate].
Qed.

Lemma getBasicPluginInformation_NoDup section :
  NoDup (map bp_name (getBasicPluginInformation section)).
Proof.
  unfold getBasicPluginInformation. destruct section as [m|]; simpl; [|constructor].
  rewrite map_map. simpl. apply (NoDup_fst_map_to_list m).
Qed.

(** X9.  [getDependenciesFromPackageJson] only reads.  Each of the two lists
    it returns holds exactly the entries of its section, each name once; a
    section that package.json does not have gives the empty list. *)
Theorem getDependenciesFromPackageJson_lists inj projectDir w content :
  fs w !! getPackageJsonFilePath inj projectDir = Some (PackageJsonFile content) ->
  exists result,
    getDependenciesFromPackageJson inj projectDir w = (Ok result, w)
    /\ (forall n v,
          {| bp_name := n; bp_version := v |} ∈ res_dependencies result
          <-> declaredVersion KeyDependencies n content = Some v)
    /\ (forall n v,
          {| bp_name := n; bp_version := v |} ∈ res_devDependencies result
          <-> declaredVersion KeyDevDependencies n content = Some v)
    /\ NoDup (map bp_name (res_dependencies result))
    /\ NoDup (map bp_name (res_devDependencies result))
    /\ (dependencies content = None -> res_dependencies result = [])
    /\ (devDependencies content = None -> res_devDependencies result = []).
Proof.
  intros Hfile. eexists. split.
  { unfold getDependenciesFromPackageJson.
    rewrite (bind_ok _ _ _ _ _ (readJson_package_file _ _ _ Hfile)). reflexivity. }
  cbn [res_dependencies res_devDependencies].
  repeat split; try apply getBasicPluginInformation_elem;
    try apply getBasicPluginInformation_NoDup.
  - intros ->. reflexivity.
  - intros ->. reflexivity.
Qed.

Lemma getDependenciesFromPackageJson_witness :
  exists result,
    getDependenciesFromPackageJson (Demo.injector []) "/app"
      (Demo.world Demo.filesWithDependencies)
    = (Ok result, Demo.world Demo.filesWithDependencies)
    /\ (forall n v,
          {| bp_name := n; bp_version := v |} ∈ res_dependencies result
          <-> declaredVersion KeyDependencies n Demo.manifestWithDependencies = Some v)
    /\ (forall n v,
          {| bp_name := n; bp_version := v |} ∈ res_devDependencies result
          <-> declaredVersion KeyDevDependencies n Demo.manifestWithDependencies = Some v)
    /\ NoDup (map bp_name (res_dependencies result))
    /\ NoDup (map bp_name (res_devDependencies result))
    /\ (dependencies Demo.manifestWithDependencies = None -> res_dependencies result = [])
    /\ (devDependencies Demo.manifestWithDependencies = None
        -> res_devDependencies result = []).
Proof.
  apply (getDependenciesFromPackageJson_lists (Demo.injector []) "/app"
           (Demo.world Demo.filesWithDependencies) Demo.manifestWithDependencies).
  reflexivity.
Defined.

(** ** Classification *)

(** X10.  Whenever [convertToPluginData] returns a record, it has only read:
    the record carries the name and version of its input, it is a plugin
    exactly when the input has a [nativescript] section or a [moduleInfo],
    a record that is not a plugin has neither platform requirements nor
    variables, and its native folder for a platform is
    [fullPath/platforms/platform]. *)
Theorem convertToPluginData_classifies inj cacheData projectDir w pluginData w' :
  convertToPluginData inj cacheData projectDir w = (Ok pluginData, w') ->
  w' = w
  /\ name pluginData = cd_name cacheData
  /\ version pluginData = cd_version cacheData
  /\ (isPlugin pluginData = true
      <-> is_Some (cd_nativescript cacheData) \/ is_Some (cd_moduleInfo cacheData))
  /\ (isPlugin pluginData = false ->
      platformsDataService pluginData = None /\ pluginVariables pluginData = None)
  /\ (forall platform,
        pluginPlatformsFolderPath pluginData platform
        = path_join inj [fullPath pluginData; "platforms"; platform]).
Proof.
  intros Hrun.
  pose proof (readOnly_run _ _ _ _ (readOnly_convertToPluginData inj _ _) Hrun) as ->.
  split; [reflexivity|].
  unfold convertToPluginData, bind in Hrun.
  match type of Hrun with
  | match ?m w with _ => _ end = _ => destruct (m w) as [[p|e] w1]
  end; [|discriminate].
  unfold ret in Hrun. injection Hrun as <- _. cbn.
  split; [reflexivity|]. split; [reflexivity|]. split; [|split].
  - rewrite orb_true_iff, !bool_decide_eq_true. reflexivity.
  - intros ->. split; reflexivity.
  - reflexivity.
Qed.

Lemma convertToPluginData_classifies_witness :
  Demo.world Demo.files = Demo.world Demo.files
  /\ name Demo.cameraFromModule = cd_name (cacheDataOfNodeModule Demo.cameraModule)
  /\ version Demo.cameraFromModule = cd_version (cacheDataOfNodeModule Demo.cameraModule)
  /\ (isPlugin Demo.cameraFromModule = true
      <-> is_Some (cd_nativescript (cacheDataOfNodeModule Demo.cameraModule))
          \/ is_Some (cd_moduleInfo (cacheDataOfNodeModule Demo.cameraModule)))
  /\ (isPlugin Demo.cameraFromModule = false ->
      platformsDataService Demo.cameraFromModule = None
      /\ pluginVariables Demo.cameraFromModule = None)
  /\ (forall platform,
        pluginPlatformsFolderPath Demo.cameraFromModule platform
        = path_join (Demo.injector []) [fullPath Demo.cameraFromModule; "platforms"; platform]).
Proof.
  apply (convertToPluginData_classifies (Demo.injector [])
           (cacheDataOfNodeModule Demo.cameraModule) "/app" (Demo.world Demo.files)
           Demo.cameraFromModule (Demo.world Demo.files)).
  reflexivity.
Defined.

(** X11.  An input that carries a non-empty [directory] is converted without
    asking the module resolver: the conversion cannot throw and [fullPath] is
    that directory. *)
Theorem convertToPluginData_with_directory inj cacheData projectDir w directory :
  cd_directory cacheData = Some directory ->
  directory <> "" ->
  exists pluginData,
    convertToPluginData inj cacheData projectDir w = (Ok pluginData, w)
    /\ fullPath pluginData = directory.
Proof.
  intros Hdir Hne. unfold convertToPluginData. rewrite Hdir. simpl.
  destruct (String.eqb_spec directory ""); [contradiction|]. simpl.
  unfold bind, ret. eexists. split; reflexivity.
Qed.

Lemma convertToPluginData_with_directory_witness :
  exists pluginData,
    convertToPluginData (Demo.injector [])
      {| cd_name := "no-such-module"; cd_version := "1.0.0";
         cd_directory := Some "/somewhere/no-such-module";
         cd_nativescript := None; cd_moduleInfo := None |}
      "/app" (Demo.world Demo.files)
    = (Ok pluginData, Demo.world Demo.files)
    /\ fullPath pluginData = "/somewhere/no-such-module".
Proof.
  apply (convertToPluginData_with_directory (Demo.injector [])
           {| cd_name := "no-such-module"; cd_version := "1.0.0";
              cd_directory := Some "/somewhere/no-such-module";
              cd_nativescript := None; cd_moduleInfo := None |}
           "/app" (Demo.world Demo.files) "/somewhere/no-such-module").
  - reflexivity.
  - discriminate.
Defined.

(** X12.  An input without a (non-empty) [directory] is located through the
    module resolver: [fullPath] is the directory of the resolved package.json,
    and when the module cannot be resolved the resolver's exception is the
    result. *)
Theorem convertToPluginData_resolves inj cacheData projectDir w :
  truthy (cd_directory cacheData) = false ->
  match require_resolve inj (cd_name cacheData +:+ "/package.json") projectDir (fs w) with
  | Ok packageJsonFile =>
      exists pluginData,
        convertToPluginData inj cacheData projectDir w = (Ok pluginData, w)
        /\ fullPath pluginData = path_dirname inj packageJsonFile
  | Throw e => convertToPluginData inj cacheData projectDir w = (Throw e, w)
  end.
Proof.
  intros Hdir. unfold convertToPluginData. rewrite Hdir.
  unfold bind, getPackageJsonFilePathForModule, liftRes, ret.
  destruct (require_resolve inj _ projectDir (fs w)) as [f|e].
  - eexists. split; reflexivity.
  - reflexivity.
Qed.

Lemma convertToPluginData_resolves_witness :
  match require_resolve (Demo.injector [])
          (cd_name (cacheDataOfPackageJson Demo.manifest) +:+ "/package.json") "/app"
          (fs (Demo.world Demo.files)) with
  | Ok packageJsonFile =>
      exists pluginData,
        convertToPluginData (Demo.injector []) (cacheDataOfPackageJson Demo.manifest)
          "/app" (Demo.world Demo.files) = (Ok pluginData, Demo.world Demo.files)
        /\ fullPath pluginData = path_dirname (Demo.injector []) packageJsonFile
  | Throw e =>
      convertToPluginData (Demo.injector []) (cacheDataOfPackageJson Demo.manifest)
        "/app" (Demo.world Demo.files) = (Throw e, Demo.world Demo.files)
  end.
Proof.
  apply (convertToPluginData_resolves (Demo.injector [])
           (cacheDataOfPackageJson Demo.manifest) "/app" (Demo.world Demo.files)).
  reflexivity.
Defined.

(** X13.  The two routes to a plugin record agree.  When [getNodeModuleData]
    returns, it has only read a package.json; its [isPlugin] flag says whether
    [moduleInfo] is there; and converting its result (the route of [remove])
    is the same computation as converting the package.json itself (the route
    of [add]). *)
Theorem getNodeModuleData_then_convert inj module projectDir w nodeModuleData w' :
  getNodeModuleData inj module projectDir w = (Ok nodeModuleData, w') ->
  w' = w
  /\ nm_isPlugin nodeModuleData = bool_decide (is_Some (moduleInfo nodeModuleData))
  /\ exists file content,
       fs w !! file = Some (PackageJsonFile content)
       /\ nm_name nodeModuleData = pj_name content
       /\ nm_version nodeModuleData = pj_version content
       /\ moduleInfo nodeModuleData = nativescript content
       /\ nm_fullPath nodeModuleData = path_dirname inj file
       /\ convertToPluginData inj (cacheDataOfNodeModule nodeModuleData) projectDir w
          = convertToPluginData inj (cacheDataOfPackageJson content) projectDir w.
Proof.
  intros Hrun.
  pose proof (readOnly_run _ _ _ _ (readOnly_getNodeModuleData inj _ _) Hrun) as ->.
  split; [reflexivity|].
  unfold getNodeModuleData in Hrun.
  destruct (fs_exists_unchanged module w) as [present Hpresent].
  rewrite (bind_ok _ _ _ _ _ Hpresent) in Hrun.
  unfold bind at 1 in Hrun.
  match type of Hrun with
  | match ?m w with _ => _ end = _ =>
      assert (Hro : readOnly m)
        by (destruct (_ || _);
            [apply readOnly_getPackageJsonFilePathForModule | apply readOnly_ret]);
      destruct (m w) as [[file|e] w1] eqn:Hfile; [|discriminate];
      pose proof (readOnly_run _ _ _ _ Hro Hfile) as ->
  end.
  unfold bind, readJson_package, liftRes, ret in Hrun.
  destruct (fs w !! file) as [[| content | |]|] eqn:Hcontent; try discriminate.
  injection Hrun as <-. cbn. split; [reflexivity|].
  exists file, content. repeat split; try assumption.
  unfold convertToPluginData. cbn.
  unfold bind. destruct (getPackageJsonFilePathForModule inj (pj_name content) projectDir w)
    as [[f|e] w2]; [|reflexivity].
  destruct (nativescript content); reflexivity.
Qed.

Lemma getNodeModuleData_then_convert_witness :
  Demo.world Demo.files = Demo.world Demo.files
  /\ nm_isPlugin Demo.cameraModule = bool_decide (is_Some (moduleInfo Demo.cameraModule))
  /\ exists file content,
       fs (Demo.world Demo.files) !! file = Some (PackageJsonFile content)
       /\ nm_name Demo.cameraModule = pj_name content
       /\ nm_version Demo.cameraModule = pj_version content
       /\ moduleInfo Demo.cameraModule = nativescript content
       /\ nm_fullPath Demo.cameraModule = path_dirname (Demo.injector []) file
       /\ convertToPluginData (Demo.injector []) (cacheDataOfNodeModule Demo.cameraModule)
            "/app" (Demo.world Demo.files)
          = convertToPluginData (Demo.injector []) (cacheDataOfPackageJson content)
              "/app" (Demo.world Demo.files).
Proof.
  apply (getNodeModuleData_then_convert (Demo.injector []) "nativescript-camera" "/app"
           (Demo.world Demo.files) Demo.cameraModule (Demo.world Demo.files)).
  reflexivity.
Defined.

(** ** Iterating over the installed platforms *)

Lemma forInstalledPlatform_eq {S : Type} inj
    (action : string -> string -> IPlatformData -> S -> M S) projectData platform s w :
  forInstalledPlatform inj action projectData platform s w
  = if isInstalled inj projectData (fs w) platform
    then action (path_join inj
                   [appDestinationDirectoryPath
                      (getPlatformData inj (toLowerCase platform) projectData);
                    APP_FOLDER_NAME inj; "tns_modules"])
                (toLowerCase platform)
                (getPlatformData inj (toLowerCase platform) projectData) s w
    else (Ok s, w).
Proof.
  unfold forInstalledPlatform, bind, fs_exists, readFs, isInstalled, platformDirectory.
  destruct (bool_decide _); reflexivity.
Qed.

Lemma forOf_installed {S : Type} inj
    (action : string -> string -> IPlatformData -> S -> M S) projectData platforms s w :
  (forall dest platform platformData s w,
      fs (snd (action dest platform platformData s w)) = fs w) ->
  forOf platforms (forInstalledPlatform inj action projectData) s w
  = forOf (List.filter (isInstalled inj projectData (fs w)) platforms)
      (fun platform =>
         action (path_join inj
                   [appDestinationDirectoryPath
                      (getPlatformData inj (toLowerCase platform) projectData);
                    APP_FOLDER_NAME inj; "tns_modules"])
                (toLowerCase platform)
                (getPlatformData inj (toLowerCase platform) projectData))
      s w.
Proof.
  intros Hfs. revert s w.
  induction platforms as [|platform platforms IH]; intros s w; [reflexivity|].
  cbn [forOf List.filter]. unfold bind at 1. rewrite forInstalledPlatform_eq.
  destruct (isInstalled inj projectData (fs w) platform).
  - cbn [forOf]. unfold bind.
    pose proof (Hfs (path_join inj
                       [appDestinationDirectoryPath
                          (getPlatformData inj (toLowerCase platform) projectData);
                        APP_FOLDER_NAME inj; "tns_modules"])
                    (toLowerCase platform)
                    (getPlatformData inj (toLowerCase platform) projectData) s w) as Hw.
    destruct (action _ (toLowerCase platform) _ s w) as [[s'|e] w']; [|reflexivity].
    cbn [snd] in Hw. rewrite IH, Hw. reflexivity.
  - apply IH.
Qed.

(** X14.  For an action that leaves the file system alone,
    [executeForAllInstalledPlatforms] runs the action once for each platform
    of the platform list whose directory exists under the platforms
    directory, in the order of the list, and skips the others; the action
    receives the lower-cased platform name, the platform data of that name and
    the [tns_modules] folder under the platform's app destination. *)
Theorem executeForAllInstalledPlatforms_visits_installed {S : Type} inj
    (action : string -> string -> IPlatformData -> S -> M S) projectData (s : S) w :
  (forall dest platform platformData s w,
      fs (snd (action dest platform platformData s w)) = fs w) ->
  executeForAllInstalledPlatforms inj action projectData s w
  = forOf (installedPlatforms inj projectData (fs w))
      (fun platform =>
         action (path_join inj
                   [appDestinationDirectoryPath
                      (getPlatformData inj (toLowerCase platform) projectData);
                    APP_FOLDER_NAME inj; "tns_modules"])
                (toLowerCase platform)
                (getPlatformData inj (toLowerCase platform) projectData))
      s w.
Proof.
  intros Hfs. unfold executeForAllInstalledPlatforms, installedPlatforms.
  apply forOf_installed. exact Hfs.
Qed.

Lemma executeForAllInstalledPlatforms_witness :
  executeForAllInstalledPlatforms (Demo.injector []) DemoMore.collect Demo.project []
    (Demo.world Demo.files)
  = (Ok ["/app/platforms/ios/src/app/tns_modules";
         "/app/platforms/android/src/app/tns_modules"],
     Demo.world Demo.files).
Proof.
  rewrite (executeForAllInstalledPlatforms_visits_installed (Demo.injector [])
             DemoMore.collect Demo.project [] (Demo.world Demo.files)).
  - reflexivity.
  - intros dest platform platformData s w. reflexivity.
Defined.

(** ** add, when the package is a plugin *)



Lemma isPluginDataValidForPlatform_throws inj pluginData platform projectData w :
  getNSValue inj (projectDir projectData)
    (frameworkPackageName (getPlatformData inj platform projectData)) (fs w) = None ->
  exists e,
    isPluginDataValidForPlatform inj pluginData platform projectData w = (Throw e, w).
Proof.
  intros Hfw. unfold isPluginDataValidForPlatform, getInstalledFrameworkVersion.
  unfold bind, readFs. rewrite Hfw. eexists. reflexivity.
Qed.

Lemma validateAction_fs inj pluginData projectData dest platform platformData s w :
  fs (snd (validateAction inj pluginData projectData dest platform platformData s w))
  = fs w.
Proof.
  unfold validateAction, isPluginDataValidForPlatform, getInstalledFrameworkVersion.
  unfold bind, readFs, liftRes, emit, ret, throw.
  destruct (getNSValue inj (projectDir projectData)
              (frameworkPackageName (getPlatformData inj platform projectData)) (fs w))
    as [fd|]; [|reflexivity].
  destruct (platformsDataService pluginData) as [requirements|]; [|reflexivity].
  destruct (negb (truthyProperty requirements platform)); [reflexivity|].
  destruct (requirements !! platform) as [required|]; [|reflexivity].
  destruct (semver_gt inj _ _) as [[|]|e]; reflexivity.
Qed.


Lemma convertToPluginData_resolved inj cacheData projectDir w packageJsonFile :
  truthy (cd_directory cacheData) = false ->
  require_resolve inj (cd_name cacheData +:+ "/package.json") projectDir (fs w)
    = Ok packageJsonFile ->
  exists pluginData,
    convertToPluginData inj cacheData projectDir w = (Ok pluginData, w)
    /\ name pluginData = cd_name cacheData
    /\ (forall section,
          cd_nativescript cacheData = Some section ->
          platformsDataService pluginData = platforms section).
Proof.
  intros Hdir Hresolve. unfold convertToPluginData. rewrite Hdir.
  unfold bind, getPackageJsonFilePathForModule, liftRes, ret. rewrite Hresolve.
  eexists. split; [reflexivity|]. split; [reflexivity|].
  intros section Hsection. cbn. rewrite Hsection. reflexivity.
Qed.



(** X16.  When the framework data of the first installed platform cannot be
    read, the check throws and [add] throws with it, after the install: the
    package stays installed, since [add] neither uninstalls it nor logs
    anything. *)
Theorem add_throws_when_framework_data_is_missing
    inj plugin projectData w w1 installed s2 pathToRealNpmPackageJson
    realNpmPackageJson section packageJsonFile platform others :
  ensure inj projectData w = (Ok tt, w1) ->
  packageManager_install inj (installSpecifier inj plugin (fs w1))
    (projectDir projectData) (npmInstallOptions inj) (fs w1) = (Ok installed, s2) ->
  require_resolve inj (res_name installed +:+ "/package.json")
    (projectDir projectData) s2 = Ok pathToRealNpmPackageJson ->
  s2 !! pathToRealNpmPackageJson = Some (PackageJsonFile realNpmPackageJson) ->
  nativescript realNpmPackageJson = Some section ->
  require_resolve inj (pj_name realNpmPackageJson +:+ "/package.json")
    (projectDir projectData) s2 = Ok packageJsonFile ->
  installedPlatforms inj projectData s2 = platform :: others ->
  getNSValue inj (projectDir projectData)
    (frameworkPackageName (getPlatformData inj (toLowerCase platform) projectData))
    s2 = None ->
  exists e,
    add inj plugin projectData w =
      (Throw e,
       {| fs := s2;
          trace := trace w1 ++
            [NpmInstall (installSpecifier inj plugin (fs w1)) (projectDir projectData)
               (npmInstallOptions inj)] |}).
Proof.
  intros Hensure Hinstall Hresolve Hread Hkey Hresolve' Hplatforms Hfw.
  unfold add.
  rewrite (bind_ok _ _ _ _ _ Hensure).
  rewrite (bind_ok _ _ w1 (installSpecifier inj plugin (fs w1)) w1) by reflexivity.
  rewrite (bind_ok _ _ _ _ _ (call_run _ _ _ _ _ Hinstall)).
  erewrite bind_ok; cycle 1.
  { unfold getPackageJsonFilePathForModule, liftRes. simpl. rewrite Hresolve.
    reflexivity. }
  erewrite bind_ok; cycle 1.
  { apply readJson_package_file. simpl. exact Hread. }
  rewrite Hkey.
  match goal with
  | |- context [convertToPluginData inj ?c ?d] =>
      destruct (convertToPluginData_resolved inj c d
                  {| fs := s2;
                     trace := trace w1 ++
                       [NpmInstall (installSpecifier inj plugin (fs w1))
                          (projectDir projectData) (npmInstallOptions inj)] |}
                  packageJsonFile eq_refl Hresolve')
        as (pluginData & Hconvert & _)
  end.
  rewrite (bind_ok _ _ _ _ _ Hconvert).
  change (fun (pluginDestinationPath platform : string) (platformData : IPlatformData)
              (s : unit) =>
            let* _ := isPluginDataValidForPlatform inj pluginData platform projectData
            in ret s)
    with (validateAction inj pluginData projectData).
  destruct (isPluginDataValidForPlatform_throws inj pluginData (toLowerCase platform)
              projectData
              {| fs := s2;
                 trace := trace w1 ++
                   [NpmInstall (installSpecifier inj plugin (fs w1))
                      (projectDir projectData) (npmInstallOptions inj)] |} Hfw)
    as (e & Hthrow).
  exists e. apply bind_throw. unfold executeForAllInstalledPlatforms.
  rewrite forOf_installed by (intros; apply validateAction_fs).
  cbn [fs]. unfold installedPlatforms in Hplatforms. rewrite Hplatforms.
  cbn [forOf]. apply bind_throw.
  unfold validateAction. apply bind_throw. exact Hthrow.
Qed.

Lemma add_throws_without_framework_witness :
  exists e,
    add DemoMore.injectorWithoutFramework "nativescript-camera" Demo.project
      (Demo.world Demo.files) =
      (Throw e,
       {| fs := snd (Demo.install "nativescript-camera" "/app"
                       (npmInstallOptions DemoMore.injectorWithoutFramework) Demo.files);
          trace := trace (Demo.world Demo.files) ++
            [NpmInstall (installSpecifier DemoMore.injectorWithoutFramework
                           "nativescript-camera" (fs (Demo.world Demo.files)))
               (projectDir Demo.project)
               (npmInstallOptions DemoMore.injectorWithoutFramework)] |}).
Proof.
  apply (add_throws_when_framework_data_is_missing DemoMore.injectorWithoutFramework
           "nativescript-camera" Demo.project (Demo.world Demo.files)
           (Demo.world Demo.files)
           {| res_name := "nativescript-camera"; res_version := "4.5.0" |}
           (snd (Demo.install "nativescript-camera" "/app"
                   (npmInstallOptions DemoMore.injectorWithoutFramework) Demo.files))
           "/app/node_modules/nativescript-camera/package.json"
           Demo.cameraPackageJson
           {| platforms := Some {[ "ios" := "6.0.0" ]}; variables := None |}
           "/app/node_modules/nativescript-camera/package.json"
           "ios" ["android"]).
  - reflexivity.
  - reflexivity.
  - reflexivity.
  - reflexivity.
  - reflexivity.
  - reflexivity.
  - reflexivity.
  - reflexivity.
Defined.

(** ** Making sure the dependencies are installed *)

Lemma ensureAllDependenciesAreInstalled_run inj projectData w content :
  fs w !! getPackageJsonFilePath inj (projectDir projectData)
    = Some (PackageJsonFile content) ->
  ensureAllDependenciesAreInstalled inj projectData w =
    if force (options inj)
       || negb (Nat.eqb (length (notInstalledDependencies inj (projectDir projectData)
                                   content (fs w))) 0)
    then
      match packageManager_install inj (projectDir projectData) (projectDir projectData)
              (ensureInstallOptions inj) (fs w) with
      | (Ok _, s) =>
          (Ok tt,
           {| fs := s;
              trace := trace w ++
                [LogTrace (force (options inj))
                   (notInstalledDependencies inj (projectDir projectData) content (fs w));
                 NpmInstall (projectDir projectData) (projectDir projectData)
                   (ensureInstallOptions inj)] |})
      | (Throw e, s) =>
          (Throw e,
           {| fs := s;
              trace := trace w ++
                [LogTrace (force (options inj))
                   (notInstalledDependencies inj (projectDir projectData) content (fs w));
                 NpmInstall (projectDir projectData) (projectDir projectData)
                   (ensureInstallOptions inj)] |})
      end
    else (Ok tt, w).
Proof.
  intros Hfile.
  unfold ensureAllDependenciesAreInstalled, notInstalledDependencies,
    installedDependencies, ensureInstallOptions.
  unfold bind, fs_exists, readFs, readJson_package, liftRes, emit, call, ret.
  cbn [fs trace].
  destruct (bool_decide (is_Some (fs w !! getNodeModulesPath inj (projectDir projectData))));
    rewrite Hfile;
    (destruct (force (options inj) || _); [|reflexivity]);
    cbn [fs trace];
    match goal with
    | |- context [packageManager_install inj ?a ?b ?o ?s] =>
        destruct (packageManager_install inj a b o s) as [[r|e] s']
    end; rewrite <- ?app_assoc; reflexivity.
Qed.

Lemma elem_of_keys (section : option IStringDictionary) n :
  n ∈ keys section <-> is_Some (section ≫= (fun m => m !! n)).
Proof.
  unfold keys. destruct section as [m|]; simpl.
  - rewrite list_elem_of_fmap. split.
    + intros [[k v] [-> Hin]]. apply elem_of_map_to_list in Hin. simpl. eauto.
    + intros [v Hv]. exists (n, v). split; [reflexivity|].
      apply elem_of_map_to_list. exact Hv.
  - split; [intros H; inversion H | intros [v Hv]; discriminate].
Qed.

Lemma notInstalledDependencies_nil inj projectDir content s :
  notInstalledDependencies inj projectDir content s = []
  <-> forall k n, is_Some (declaredVersion k n content) ->
                  n ∈ installedDependencies inj projectDir s.
Proof.
  unfold notInstalledDependencies, difference. split.
  - intros Hnil k n Hdeclared.
    destruct (decide (n ∈ installedDependencies inj projectDir s)) as [|Hnot]; [assumption|].
    assert (Hin : n ∈ filter (fun x => x ∉ installedDependencies inj projectDir s)
                          (keys (dependencies content) ++ keys (devDependencies content))).
    { apply list_elem_of_filter. split; [exact Hnot|].
      apply elem_of_app. destruct k; [left | right]; apply elem_of_keys; exact Hdeclared. }
    rewrite Hnil in Hin. inversion Hin.
  - intros Hall.
    destruct (filter _ _) as [|n rest] eqn:Hfilter; [reflexivity|].
    assert (Hin : n ∈ n :: rest) by constructor.
    rewrite <- Hfilter in Hin. apply list_elem_of_filter in Hin as [Hnot Hin].
    exfalso. apply Hnot.
    apply elem_of_app in Hin as [Hin | Hin]; apply elem_of_keys in Hin.
    + apply (Hall KeyDependencies). exact Hin.
    + apply (Hall KeyDevDependencies). exact Hin.
Qed.

(** X17.  With [force] off, when node_modules exists and every declared
    dependency, of either section, is an entry of node_modules or a scoped
    name [@scope/name] with [@scope] an entry of node_modules and [name] an
    entry of [node_modules/@scope], [ensureAllDependenciesAreInstalled] does
    not run the package manager: it leaves the world as it is. *)
Theorem ensureAllDependenciesAreInstalled_up_to_date inj projectData w content :
  fs w !! getPackageJsonFilePath inj (projectDir projectData)
    = Some (PackageJsonFile content) ->
  force (options inj) = false ->
  is_Some (fs w !! getNodeModulesPath inj (projectDir projectData)) ->
  (forall k n,
      is_Some (declaredVersion k n content) ->
      n ∈ readDirectory inj (getNodeModulesPath inj (projectDir projectData)) (fs w)
      \/ exists scope dependencyName,
           n = scope +:+ "/" +:+ dependencyName
           /\ scope ∈ readDirectory inj (getNodeModulesPath inj (projectDir projectData))
                        (fs w)
           /\ startsWith scope "@" = true
           /\ dependencyName
                ∈ readDirectory inj
                    (path_join inj [getNodeModulesPath inj (projectDir projectData); scope])
                    (fs w)) ->
  ensureAllDependenciesAreInstalled inj projectData w = (Ok tt, w).
Proof.
  intros Hfile Hforce Hdir Hall.
  rewrite (ensureAllDependenciesAreInstalled_run _ _ _ _ Hfile), Hforce.
  assert (Hnil : notInstalledDependencies inj (projectDir projectData) content (fs w) = []).
  { apply notInstalledDependencies_nil. intros k n Hdeclared.
    unfold installedDependencies. rewrite bool_decide_eq_true_2 by exact Hdir.
    apply elem_of_app.
    destruct (Hall k n Hdeclared) as [Htop | (scope & dep & -> & Hscope & Hat & Hdep)].
    - left. exact Htop.
    - right. apply list_elem_of_In, in_flat_map. exists scope. split.
      + apply List.filter_In. split; [apply list_elem_of_In; exact Hscope | exact Hat].
      + apply (in_map (fun dependencyName => scope +:+ "/" +:+ dependencyName)).
        apply list_elem_of_In. exact Hdep. }
  rewrite Hnil. reflexivity.
Qed.

Lemma ensureAllDependenciesAreInstalled_up_to_date_witness :
  ensureAllDependenciesAreInstalled (Demo.injector []) Demo.project
    (Demo.world DemoMore.filesWithScoped)
  = (Ok tt, Demo.world DemoMore.filesWithScoped).
Proof.
  apply (ensureAllDependenciesAreInstalled_up_to_date (Demo.injector []) Demo.project
           (Demo.world DemoMore.filesWithScoped) DemoMore.manifestWithScoped).
  - reflexivity.
  - reflexivity.
  - exists Directory. reflexivity.
  - intros k n [v Hv]. destruct k; cbn in Hv.
    + apply lookup_singleton_Some in Hv as [<- _].
      right. exists "@nativescript", "core".
      split; [reflexivity|]. split; [|split; [reflexivity|]].
      * change ("@nativescript" ∈ ["nativescript-camera"; "@nativescript"]).
        apply list_elem_of_further, list_elem_of_here.
      * change ("core" ∈ ["core"]). apply list_elem_of_here.
    + apply lookup_singleton_Some in Hv as [<- _].
      left. change ("nativescript-camera" ∈ ["nativescript-camera"; "@nativescript"]).
      apply list_elem_of_here.
Defined.

(** X18.  When [force] is on or some declared dependency is not installed,
    [ensureAllDependenciesAreInstalled] logs what is missing and runs the
    package manager exactly once, on the project as a whole (the project
    directory is both the package and the place) and without [save]; the
    outcome of that install is its own outcome. *)
Theorem ensureAllDependenciesAreInstalled_installs_once inj projectData w content :
  fs w !! getPackageJsonFilePath inj (projectDir projectData)
    = Some (PackageJsonFile content) ->
  force (options inj) = true
  \/ notInstalledDependencies inj (projectDir projectData) content (fs w) <> [] ->
  save (ensureInstallOptions inj) = false
  /\ ensureAllDependenciesAreInstalled inj projectData w =
       match packageManager_install inj (projectDir projectData) (projectDir projectData)
               (ensureInstallOptions inj) (fs w) with
       | (Ok _, s) =>
           (Ok tt,
            {| fs := s;
               trace := trace w ++
                 [LogTrace (force (options inj))
                    (notInstalledDependencies inj (projectDir projectData) content (fs w));
                  NpmInstall (projectDir projectData) (projectDir projectData)
                    (ensureInstallOptions inj)] |})
       | (Throw e, s) =>
           (Throw e,
            {| fs := s;
               trace := trace w ++
                 [LogTrace (force (options inj))
                    (notInstalledDependencies inj (projectDir projectData) content (fs w));
                  NpmInstall (projectDir projectData) (projectDir projectData)
                    (ensureInstallOptions inj)] |})
       end.
Proof.
  intros Hfile Hmissing. split; [reflexivity|].
  rewrite (ensureAllDependenciesAreInstalled_run _ _ _ _ Hfile).
  destruct Hmissing as [-> | Hmissing]; [reflexivity|].
  destruct (notInstalledDependencies inj (projectDir projectData) content (fs w));
    [contradiction|].
  rewrite orb_true_r. reflexivity.
Qed.

Lemma ensureAllDependenciesAreInstalled_installs_once_witness :
  save (ensureInstallOptions (Demo.injector [])) = false
  /\ ensureAllDependenciesAreInstalled (Demo.injector []) Demo.project
       (Demo.world Demo.filesWithDependencies) =
       match packageManager_install (Demo.injector []) (projectDir Demo.project)
               (projectDir Demo.project) (ensureInstallOptions (Demo.injector []))
               (fs (Demo.world Demo.filesWithDependencies)) with
       | (Ok _, s) =>
           (Ok tt,
            {| fs := s;
               trace := trace (Demo.world Demo.filesWithDependencies) ++
                 [LogTrace (force (options (Demo.injector [])))
                    (notInstalledDependencies (Demo.injector []) (projectDir Demo.project)
                       Demo.manifestWithDependencies
                       (fs (Demo.world Demo.filesWithDependencies)));
                  NpmInstall (projectDir Demo.project) (projectDir Demo.project)
                    (ensureInstallOptions (Demo.injector []))] |})
       | (Throw e, s) =>
           (Throw e,
            {| fs := s;
               trace := trace (Demo.world Demo.filesWithDependencies) ++
                 [LogTrace (force (options (Demo.injector [])))
                    (notInstalledDependencies (Demo.injector []) (projectDir Demo.project)
                       Demo.manifestWithDependencies
                       (fs (Demo.world Demo.filesWithDependencies)));
                  NpmInstall (projectDir Demo.project) (projectDir Demo.project)
                    (ensureInstallOptions (Demo.injector []))] |})
       end.
Proof.
  apply (ensureAllDependenciesAreInstalled_installs_once (Demo.injector []) Demo.project
           (Demo.world Demo.filesWithDependencies) Demo.manifestWithDependencies).
  - reflexivity.
  - right. intros H.
    assert (Hin : "tns-core-modules"
                    ∈ notInstalledDependencies (Demo.injector []) (projectDir Demo.project)
                        Demo.manifestWithDependencies
                        (fs (Demo.world Demo.filesWithDependencies))).
    { unfold notInstalledDependencies, difference. apply list_elem_of_filter. split.
      - change ("tns-core-modules" ∉ ["nativescript-camera"]).
        intros Hc. apply list_elem_of_In in Hc. destruct Hc as [Hc | []]. discriminate.
      - apply elem_of_app. left. apply elem_of_keys. exists "6.0.0". reflexivity. }
    rewrite H in Hin. inversion Hin.
Defined.

(** X19.  Whenever [ensure] returns normally the node_modules directory of
    the project exists. *)
Theorem ensure_creates_node_modules inj projectData w :
  fst (ensure inj projectData w) = Ok tt ->
  is_Some (fs (snd (ensure inj projectData w))
             !! getNodeModulesPath inj (projectDir projectData)).
Proof.
  unfold ensure, bind.
  destruct (ensureAllDependenciesAreInstalled inj projectData w) as [[[]|e] w1];
    [|discriminate].
  intros _. unfold ensureDirectoryExists. cbn.
  destruct (fs w1 !! getNodeModulesPath inj (projectDir projectData)) eqn:E.
  - rewrite E. eauto.
  - rewrite lookup_insert_eq. eauto.
Qed.

Lemma ensure_creates_node_modules_witness :
  is_Some (fs (snd (ensure (Demo.injector []) Demo.project
                      (Demo.world (delete "/app/node_modules" Demo.files))))
             !! getNodeModulesPath (Demo.injector []) (projectDir Demo.project)).
Proof.
  apply (ensure_creates_node_modules (Demo.injector []) Demo.project
           (Demo.world (delete "/app/node_modules" Demo.files))).
  reflexivity.
Defined.

(** ** Package manager commands *)

Lemma beforeAt_no_at name :
  (forall n, String.get n name <> Some "@"%char) -> beforeAt name = name.
Proof.
  induction name as [|c name IH]; intros Hno; [reflexivity|].
  simpl. destruct (Ascii.eqb_spec c "@") as [Hc | Hc].
  - exfalso. apply (Hno 0). simpl. congruence.
  - f_equal. apply IH. intros n. apply (Hno (S n)).
Qed.

Lemma beforeAt_app name rest :
  (forall n, String.get n name <> Some "@"%char) ->
  beforeAt (name +:+ String "@" rest) = name.
Proof.
  induction name as [|c name IH]; intros Hno; [reflexivity|].
  simpl. destruct (Ascii.eqb_spec c "@") as [Hc | Hc].
  - exfalso. apply (Hno 0). simpl. congruence.
  - f_equal. apply IH. intros n. apply (Hno (S n)).
Qed.

(** X20.  For a name without [@], [parseNpmCommandResult] gives the name back
    from [name@version], and from the bare name too. *)
Theorem parseNpmCommandResult_name_at_version name version :
  (forall n, String.get n name <> Some "@"%char) ->
  parseNpmCommandResult (name +:+ "@" +:+ version) = name
  /\ parseNpmCommandResult name = name.
Proof.
  intros Hno. unfold parseNpmCommandResult. split.
  - apply (beforeAt_app name version Hno).
  - apply beforeAt_no_at. exact Hno.
Qed.

Lemma parseNpmCommandResult_witness :
  parseNpmCommandResult ("nativescript-camera" +:+ "@" +:+ "4.5.0") = "nativescript-camera"
  /\ parseNpmCommandResult "nativescript-camera" = "nativescript-camera".
Proof.
  apply (parseNpmCommandResult_name_at_version "nativescript-camera" "4.5.0").
  intros n.
  do 19 (destruct n as [|n]; [discriminate|]). destruct n; discriminate.
Defined.

(** X21.  [parseNpmCommandResult] returns the part of its argument before the
    first [@]: a prefix of the argument that holds no [@] and is followed, in
    the argument, by [@] or by nothing.  For the name of a scoped package,
    which starts with [@], that part is the empty string. *)
Theorem parseNpmCommandResult_prefix s :
  (exists rest,
      s = parseNpmCommandResult s +:+ rest
      /\ (rest = "" \/ exists rest', rest = String "@" rest'))
  /\ (forall n, String.get n (parseNpmCommandResult s) <> Some "@"%char)
  /\ (forall rest, parseNpmCommandResult (String "@" rest) = "").
Proof.
  unfold parseNpmCommandResult. split; [|split].
  - induction s as [|c s IH].
    + exists "". split; [reflexivity | left; reflexivity].
    + simpl. destruct (Ascii.eqb_spec c "@") as [-> | Hc].
      * exists (String "@" s). split; [reflexivity | right; eauto].
      * destruct IH as (rest & Hs & Hrest). exists rest. split; [|exact Hrest].
        change (String c s = String c (beforeAt s +:+ rest)). f_equal. exact Hs.
  - induction s as [|c s IH]; intros n.
    + destruct n; discriminate.
    + simpl. destruct (Ascii.eqb_spec c "@") as [-> | Hc].
      * destruct n; discriminate.
      * destruct n as [|n]; simpl; [congruence | apply IH].
  - reflexivity.
Qed.

(** X22.  [executeNpmCommand] knows two commands.  For any other command name
    it calls nothing and leaves the world as it is, and still returns the
    parsed argument. *)
Theorem executeNpmCommand_unknown_command inj npmCommandName npmCommandArguments
    projectData w :
  npmCommandName <> INSTALL_COMMAND_NAME ->
  npmCommandName <> UNINSTALL_COMMAND_NAME ->
  executeNpmCommand inj npmCommandName npmCommandArguments projectData w
  = (Ok (parseNpmCommandResult npmCommandArguments), w).
Proof.
  intros Hinstall Huninstall. unfold executeNpmCommand.
  destruct (String.eqb_spec npmCommandName INSTALL_COMMAND_NAME); [contradiction|].
  destruct (String.eqb_spec npmCommandName UNINSTALL_COMMAND_NAME); [contradiction|].
  reflexivity.
Qed.

Lemma executeNpmCommand_unknown_command_witness :
  executeNpmCommand (Demo.injector []) "update" "nativescript-camera@4.5.0" Demo.project
    (Demo.world Demo.files)
  = (Ok (parseNpmCommandResult "nativescript-camera@4.5.0"), Demo.world Demo.files).
Proof.
  apply (executeNpmCommand_unknown_command (Demo.injector []) "update"
           "nativescript-camera@4.5.0" Demo.project (Demo.world Demo.files)).
  - discriminate.
  - discriminate.
Defined.

(** ** Listing plugins *)

Lemma mapM_ok {A B : Type} (f : A -> M B) (R : A -> B -> Prop) xs w :
  (forall x, In x xs -> exists y, f x w = (Ok y, w) /\ R x y) ->
  exists ys, mapM f xs w = (Ok ys, w) /\ Forall2 R xs ys.
Proof.
  induction xs as [|x xs IH]; intros Hall.
  - exists []. split; [reflexivity | constructor].
  - destruct (Hall x (or_introl eq_refl)) as (y & Hy & HR).
    destruct IH as (ys & Hys & HRs); [intros x' Hx'; apply Hall; right; exact Hx'|].
    exists (y :: ys). split; [|constructor; assumption].
    cbn [mapM]. rewrite (bind_ok _ _ _ _ _ Hy), (bind_ok _ _ _ _ _ Hys). reflexivity.
Qed.

Lemma mapM_inv {A B : Type} (f : A -> M B) xs w ys w' :
  (forall x, readOnly (f x)) ->
  mapM f xs w = (Ok ys, w') ->
  w' = w /\ Forall2 (fun x y => f x w = (Ok y, w)) xs ys.
Proof.
  intros Hro. revert ys w'. induction xs as [|x xs IH]; intros ys w' Hrun.
  - cbn in Hrun. injection Hrun as <- <-. split; [reflexivity | constructor].
  - cbn [mapM] in Hrun. unfold bind at 1 in Hrun.
    destruct (f x w) as [[y|e] w1] eqn:Hy; [|discriminate].
    pose proof (readOnly_run _ _ _ _ (Hro x) Hy) as ->.
    unfold bind at 1 in Hrun.
    destruct (mapM f xs w) as [[ys'|e] w2] eqn:Hys; [|discriminate].
    destruct (IH ys' w2 eq_refl) as [-> HR].
    cbn in Hrun. injection Hrun as <- <-. split; [reflexivity|].
    constructor; assumption.
Qed.

Lemma Forall2_elem_r {A B : Type} (R : A -> B -> Prop) xs ys y :
  Forall2 R xs ys -> y ∈ ys -> exists x, x ∈ xs /\ R x y.
Proof.
  intros HR. induction HR as [|x y' xs ys Hxy _ IH]; intros Hy.
  - inversion Hy.
  - apply elem_of_cons in Hy as [-> | Hy].
    + exists x. split; [apply list_elem_of_here | exact Hxy].
    + destruct (IH Hy) as (x' & Hx' & HR'). exists x'.
      split; [apply list_elem_of_further; exact Hx' | exact HR'].
Qed.

(** X23.  Given a list of production dependencies that all carry their
    directory, [getAllProductionPlugins] asks neither the dependency-graph
    builder nor the module resolver and cannot throw.  It returns, in the
    order of the list, one record for each dependency that has a
    [nativescript] section and none for the others; each record is a plugin
    and has the name, version and directory of its dependency and the platform
    requirements of its [nativescript] section. *)
Theorem getAllProductionPlugins_of_given_dependencies
    inj getProductionDependencies projectData dependencies w :
  (forall d, In d dependencies -> dep_directory d <> "") ->
  exists plugins,
    getAllProductionPlugins inj getProductionDependencies projectData
      (Some dependencies) w = (Ok plugins, w)
    /\ Forall2 (fun d p =>
                  name p = dep_name d /\ version p = dep_version d
                  /\ fullPath p = dep_directory d /\ isPlugin p = true
                  /\ platformsDataService p = dep_nativescript d ≫= platforms)
               (List.filter (fun d => bool_decide (is_Some (dep_nativescript d)))
                            dependencies)
               plugins.
Proof.
  intros Hdir. unfold getAllProductionPlugins.
  rewrite (bind_ok _ _ w dependencies w) by reflexivity.
  assert (Hmap : exists plugins,
             mapM (fun dependency =>
                     convertToPluginData inj (cacheDataOfDependency dependency)
                       (projectDir projectData))
                  (List.filter (fun d => bool_decide (is_Some (dep_nativescript d)))
                               dependencies) w = (Ok plugins, w)
             /\ Forall2 (fun d p =>
                           name p = dep_name d /\ version p = dep_version d
                           /\ fullPath p = dep_directory d /\ isPlugin p = true
                           /\ platformsDataService p = dep_nativescript d ≫= platforms)
                        (List.filter (fun d => bool_decide (is_Some (dep_nativescript d)))
                                     dependencies)
                        plugins).
  { apply mapM_ok. intros d Hd. apply List.filter_In in Hd as [Hd Hns].
    apply bool_decide_eq_true in Hns. destruct Hns as [ns Hns].
    unfold convertToPluginData, cacheDataOfDependency. cbn.
    destruct (String.eqb_spec (dep_directory d) ""); [destruct (Hdir d Hd); assumption|].
    cbn. unfold bind, ret. eexists. split; [reflexivity|]. cbn.
    rewrite Hns. repeat split; reflexivity. }
  destruct dependencies as [|d ds]; [|exact Hmap].
  exists []. split; [reflexivity | constructor].
Qed.

Lemma getAllProductionPlugins_witness :
  exists plugins,
    getAllProductionPlugins (Demo.injector [])
      (fun _ _ => Throw (ExternalError "no dependency graph")) Demo.project
      (Some DemoMore.productionDependencies) (Demo.world Demo.files)
    = (Ok plugins, Demo.world Demo.files)
    /\ Forall2 (fun d p =>
                  name p = dep_name d /\ version p = dep_version d
                  /\ fullPath p = dep_directory d /\ isPlugin p = true
                  /\ platformsDataService p = dep_nativescript d ≫= platforms)
               (List.filter (fun d => bool_decide (is_Some (dep_nativescript d)))
                            DemoMore.productionDependencies)
               plugins.
Proof.
  apply (getAllProductionPlugins_of_given_dependencies (Demo.injector [])
           (fun _ _ => Throw (ExternalError "no dependency graph")) Demo.project
           DemoMore.productionDependencies (Demo.world Demo.files)).
  intros d [<- | [<- | []]]; discriminate.
Defined.

(** X24.  Whenever [getAllInstalledPlugins] returns, every record it returns
    is a plugin and comes from a key of the [dependencies] section of the
    project's package.json, never from [devDependencies]: it converts what
    [getNodeModuleData] reads for that key. *)
Theorem getAllInstalledPlugins_lists_production_plugins
    inj require projectData w plugins w' :
  getAllInstalledPlugins inj require projectData w = (Ok plugins, w') ->
  exists content,
    require (getPackageJsonFilePath inj (projectDir projectData)) (fs w') = Ok content
    /\ forall p,
         In p plugins ->
         isPlugin p = true
         /\ exists n nodeModuleData,
              n ∈ keys (dependencies content)
              /\ getNodeModuleData inj n (projectDir projectData) w'
                 = (Ok nodeModuleData, w')
              /\ convertToPluginData inj (cacheDataOfNodeModule nodeModuleData)
                   (projectDir projectData) w' = (Ok p, w').
Proof.
  intros Hrun. unfold getAllInstalledPlugins, getAllInstalledModules in Hrun.
  unfold bind at 1 2 in Hrun.
  destruct (ensure inj projectData w) as [[[]|e] w1]; [|discriminate].
  unfold bind at 1, getDependencies at 1, bind at 1, liftRes in Hrun.
  destruct (require (getPackageJsonFilePath inj (projectDir projectData)) (fs w1))
    as [content|e] eqn:Hrequire; [|discriminate].
  unfold ret at 1 in Hrun.
  destruct (mapM _ (keys (dependencies content)) w1) as [[modules|e] w2] eqn:Hmodules;
    [|discriminate].
  apply mapM_inv in Hmodules as [-> Hmodules];
    [|intros; apply readOnly_getNodeModuleData].
  unfold bind at 1 in Hrun.
  destruct (mapM _ modules w1) as [[records|e] w3] eqn:Hrecords; [|discriminate].
  apply mapM_inv in Hrecords as [-> Hrecords];
    [|intros; apply readOnly_convertToPluginData].
  unfold ret in Hrun. injection Hrun as <- <-.
  exists content. split; [exact Hrequire|].
  intros p Hp. apply List.filter_In in Hp as [Hp Hplugin]. split; [exact Hplugin|].
  apply list_elem_of_In in Hp.
  destruct (Forall2_elem_r _ _ _ _ Hrecords Hp) as (d & Hd & Hconvert).
  destruct (Forall2_elem_r _ _ _ _ Hmodules Hd) as (n & Hn & Hread).
  exists n, d. repeat split; assumption.
Qed.

Lemma getAllInstalledPlugins_witness :
  exists content,
    DemoMore.requireJson (getPackageJsonFilePath (Demo.injector []) (projectDir Demo.project))
      (fs (Demo.world DemoMore.filesWithCamera)) = Ok content
    /\ forall p,
         In p [Demo.cameraFromModule] ->
         isPlugin p = true
         /\ exists n nodeModuleData,
              n ∈ keys (dependencies content)
              /\ getNodeModuleData (Demo.injector []) n (projectDir Demo.project)
                   (Demo.world DemoMore.filesWithCamera)
                 = (Ok nodeModuleData, Demo.world DemoMore.filesWithCamera)
              /\ convertToPluginData (Demo.injector [])
                   (cacheDataOfNodeModule nodeModuleData) (projectDir Demo.project)
                   (Demo.world DemoMore.filesWithCamera)
                 = (Ok p, Demo.world DemoMore.filesWithCamera).
Proof.
  apply (getAllInstalledPlugins_lists_production_plugins (Demo.injector [])
           DemoMore.requireJson Demo.project (Demo.world DemoMore.filesWithCamera)
           [Demo.cameraFromModule] (Demo.world DemoMore.filesWithCamera)).
  reflexivity.
Defined.

(** * Properties of the offline cache *)

Section CacheProperties.

Import KinveyCache.

Context {B : Type} (random : nat -> QArith_base.Q).

Implicit Types (st : State (B:=B)) (d : doc) (docs : list doc).

Lemma state_eta st :
  {| store := store st; backing := backing st; drawn := drawn st |} = st.
Proof. destruct st; reflexivity. Qed.

Lemma advance_0 st : advance 0 st = st.
Proof. unfold advance. rewrite Nat.add_0_r. apply state_eta. Qed.

Lemma advance_advance n m st : advance m (advance n st) = advance (n + m) st.
Proof. unfold advance; cbn. f_equal. lia. Qed.

Lemma append_empty_r (s : string) : s +:+ "" = s.
Proof.
  induction s as [|c s IH]; [reflexivity|].
  change (String c s +:+ "") with (String c (s +:+ "")). now rewrite IH.
Qed.

Lemma append_assoc (s1 s2 s3 : string) : (s1 +:+ s2) +:+ s3 = s1 +:+ s2 +:+ s3.
Proof.
  induction s1 as [|c s1 IH]; [reflexivity|].
  change (String c ((s1 +:+ s2) +:+ s3) = String c (s1 +:+ s2 +:+ s3)).
  now rewrite IH.
Qed.

Lemma floor_of_scaled_draw (r : QArith_base.Q) :
  QArith_base.Qle (QArith_base.inject_Z 0) r ->
  QArith_base.Qlt r (QArith_base.inject_Z 1) ->
  (0 <= Qround.Qfloor (QArith_base.Qmult r (QArith_base.inject_Z 16)) < 16)%Z.
Proof.
  destruct r as [n p]. unfold QArith_base.Qle, QArith_base.Qlt. cbn.
  intros H0 H1. rewrite Pos.mul_1_r.
  split.
  - apply Z.div_pos; lia.
  - apply Z.div_lt_upper_bound; lia.
Qed.

Lemma substring_of_chars (pos : Z) :
  (0 <= pos < 16)%Z ->
  exists c, substring pos (pos + 1) chars = String c "" /\ isHexDigit c = true.
Proof.
  intros Hpos.
  assert (Hn : exists n : nat, pos = Z.of_nat n /\ n < 16).
  { exists (Z.to_nat pos). lia. }
  destruct Hn as (n & -> & Hn).
  do 16 (destruct n as [|n]; [eexists; split; reflexivity|]).
  lia.
Qed.

Lemma generateIdFrom_run :
  inUnitInterval random ->
  forall remaining id st,
    exists suffix,
      generated remaining suffix /\
      generateIdFrom random remaining id st
      = (Resolved (id +:+ suffix), advance remaining st).
Proof.
  intros Hrandom remaining.
  induction remaining as [|remaining IH]; intros id st.
  - exists "". split; [split; [reflexivity | constructor]|].
    rewrite append_empty_r, advance_0. reflexivity.
  - destruct (Hrandom (drawn st)) as [H0 H1].
    destruct (substring_of_chars _ (floor_of_scaled_draw _ H0 H1)) as (c & Hc & Hhex).
    cbn [generateIdFrom]. unfold andThen, Math_random.
    change (Z.of_nat (String.length chars)) with 16%Z.
    rewrite Hc.
    destruct (IH (id +:+ String c "")
                 {| store := store st; backing := backing st;
                    drawn := S (drawn st) |})
      as (suffix & [Hlen Hall] & Hrun).
    exists (String c suffix). split.
    + split; [cbn; now rewrite Hlen | now constructor].
    + rewrite Hrun, append_assoc. cbn. unfold advance; cbn.
      do 2 f_equal. lia.
Qed.

Lemma generateId_run :
  inUnitInterval random ->
  forall length st,
    exists id,
      generated length id /\
      generateId random length st = (Resolved id, advance length st).
Proof.
  intros Hrandom length st.
  destruct (generateIdFrom_run Hrandom length "" st) as (id & Hid & Hrun).
  exists id. split; [exact Hid | exact Hrun].
Qed.

Lemma withId_with_id d st :
  truthy (d !! "_id") = true -> withId random d st = (Resolved d, st).
Proof. intros Hid. unfold withId. now rewrite Hid. Qed.

Lemma withId_without_id :
  inUnitInterval random ->
  forall d st,
    truthy (d !! "_id") = false ->
    exists id,
      generated 24 id /\
      withId random d st
      = (Resolved
           (d ∪ {[ "_id" := VStr id;
                   "_kmd" := VObj ({[ "local" := VBool true ]}
                                   ∪ (ownProperties (d !! "_kmd") ∪ ∅)) ]}),
         advance 24 st).
Proof.
  intros Hrandom d st Hid.
  destruct (generateId_run Hrandom 24 st) as (id & Hgen & Hrun).
  exists id. split; [exact Hgen|].
  unfold withId, andThen. rewrite Hid. cbn [negb]. now rewrite Hrun.
Qed.

Lemma withId_saved :
  inUnitInterval random ->
  forall d st,
    exists d',
      saved d d' /\
      withId random d st
      = (Resolved d', advance (if lacksId d then 24 else 0) st).
Proof.
  intros Hrandom d st. unfold lacksId, saved.
  destruct (truthy (d !! "_id")) eqn:Hid; cbn [negb].
  - exists d. split; [reflexivity|].
    now rewrite advance_0, withId_with_id.
  - destruct (withId_without_id Hrandom d st Hid) as (id & Hgen & Hrun).
    eexists. split; [|exact Hrun].
    split; [|split; [|split]].
    + intros k v Hk. apply lookup_union_Some_raw. now left.
    + intros k Hk1 Hk2. rewrite lookup_union.
      rewrite lookup_insert_ne by congruence.
      rewrite lookup_singleton_ne by congruence.
      now destruct (d !! k).
    + intros Hnone. exists id. split; [exact Hgen|].
      rewrite lookup_union_r by exact Hnone.
      apply lookup_insert_eq.
    + intros Hnone. rewrite lookup_union_r by exact Hnone.
      rewrite lookup_insert_ne by discriminate.
      rewrite lookup_singleton_eq, Hnone. cbn [ownProperties].
      now rewrite !(right_id_L ∅ (∪)).
Qed.

Lemma mapDocs_saved :
  inUnitInterval random ->
  forall docs st,
    exists docs',
      Forall2 saved docs docs' /\
      mapDocs (withId random) docs st
      = (Resolved docs', advance (24 * countLacking docs) st).
Proof.
  intros Hrandom docs.
  induction docs as [|d docs IH]; intros st.
  - exists []. split; [constructor|].
    cbn. unfold unit_. now rewrite advance_0.
  - destruct (withId_saved Hrandom d st) as (d' & Hd & Hrun).
    destruct (IH (advance (if lacksId d then 24 else 0) st))
      as (docs' & Hdocs & Hruns).
    exists (d' :: docs'). split; [now constructor|].
    cbn [mapDocs]. unfold andThen at 1. rewrite Hrun.
    unfold andThen. rewrite Hruns. unfold unit_.
    rewrite advance_advance. do 2 f_equal.
    unfold countLacking. cbn [List.filter].
    destruct (lacksId d); cbn [length]; lia.
Qed.

Lemma mapDocs_with_ids docs st :
  Forall (fun d => truthy (d !! "_id") = true) docs ->
  mapDocs (withId random) docs st = (Resolved docs, st).
Proof.
  intros Hids. revert st.
  induction Hids as [|d docs Hd _ IH]; intros st; [reflexivity|].
  cbn [mapDocs]. unfold andThen at 1. rewrite (withId_with_id _ _ Hd).
  unfold andThen. now rewrite IH.
Qed.

Lemma save_many_run docs docs' (this : Cache) st st' :
  docs <> [] ->
  length docs' = length docs ->
  mapDocs (withId random) docs st = (Resolved docs', st') ->
  save random this (Many docs) st = stored this docs' (ReturnedMany docs') st'.
Proof.
  intros Hne Hlen Hrun. unfold save, stored.
  destruct docs as [|d docs]; [congruence|].
  change (0 <? length (d :: docs))%nat with true. cbv iota.
  unfold andThen at 1. unfold andThen at 1. rewrite Hrun.
  unfold andThen, onStore.
  destruct (store_save (store st') (appKey this) (collectionName this) docs'
              (backing st')) as [[v|e] b]; reflexivity.
Qed.

Lemma save_one_run d d' (this : Cache) st st' :
  withId random d st = (Resolved d', st') ->
  save random this (One d) st = stored this [d'] (ReturnedOne d') st'.
Proof.
  intros Hrun. unfold save, stored.
  change (0 <? length [d])%nat with true. cbv iota.
  unfold andThen at 1. unfold andThen at 1. cbn [mapDocs].
  unfold andThen at 1. rewrite Hrun.
  unfold andThen, onStore, unit_.
  destruct (store_save (store st') (appKey this) (collectionName this) [d']
              (backing st')) as [[v|e] b]; reflexivity.
Qed.

End CacheProperties.

Lemma KinveyDemo_random_in_unit_interval :
  KinveyCache.inUnitInterval KinveyDemo.random.
Proof.
  intros i. unfold KinveyDemo.random, QArith_base.Qle, QArith_base.Qlt. cbn.
  pose proof (Nat.mod_upper_bound i 16). lia.
Qed.

(** X25.  [generateId]: when every draw of [Math.random] lies in [[0, 1)],
    [generateId(length)] returns a string of exactly [length] characters, each
    one of the sixteen characters of ['abcdef0123456789'], and makes exactly
    [length] draws. *)
Theorem generateId_draws_characters_of_the_alphabet
    {B : Type} (random : nat -> QArith_base.Q) (length : nat)
    (st : KinveyCache.State (B:=B)) :
  KinveyCache.inUnitInterval random ->
  exists id,
    KinveyCache.generated length id /\
    KinveyCache.generateId random length st
    = (KinveyCache.Resolved id, KinveyCache.advance length st).
Proof. intros Hrandom. apply generateId_run, Hrandom. Qed.

Lemma generateId_witness :
  exists id,
    KinveyCache.generated 24 id /\
    KinveyCache.generateId KinveyDemo.random 24 KinveyDemo.ready
    = (KinveyCache.Resolved id, KinveyCache.advance 24 KinveyDemo.ready).
Proof.
  apply (generateId_draws_characters_of_the_alphabet KinveyDemo.random 24
           KinveyDemo.ready).
  apply KinveyDemo_random_in_unit_interval.
Defined.

(** X26.  [Cache.save] of a non-empty array of documents that all have a
    truthy [_id]: the store's [save] is called once with the very same
    documents, no identifier is generated (no draw of [Math.random]), and the
    same documents are returned when the store resolves; when the store
    rejects, [save] rejects with its error. *)
Theorem save_passes_documents_with_ids_unchanged
    {B : Type} (random : nat -> QArith_base.Q) (this : KinveyCache.Cache)
    (docs : list KinveyCache.doc) (st : KinveyCache.State (B:=B)) :
  docs <> [] ->
  Forall (fun d => KinveyCache.truthy (d !! "_id") = true) docs ->
  KinveyCache.save random this (KinveyCache.Many docs) st
  = KinveyCache.stored this docs (KinveyCache.ReturnedMany docs) st.
Proof.
  intros Hne Hids.
  apply save_many_run; [exact Hne | reflexivity |].
  apply mapDocs_with_ids, Hids.
Qed.

Lemma save_passes_documents_with_ids_witness :
  KinveyCache.save KinveyDemo.random KinveyDemo.books
    (KinveyCache.Many [KinveyDemo.known]) KinveyDemo.ready
  = KinveyCache.stored KinveyDemo.books [KinveyDemo.known]
      (KinveyCache.ReturnedMany [KinveyDemo.known]) KinveyDemo.ready.
Proof.
  apply (save_passes_documents_with_ids_unchanged KinveyDemo.random
           KinveyDemo.books [KinveyDemo.known] KinveyDemo.ready).
  - discriminate.
  - constructor; [reflexivity | constructor].
Defined.

(** X27.  [Cache.save] of any non-empty array: the store's [save] is called
    once with an array of the same length and order, after [24] draws for
    each document without a truthy [_id].  A document with a truthy [_id] is
    handed over as it is; of any other document every own property keeps its
    value (also an own falsy [_id] and an own [_kmd]), every property other
    than [_id] and [_kmd] is as in the document, an absent [_id] becomes a
    generated identifier of 24 characters and an absent [_kmd] becomes
    [{ local: true }]. *)
Theorem save_never_overwrites_an_own_property
    {B : Type} (random : nat -> QArith_base.Q) (this : KinveyCache.Cache)
    (docs : list KinveyCache.doc) (st : KinveyCache.State (B:=B)) :
  KinveyCache.inUnitInterval random ->
  docs <> [] ->
  exists docs',
    Forall2 KinveyCache.saved docs docs' /\
    KinveyCache.save random this (KinveyCache.Many docs) st
    = KinveyCache.stored this docs' (KinveyCache.ReturnedMany docs')
        (KinveyCache.advance (24 * KinveyCache.countLacking docs) st).
Proof.
  intros Hrandom Hne.
  destruct (mapDocs_saved random Hrandom docs st) as (docs' & Hsaved & Hrun).
  exists docs'. split; [exact Hsaved|].
  apply save_many_run; [exact Hne | | exact Hrun].
  symmetry. eapply Forall2_length, Hsaved.
Qed.

Lemma save_never_overwrites_witness :
  exists docs',
    Forall2 KinveyCache.saved [KinveyDemo.known; KinveyDemo.draft] docs' /\
    KinveyCache.save KinveyDemo.random KinveyDemo.books
      (KinveyCache.Many [KinveyDemo.known; KinveyDemo.draft]) KinveyDemo.ready
    = KinveyCache.stored KinveyDemo.books docs' (KinveyCache.ReturnedMany docs')
        (KinveyCache.advance
           (24 * KinveyCache.countLacking [KinveyDemo.known; KinveyDemo.draft])
           KinveyDemo.ready).
Proof.
  apply (save_never_overwrites_an_own_property KinveyDemo.random
           KinveyDemo.books [KinveyDemo.known; KinveyDemo.draft]
           KinveyDemo.ready).
  - apply KinveyDemo_random_in_unit_interval.
  - discriminate.
Defined.

(** X28.  [Cache.save] of a single document that has neither an [_id] nor a
    [_kmd] property: the store's [save] receives a one-element array holding
    the document extended with [_id], a generated identifier of 24 characters
    of the alphabet, and [_kmd: { local: true }]; that extended document (not
    an array) is what [save] returns when the store resolves. *)
Theorem save_stamps_a_new_document
    {B : Type} (random : nat -> QArith_base.Q) (this : KinveyCache.Cache)
    (d : KinveyCache.doc) (st : KinveyCache.State (B:=B)) :
  KinveyCache.inUnitInterval random ->
  d !! "_id" = None ->
  d !! "_kmd" = None ->
  exists id,
    KinveyCache.generated 24 id /\
    let d' :=
      <[ "_id" := KinveyCache.VStr id ]>
        (<[ "_kmd" := KinveyCache.VObj {[ "local" := KinveyCache.VBool true ]} ]> d) in
    KinveyCache.save random this (KinveyCache.One d) st
    = KinveyCache.stored this [d'] (KinveyCache.ReturnedOne d')
        (KinveyCache.advance 24 st).
Proof.
  intros Hrandom Hid Hkmd.
  assert (Hfalsy : KinveyCache.truthy (d !! "_id") = false) by now rewrite Hid.
  destruct (withId_without_id random Hrandom d st Hfalsy) as (id & Hgen & Hrun).
  exists id. split; [exact Hgen|]. cbv zeta.
  apply save_one_run. rewrite Hrun. do 2 f_equal.
  rewrite Hkmd. cbn [KinveyCache.ownProperties].
  rewrite !(right_id_L ∅ (∪)).
  apply map_eq. intros k.
  destruct (decide (k = "_id")) as [->|Hk1].
  { rewrite lookup_union_r by exact Hid. now rewrite !lookup_insert_eq. }
  destruct (decide (k = "_kmd")) as [->|Hk2].
  { rewrite lookup_union_r by exact Hkmd.
    rewrite !(lookup_insert_ne _ "_id" "_kmd") by discriminate.
    now rewrite lookup_singleton_eq, lookup_insert_eq. }
  rewrite lookup_union, !lookup_insert_ne by congruence.
  rewrite lookup_singleton_ne by congruence.
  now destruct (d !! k).
Qed.

Lemma save_stamps_a_new_document_witness :
  exists id,
    KinveyCache.generated 24 id /\
    let d' :=
      <[ "_id" := KinveyCache.VStr id ]>
        (<[ "_kmd" := KinveyCache.VObj {[ "local" := KinveyCache.VBool true ]} ]>
           KinveyDemo.fresh) in
    KinveyCache.save KinveyDemo.random KinveyDemo.books
      (KinveyCache.One KinveyDemo.fresh) KinveyDemo.ready
    = KinveyCache.stored KinveyDemo.books [d'] (KinveyCache.ReturnedOne d')
        (KinveyCache.advance 24 KinveyDemo.ready).
Proof.
  apply (save_stamps_a_new_document KinveyDemo.random KinveyDemo.books
           KinveyDemo.fresh KinveyDemo.ready).
  - apply KinveyDemo_random_in_unit_interval.
  - reflexivity.
  - reflexivity.
Defined.

(** X29.  [Cache.save] of a single document that has an own falsy [_id]
    (such as the empty string) and an own [_kmd]: an identifier is generated
    (24 draws) but [Object.assign] lets the document's own properties win, so
    the store receives the document unchanged, without a usable [_id] and
    without the [local] mark, and that document is returned. *)
Theorem save_keeps_a_falsy_id
    {B : Type} (random : nat -> QArith_base.Q) (this : KinveyCache.Cache)
    (d : KinveyCache.doc) (st : KinveyCache.State (B:=B)) :
  KinveyCache.inUnitInterval random ->
  KinveyCache.truthy (d !! "_id") = false ->
  is_Some (d !! "_id") ->
  is_Some (d !! "_kmd") ->
  KinveyCache.save random this (KinveyCache.One d) st
  = KinveyCache.stored this [d] (KinveyCache.ReturnedOne d)
      (KinveyCache.advance 24 st).
Proof.
  intros Hrandom Hfalsy [v Hid] [m Hkmd].
  destruct (withId_without_id random Hrandom d st Hfalsy) as (id & Hgen & Hrun).
  apply save_one_run. rewrite Hrun. do 2 f_equal.
  apply map_eq. intros k. rewrite lookup_union.
  destruct (decide (k = "_id")) as [->|Hk1]; [now rewrite Hid|].
  destruct (decide (k = "_kmd")) as [->|Hk2]; [now rewrite Hkmd|].
  rewrite lookup_insert_ne by congruence.
  rewrite lookup_singleton_ne by congruence.
  now destruct (d !! k).
Qed.

Lemma save_keeps_a_falsy_id_witness :
  KinveyCache.save KinveyDemo.random KinveyDemo.books
    (KinveyCache.One KinveyDemo.draft) KinveyDemo.ready
  = KinveyCache.stored KinveyDemo.books [KinveyDemo.draft]
      (KinveyCache.ReturnedOne KinveyDemo.draft)
      (KinveyCache.advance 24 KinveyDemo.ready).
Proof.
  apply (save_keeps_a_falsy_id KinveyDemo.random KinveyDemo.books
           KinveyDemo.draft KinveyDemo.ready).
  - apply KinveyDemo_random_in_unit_interval.
  - reflexivity.
  - exists (KinveyCache.VStr ""). reflexivity.
  - exists (KinveyCache.VObj {[ "lmt" := KinveyCache.VStr "today" ]}). reflexivity.
Defined.

(** X30.  The default store and [use]: as long as [use] has only been called
    with a falsy argument, the module's store is the default one, and
    [Cache.save] of a non-empty array rejects with the error
    ['You must override the default cache adapter.'], after the identifiers
    of the documents without a truthy [_id] have been generated. *)
Theorem save_rejects_until_a_store_is_used
    {B : Type} (random : nat -> QArith_base.Q) (this : KinveyCache.Cache)
    (docs : list KinveyCache.doc) (b : B) :
  KinveyCache.inUnitInterval random ->
  docs <> [] ->
  KinveyCache.andThen (KinveyCache.use None)
    (fun _ => KinveyCache.save random this (KinveyCache.Many docs))
    (KinveyCache.initial b)
  = (KinveyCache.Rejected
       (KinveyCache.Error "You must override the default cache adapter."),
     KinveyCache.advance (24 * KinveyCache.countLacking docs)
       (KinveyCache.initial b)).
Proof.
  intros Hrandom Hne.
  destruct (mapDocs_saved random Hrandom docs (KinveyCache.initial b))
    as (docs' & Hsaved & Hrun).
  unfold KinveyCache.andThen at 1. cbn [KinveyCache.use].
  rewrite (save_many_run random docs docs' this _ _ Hne
             (eq_sym (Forall2_length _ _ _ Hsaved)) Hrun).
  reflexivity.
Qed.

Lemma save_rejects_until_a_store_is_used_witness :
  KinveyCache.andThen (KinveyCache.use None)
    (fun _ => KinveyCache.save KinveyDemo.random KinveyDemo.books
                (KinveyCache.Many [KinveyDemo.fresh]))
    (KinveyCache.initial ([] : list (list KinveyCache.doc)))
  = (KinveyCache.Rejected
       (KinveyCache.Error "You must override the default cache adapter."),
     KinveyCache.advance (24 * KinveyCache.countLacking [KinveyDemo.fresh])
       (KinveyCache.initial [])).
Proof.
  apply (save_rejects_until_a_store_is_used KinveyDemo.random KinveyDemo.books
           [KinveyDemo.fresh] []).
  - apply KinveyDemo_random_in_unit_interval.
  - discriminate.
Defined.
